(** * ECOMMERCE-TS: order, cart, pricing and refund workflows

    A shallow embedding of the route handlers and helpers of the
    TypeScript e-commerce API (src/utils/helpers.ts, src/utils/database.ts,
    src/utils/validators.ts and the order, product, cart and payment
    routes), followed by the properties of the specification stated over
    that embedding.

    Conventions of the embedding:
    - a JavaScript [number] that carries money, weight or a percentage is
      an IEEE-754 binary64 value, Rocq's primitive [float];
    - stock levels and quantities are integer-valued numbers and are
      modelled by [Z]; they are injected into [float] (correctly rounded)
      where the code multiplies them with a price.  The code adds and
      subtracts them in binary64, which is the addition and subtraction
      of [Z] as long as the operands and the result are integers of
      absolute value below 2^53 (lemmas [of_Z_add] and [of_Z_sub]);
      beyond that range the integer model does not follow the code;
    - a [Date] is its millisecond time stamp, a [Z];
    - the in-memory [database] is threaded explicitly through every
      handler; an object reference into a collection is the index of the
      object in that collection;
    - [Date.now()] and the random characters of [generateId] come from an
      explicit environment [Env]. *)

From Stdlib Require Import ZArith List String Ascii Bool Lia Floats DecimalString.
Import ListNotations.

Set Warnings "-inexact-float".
Local Open Scope string_scope.
Local Open Scope Z_scope.

(** ** The JavaScript runtime operations the code relies on *)

Module JS.

Definition number := float.

(** [Number.isNaN] *)
Definition isNaN (x : number) : bool := negb (PrimFloat.eqb x x).

(** Truthiness of a number: everything but [+0], [-0] and [NaN]. *)
Definition truthy (x : number) : bool :=
  negb (isNaN x || PrimFloat.eqb x 0%float).

(** [x || d] on numbers. *)
Definition or_else (x d : number) : number := if truthy x then x else d.

(** [x || d] where [x] may be [undefined]. *)
Definition opt_or_else (x : option number) (d : number) : number :=
  match x with
  | Some v => or_else v d
  | None => d
  end.

(** [q || d] on integer-valued numbers: only zero is falsy. *)
Definition int_or_else (q d : Z) : Z := if q =? 0 then d else q.

(** The number nearest to an integer (exact below 2^53). *)
Definition of_Z (z : Z) : number :=
  SF2Prim (binary_normalize prec emax z 0 false).

(** [Math.round]: the nearest integer, ties towards +infinity; the
    result keeps the sign of its argument when it is a zero. *)
Definition Math_round (x : number) : number :=
  match Prim2SF x with
  | S754_finite s m e =>
      if 0 <=? e then x
      else
        let v := if s then Z.neg m else Z.pos m in
        let n := (2 * v + 2 ^ (- e)) / 2 ^ (- e + 1) in
        if n =? 0 then (if s then (-0)%float else 0%float) else of_Z n
  | _ => x
  end.

(** [Math.pow(10, d)] for a natural [d], correctly rounded; the code
    calls it with [d = 2] only. *)
Definition pow10 (d : nat) : number := of_Z (10 ^ Z.of_nat d).

(** Decimal digits of a natural number, ["0"] for zero. *)
Definition digits (n : Z) : string :=
  NilZero.string_of_uint (N.to_uint (Z.to_N n)).

Fixpoint zeros (k : nat) : string :=
  match k with
  | O => EmptyString
  | S k' => String "0" (zeros k')
  end.

Fixpoint take (k : nat) (s : string) : string :=
  match k, s with
  | S k', String c s' => String c (take k' s')
  | _, _ => EmptyString
  end.

Fixpoint drop (k : nat) (s : string) : string :=
  match k, s with
  | S k', String _ s' => drop k' s'
  | _, _ => s
  end.

(** Steps 10-11 of [Number.prototype.toFixed]: the integer [n] printed
    with [f] digits after the point. *)
Definition fixed_digits (n : Z) (f : nat) : string :=
  let m := digits n in
  match f with
  | O => m
  | _ =>
      let k := String.length m in
      let m' := if Nat.leb k f then zeros (f + 1 - k)%nat ++ m else m in
      let k' := String.length m' in
      take (k' - f)%nat m' ++ "." ++ drop (k' - f)%nat m'
  end.

(** [Number::toString] for an integer-valued double [m * 2^e] that is at
    least 10^21: the shortest decimal that reads back as the same
    double, in exponent form. *)
Section ToStringLarge.
Variables (m : positive) (e : Z).

Let X : Z := Z.pos m * 2 ^ e.
Let hi : Z := X + 2 ^ (e - 1).
Let lo : Z := X - (if Z.pos m =? 2 ^ 52 then 2 ^ (e - 2) else 2 ^ (e - 1)).

Definition reads_back (D : Z) : bool :=
  if Z.even (Z.pos m) then (lo <=? D) && (D <=? hi)
  else (lo <? D) && (D <? hi).

(** The candidates with [k] digits at decimal exponent [n]. *)
Definition candidates (k n : Z) : list (Z * Z) :=
  let p := 10 ^ (n - k) in
  filter
    (fun sn => let s := fst sn in
       (10 ^ (k - 1) <=? s) && (s <? 10 ^ k) && reads_back (s * p))
    [ (X / p, n); (X / p + 1, n) ].

Definition closer (a b : Z * Z) (k : Z) : Z * Z :=
  let da := Z.abs (fst a * 10 ^ (snd a - k) - X) in
  let db := Z.abs (fst b * 10 ^ (snd b - k) - X) in
  if da <? db then a
  else if db <? da then b
  else if Z.even (fst a) then a else b.

Definition best (k : Z) : option (Z * Z) :=
  let N := Z.of_nat (String.length (digits X)) in
  match (candidates k N ++ candidates k (N + 1))%list with
  | [] => None
  | c :: cs => Some (fold_left (fun a b => closer a b k) cs c)
  end.

Fixpoint shortest (fuel : nat) (k : Z) : option (Z * Z) :=
  match fuel with
  | O => None
  | S fuel' =>
      match best k with
      | Some c => Some c
      | None => shortest fuel' (k + 1)
      end
  end.

Definition toString_large : string :=
  match shortest 17 1 with
  | Some (s, n) =>
      let d := digits s in
      take 1 d
        ++ (if Nat.leb (String.length d) 1 then "" else "." ++ drop 1 d)
        ++ "e+" ++ digits (n - 1)
  | None => digits X
  end.
End ToStringLarge.

(** [Number.prototype.toFixed(f)]. *)
Definition toFixed (x : number) (f : nat) : string :=
  match Prim2SF x with
  | S754_nan => "NaN"
  | S754_infinity s => if s then "-Infinity" else "Infinity"
  | S754_zero _ => fixed_digits 0 f
  | S754_finite s m e =>
      let sign := if s then "-" else "" in
      if (0 <=? e) && (10 ^ 21 <=? Z.pos m * 2 ^ e) then
        sign ++ toString_large m e
      else
        let scaled := Z.pos m * 10 ^ Z.of_nat f in
        let n :=
          if 0 <=? e then scaled * 2 ^ e
          else (2 * scaled + 2 ^ (- e)) / 2 ^ (- e + 1) in
        sign ++ fixed_digits n f
  end.

(** [s.toUpperCase()] on the characters of a base-36 numeral: the
    letters a-z become A-Z, the digits stay. *)
Definition upper (c : ascii) : ascii :=
  if (97 <=? nat_of_ascii c)%nat && (nat_of_ascii c <=? 122)%nat
  then ascii_of_nat (nat_of_ascii c - 32)
  else c.

Fixpoint toUpperCase (s : string) : string :=
  match s with
  | EmptyString => EmptyString
  | String c s' => String (upper c) (toUpperCase s')
  end.

(** [parseFloat(String(x))] of a number: the number itself, except that
    [String(-0)] is ["0"], which reads back as [+0]. *)
Definition parseFloat_String (x : number) : number :=
  match Prim2SF x with
  | S754_zero _ => 0%float
  | _ => x
  end.

End JS.

(** ** src/types: the data model *)

Definition Date := Z.

(** A field of a [Partial<T>] update overrides the stored field when the
    update carries it (object spread). *)
Definition override {A : Type} (u : option A) (old : A) : A :=
  match u with
  | Some v => v
  | None => old
  end.

Definition override_opt {A : Type} (u old : option A) : option A :=
  match u with
  | Some v => Some v
  | None => old
  end.

Module Product.
Record t := mk {
  id : string;
  name : string;
  price : JS.number;
  categoryId : string;
  stock : Z;
  description : option string;
  averageRating : option JS.number;
  reviewCount : option Z;
  createdAt : option Date;
  updatedAt : option Date
}.

(** [Partial<Product>] *)
Record partial := mkPartial {
  id' : option string;
  name' : option string;
  price' : option JS.number;
  categoryId' : option string;
  stock' : option Z;
  description' : option string;
  averageRating' : option JS.number;
  reviewCount' : option Z;
  createdAt' : option Date;
  updatedAt' : option Date
}.

(** The object literal [{ stock: s }]. *)
Definition only_stock (s : Z) : partial :=
  mkPartial None None None None (Some s) None None None None None.

(** [{ ...p, ...u }] *)
Definition spread (p : t) (u : partial) : t :=
  mk (override (id' u) (id p))
     (override (name' u) (name p))
     (override (price' u) (price p))
     (override (categoryId' u) (categoryId p))
     (override (stock' u) (stock p))
     (override_opt (description' u) (description p))
     (override_opt (averageRating' u) (averageRating p))
     (override_opt (reviewCount' u) (reviewCount p))
     (override_opt (createdAt' u) (createdAt p))
     (override_opt (updatedAt' u) (updatedAt p)).

Definition with_id (i : string) (p : t) : t :=
  mk i (name p) (price p) (categoryId p) (stock p) (description p)
     (averageRating p) (reviewCount p) (createdAt p) (updatedAt p).

Definition with_createdAt (d : Date) (p : t) : t :=
  mk (id p) (name p) (price p) (categoryId p) (stock p) (description p)
     (averageRating p) (reviewCount p) (Some d) (updatedAt p).

Definition with_updatedAt (d : Date) (p : t) : t :=
  mk (id p) (name p) (price p) (categoryId p) (stock p) (description p)
     (averageRating p) (reviewCount p) (createdAt p) (Some d).
End Product.

Record Address := mkAddress {
  street : string;
  city : string;
  state : option string;
  zipCode : string;
  country : option string
}.

Inductive OrderStatus :=
  pending | confirmed | processing | shipped | delivered | cancelled.

Definition OrderStatus_eqb (a b : OrderStatus) : bool :=
  match a, b with
  | pending, pending | confirmed, confirmed | processing, processing
  | shipped, shipped | delivered, delivered | cancelled, cancelled => true
  | _, _ => false
  end.

Module OrderItem.
Record t := mk {
  productId : string;
  name : option string;
  price : JS.number;
  quantity : Z;
  weight : option JS.number;
  discountPercent : option JS.number
}.
End OrderItem.

Record OrderTotals := mkTotals {
  subtotal : string;
  tax : string;
  shipping : string;
  total : string;
  rawTotal : JS.number
}.

Module Order.
Record t := mk {
  id : string;
  userId : string;
  items : list OrderItem.t;
  shippingAddress : Address;
  shippingMethod : option string;
  status : OrderStatus;
  paymentStatus : option string;
  shippingStatus : option string;
  totals : option OrderTotals;
  createdAt : option Date;
  confirmedAt : option Date;
  processingAt : option Date;
  shippedAt : option Date;
  deliveredAt : option Date;
  cancelledAt : option Date;
  updatedAt : option Date
}.

(** [Partial<Order>]: a request body, or the argument of [updateRecord]. *)
Record partial := mkPartial {
  id' : option string;
  userId' : option string;
  items' : option (list OrderItem.t);
  shippingAddress' : option Address;
  shippingMethod' : option string;
  status' : option OrderStatus;
  paymentStatus' : option string;
  shippingStatus' : option string;
  totals' : option OrderTotals;
  createdAt' : option Date;
  confirmedAt' : option Date;
  processingAt' : option Date;
  shippedAt' : option Date;
  deliveredAt' : option Date;
  cancelledAt' : option Date;
  updatedAt' : option Date
}.

(** The object literal [{ status }]. *)
Definition only_status (s : OrderStatus) : partial :=
  mkPartial None None None None None (Some s) None None
            None None None None None None None None.

(** [{ ...o, ...u }] *)
Definition spread (o : t) (u : partial) : t :=
  mk (override (id' u) (id o))
     (override (userId' u) (userId o))
     (override (items' u) (items o))
     (override (shippingAddress' u) (shippingAddress o))
     (override_opt (shippingMethod' u) (shippingMethod o))
     (override (status' u) (status o))
     (override_opt (paymentStatus' u) (paymentStatus o))
     (override_opt (shippingStatus' u) (shippingStatus o))
     (override_opt (totals' u) (totals o))
     (override_opt (createdAt' u) (createdAt o))
     (override_opt (confirmedAt' u) (confirmedAt o))
     (override_opt (processingAt' u) (processingAt o))
     (override_opt (shippedAt' u) (shippedAt o))
     (override_opt (deliveredAt' u) (deliveredAt o))
     (override_opt (cancelledAt' u) (cancelledAt o))
     (override_opt (updatedAt' u) (updatedAt o)).

Definition with_id (i : string) (o : t) : t :=
  mk i (userId o) (items o) (shippingAddress o) (shippingMethod o)
     (status o) (paymentStatus o) (shippingStatus o) (totals o)
     (createdAt o) (confirmedAt o) (processingAt o) (shippedAt o)
     (deliveredAt o) (cancelledAt o) (updatedAt o).

Definition with_createdAt (d : Date) (o : t) : t :=
  mk (id o) (userId o) (items o) (shippingAddress o) (shippingMethod o)
     (status o) (paymentStatus o) (shippingStatus o) (totals o)
     (Some d) (confirmedAt o) (processingAt o) (shippedAt o)
     (deliveredAt o) (cancelledAt o) (updatedAt o).

Definition with_updatedAt (d : Date) (o : t) : t :=
  mk (id o) (userId o) (items o) (shippingAddress o) (shippingMethod o)
     (status o) (paymentStatus o) (shippingStatus o) (totals o)
     (createdAt o) (confirmedAt o) (processingAt o) (shippedAt o)
     (deliveredAt o) (cancelledAt o) (Some d).
End Order.

Module CartItem.
Record t := mk {
  productId : string;
  name : option string;
  price : JS.number;
  quantity : Z;
  addedAt : option Date
}.

(** The assignment [item.quantity = q]. *)
Definition set_quantity (q : Z) (i : t) : t :=
  mk (productId i) (name i) (price i) q (addedAt i).
End CartItem.

Module Cart.
Record t := mk {
  id : string;
  userId : string;
  items : list CartItem.t;
  createdAt : option Date;
  updatedAt : option Date
}.

(** The assignments [cart.items = l] and [cart.updatedAt = d]. *)
Definition set_items (l : list CartItem.t) (c : t) : t :=
  mk (id c) (userId c) l (createdAt c) (updatedAt c).

Definition set_updatedAt (d : Date) (c : t) : t :=
  mk (id c) (userId c) (items c) (createdAt c) (Some d).
End Cart.

Inductive PaymentMethod := credit_card | debit_card | paypal | bank_transfer.

Inductive PaymentStatus :=
  pay_pending | pay_completed | pay_refunded | pay_failed.

Definition PaymentStatus_eqb (a b : PaymentStatus) : bool :=
  match a, b with
  | pay_pending, pay_pending | pay_completed, pay_completed
  | pay_refunded, pay_refunded | pay_failed, pay_failed => true
  | _, _ => false
  end.

Module Payment.
Record t := mk {
  id : string;
  orderId : string;
  method : PaymentMethod;
  amount : JS.number;
  formattedAmount : option string;
  transactionId : option string;
  cardNumber : option string;
  status : PaymentStatus;
  createdAt : option Date;
  updatedAt : option Date
}.

(** The assignments [payment.status = s] and [payment.updatedAt = d]. *)
Definition set_status (s : PaymentStatus) (p : t) : t :=
  mk (id p) (orderId p) (method p) (amount p) (formattedAmount p)
     (transactionId p) (cardNumber p) s (createdAt p) (updatedAt p).

Definition set_updatedAt (d : Date) (p : t) : t :=
  mk (id p) (orderId p) (method p) (amount p) (formattedAmount p)
     (transactionId p) (cardNumber p) (status p) (createdAt p) (Some d).
End Payment.

(** The collections of the store that the order, cart, product and
    payment workflows read and write. *)
Record Database := mkDatabase {
  products : list Product.t;
  orders : list Order.t;
  carts : list Cart.t;
  payments : list Payment.t
}.

Definition set_products (l : list Product.t) (db : Database) : Database :=
  mkDatabase l (orders db) (carts db) (payments db).

Definition set_orders (l : list Order.t) (db : Database) : Database :=
  mkDatabase (products db) l (carts db) (payments db).

Definition set_carts (l : list Cart.t) (db : Database) : Database :=
  mkDatabase (products db) (orders db) l (payments db).

Definition set_payments (l : list Payment.t) (db : Database) : Database :=
  mkDatabase (products db) (orders db) (carts db) l.

(** ** The environment of a request: the clock and the random source *)

Record Env := mkEnv {
  now : Date;                 (* Date.now(), new Date() *)
  random_chars : string;      (* generateRandomString(8) *)
  random_suffix : string      (* Math.random().toString(36).substr(2, 9) *)
}.

(** ** src/utils/helpers.ts *)

Module Helpers.

Definition digit36 (d : Z) : ascii :=
  match get (Z.to_nat d) "0123456789abcdefghijklmnopqrstuvwxyz" with
  | Some c => c
  | None => "0"%char
  end.

Fixpoint to_base36 (fuel : nat) (n : Z) (acc : string) : string :=
  match fuel with
  | O => acc
  | S fuel' =>
      let acc' := String (digit36 (n mod 36)) acc in
      if n / 36 =? 0 then acc' else to_base36 fuel' (n / 36) acc'
  end.

(** [n.toString(36)] for an integer time stamp. *)
Definition toString36 (n : Z) : string :=
  if n <? 0 then "-" ++ to_base36 (S (Z.to_nat (Z.log2 (- n)))) (- n) ""
  else to_base36 (S (Z.to_nat (Z.log2 n))) n "".

Definition getTimestamp (env : Env) : string := toString36 (now env).

Definition generateRandomString (env : Env) : string := random_chars env.

Definition formatIdString (timestamp random : string) : string :=
  timestamp ++ "-" ++ random.

Definition generateId (env : Env) : string :=
  let timestamp := getTimestamp env in
  let random := generateRandomString env in
  formatIdString timestamp random.

Definition validateAmount (amount : JS.number) : JS.number :=
  let parsed := JS.parseFloat_String amount in
  if JS.isNaN parsed then 0%float else parsed.

Definition roundToDecimals (value : JS.number) (decimals : nat) : JS.number :=
  let multiplier := JS.pow10 decimals in
  (JS.Math_round (value * multiplier) / multiplier)%float.

Definition formatCurrency (amount : JS.number) : string :=
  "$" ++ JS.toFixed amount 2.

Definition formatPrice (amount : JS.number) : string :=
  let validated := validateAmount amount in
  let rounded := roundToDecimals validated 2 in
  formatCurrency rounded.

Definition calculateDiscountAmount (price percent : JS.number) : JS.number :=
  (price * percent / 100)%float.

Definition applyDiscount (price : JS.number) (discountPercent : option JS.number)
  : JS.number :=
  match discountPercent with
  | Some percent =>
      if negb (JS.truthy percent) then price
      else (price - calculateDiscountAmount price percent)%float
  | None => price
  end.

Definition calculateItemTotal (item : OrderItem.t) : JS.number :=
  let price := JS.or_else (OrderItem.price item) 0%float in
  let quantity := JS.int_or_else (OrderItem.quantity item) 1 in
  let discount := applyDiscount price (OrderItem.discountPercent item) in
  (discount * JS.of_Z quantity)%float.

Definition calculateSubtotal (items : list OrderItem.t) : JS.number :=
  fold_left (fun sum item => (sum + calculateItemTotal item)%float)
            items 0%float.

Definition getTaxRate : JS.number := 0.08%float.

Definition calculateTax (subtotal : JS.number) : JS.number :=
  let taxRate := getTaxRate in
  roundToDecimals (subtotal * taxRate)%float 2.

Definition calculateTotalWeight (items : list OrderItem.t) : JS.number :=
  fold_left
    (fun sum item =>
       (sum + JS.opt_or_else (OrderItem.weight item) 0.5%float)%float)
    items 0%float.

Definition getBaseShippingRate : JS.number := 5.99%float.

Definition calculateWeightBasedShipping (weight baseRate : JS.number)
  : JS.number :=
  let weightSurcharge := (weight * 0.5)%float in
  roundToDecimals (baseRate + weightSurcharge)%float 2.

Definition calculateShippingCost (items : list OrderItem.t) : JS.number :=
  let totalWeight := calculateTotalWeight items in
  let baseRate := getBaseShippingRate in
  calculateWeightBasedShipping totalWeight baseRate.

Definition computeFinalTotal (subtotal tax shipping : JS.number)
  : OrderTotals :=
  let total := (subtotal + tax + shipping)%float in
  {| subtotal := formatPrice subtotal;
     tax := formatPrice tax;
     shipping := formatPrice shipping;
     total := formatPrice total;
     rawTotal := total |}.

Definition calculateTotal (items : list OrderItem.t) : OrderTotals :=
  let subtotal := calculateSubtotal items in
  let tax := calculateTax subtotal in
  let shipping := calculateShippingCost items in
  computeFinalTotal subtotal tax shipping.

End Helpers.

(** ** src/utils/responseFormatter.ts *)

Record ApiResponse (A : Type) := mkResponse {
  success : bool;
  message : string;
  data : option A
}.
Arguments mkResponse {A}.
Arguments success {A}.
Arguments message {A}.
Arguments data {A}.

(** What a handler sends: the HTTP status and the JSON envelope (without
    its time stamp and request id). *)
Record Reply (A : Type) := mkReply {
  code : Z;
  body : ApiResponse A
}.
Arguments mkReply {A}.
Arguments code {A}.
Arguments body {A}.

Definition is_some {A : Type} (o : option A) : bool :=
  match o with
  | Some _ => true
  | None => false
  end.

(** [s || d] on strings that may be [undefined]. *)
Definition str_or_else (s : option string) (d : string) : string :=
  match s with
  | Some v => if (v =? "")%string then d else v
  | None => d
  end.

Definition formatResponse {A : Type} (d : option A) (msg : string)
  : ApiResponse A :=
  {| success := is_some d; message := msg; data := d |}.

Definition formatErrorResponse {A : Type} (msg : option string)
  : ApiResponse A :=
  {| success := false;
     message := str_or_else msg "An unexpected error occurred";
     data := None |}.

(** [res.json(r)] and [res.status(c).json(r)] *)
Definition json {A : Type} (r : ApiResponse A) : Reply A := mkReply 200 r.
Definition status_json {A : Type} (c : Z) (r : ApiResponse A) : Reply A :=
  mkReply c r.

(** ** src/utils/validators.ts *)

Module Validators.

Record ValidationError := mkError {
  field : string;
  err_message : string
}.

Record ValidationResult := mkResult {
  isValid : bool;
  errors : list ValidationError
}.

Definition createValidationError (f m : string) : ValidationError :=
  mkError f m.

Definition buildValidationResult (errs : list ValidationError)
  : ValidationResult :=
  {| isValid := Nat.eqb (List.length errs) 0; errors := errs |}.

(** [value !== undefined && value !== null && value !== ''] *)
Definition validateRequiredField (value : option string) : bool :=
  match value with
  | Some v => negb (v =? "")%string
  | None => false
  end.

Definition validatePrice (price : option JS.number) : bool :=
  match price with
  | Some p =>
      let numPrice := JS.parseFloat_String p in
      negb (JS.isNaN numPrice) && PrimFloat.ltb 0%float numPrice
  | None => false
  end.

(** [parseInt(String(stock)) >= 0].  [parseInt(String(stock))] of an
    integer of absolute value below 10^21 is the integer; from 10^21 on
    [String] gives the exponent form, of which [parseInt] reads the
    digits before the point with their sign, so the comparison with 0
    has the same answer; of [undefined] it is [NaN]. *)
Definition validateStock (stock : option Z) : bool :=
  match stock with
  | Some numStock => 0 <=? numStock
  | None => false
  end.

Definition validateOrderItems (items : option (list OrderItem.t)) : bool :=
  match items with
  | Some l => Nat.ltb 0 (List.length l)
  | None => false
  end.

Definition validateShippingAddress (address : option Address) : bool :=
  match address with
  | None => false
  | Some addr =>
      validateRequiredField (Some (street addr))
      && validateRequiredField (Some (city addr))
      && validateRequiredField (Some (zipCode addr))
  end.

(** [if (!ok) errors.push(e)] *)
Definition push_unless (ok : bool) (e : ValidationError)
    (errs : list ValidationError) : list ValidationError :=
  if ok then errs else (errs ++ [e])%list.

Definition validateProduct (product : Product.partial) : ValidationResult :=
  let errs := [] in
  let errs :=
    push_unless (validateRequiredField (Product.name' product))
      (createValidationError "name" "Product name is required") errs in
  let errs :=
    push_unless (validatePrice (Product.price' product))
      (createValidationError "price" "Valid price is required") errs in
  let errs :=
    push_unless (validateStock (Product.stock' product))
      (createValidationError "stock" "Valid stock quantity is required")
      errs in
  buildValidationResult errs.

Definition validateOrder (order : Order.partial) : ValidationResult :=
  let errs := [] in
  let errs :=
    push_unless (validateRequiredField (Order.userId' order))
      (createValidationError "userId" "User ID is required") errs in
  let errs :=
    push_unless (validateOrderItems (Order.items' order))
      (createValidationError "items" "Order must have at least one item")
      errs in
  let errs :=
    push_unless (validateShippingAddress (Order.shippingAddress' order))
      (createValidationError "shippingAddress"
         "Valid shipping address is required") errs in
  buildValidationResult errs.

(** [JSON.stringify(errors)]; the field names and messages above need
    no escaping. *)
Definition quote (s : string) : string :=
  String (ascii_of_nat 34) (s ++ String (ascii_of_nat 34) EmptyString).

Definition stringify_error (e : ValidationError) : string :=
  "{" ++ quote "field" ++ ":" ++ quote (field e) ++ ","
      ++ quote "message" ++ ":" ++ quote (err_message e) ++ "}".

Definition JSON_stringify (errs : list ValidationError) : string :=
  "[" ++ String.concat "," (map stringify_error errs) ++ "]".

End Validators.

(** ** src/utils/database.ts *)

(** [Array.prototype.findIndex]; [None] stands for [-1]. *)
Fixpoint findIndex {A : Type} (f : A -> bool) (l : list A) : option nat :=
  match l with
  | [] => None
  | x :: l' =>
      if f x then Some O
      else match findIndex f l' with
           | Some i => Some (S i)
           | None => None
           end
  end.

(** The assignment [l[i] = x] for an index inside the array. *)
Fixpoint replace_at {A : Type} (i : nat) (x : A) (l : list A) {struct l}
  : list A :=
  match l, i with
  | [], _ => []
  | _ :: l', O => x :: l'
  | y :: l', S i' => y :: replace_at i' x l'
  end.

(** What the generic store operations need of a record type
    ([T extends { id?: string }] and the fields they stamp). *)
Class Stored (T : Type) := {
  Partial : Type;
  get_id : T -> string;
  put_id : string -> T -> T;
  put_createdAt : Date -> T -> T;
  put_updatedAt : Date -> T -> T;
  spread : T -> Partial -> T
}.

#[global] Instance Stored_Product : Stored Product.t := {
  Partial := Product.partial;
  get_id := Product.id;
  put_id := Product.with_id;
  put_createdAt := Product.with_createdAt;
  put_updatedAt := Product.with_updatedAt;
  spread := Product.spread
}.

#[global] Instance Stored_Order : Stored Order.t := {
  Partial := Order.partial;
  get_id := Order.id;
  put_id := Order.with_id;
  put_createdAt := Order.with_createdAt;
  put_updatedAt := Order.with_updatedAt;
  spread := Order.spread
}.

(** A collection name, [keyof Database], with the array it selects. *)
Record Collection (T : Type) := mkCollection {
  select : Database -> list T;
  assign : list T -> Database -> Database
}.
Arguments select {T}.
Arguments assign {T}.

Definition c_products : Collection Product.t :=
  mkCollection _ products set_products.
Definition c_orders : Collection Order.t :=
  mkCollection _ orders set_orders.

Module Store.
Section Generic.
Context {T : Type} `{Stored T}.

Definition has_id (id : string) (record : T) : bool :=
  (get_id record =? id)%string.

Definition findRecordById (c : Collection T) (db : Database) (id : string)
  : option T :=
  find (has_id id) (select c db).

Definition insertRecord (c : Collection T) (env : Env) (db : Database)
    (d : T) : T * Database :=
  let new_id :=
    if (get_id d =? "")%string then Helpers.generateId env else get_id d in
  let newRecord := put_createdAt (now env) (put_id new_id d) in
  (newRecord, assign c (select c db ++ [newRecord])%list db).

Definition updateRecord (c : Collection T) (env : Env) (db : Database)
    (id : string) (updates : Partial) : option T * Database :=
  let records := select c db in
  match findIndex (has_id id) records with
  | Some index =>
      match nth_error records index with
      | Some old =>
          let r := put_updatedAt (now env) (spread old updates) in
          (Some r, assign c (replace_at index r records) db)
      | None => (None, db)
      end
  | None => (None, db)
  end.

(** [records.splice(index, 1)] *)
Fixpoint remove_at (i : nat) (l : list T) {struct l} : list T :=
  match l, i with
  | [], _ => []
  | _ :: l', O => l'
  | y :: l', S i' => y :: remove_at i' l'
  end.

Definition deleteRecord (c : Collection T) (db : Database) (id : string)
  : option T * Database :=
  let records := select c db in
  match findIndex (has_id id) records with
  | Some index =>
      (nth_error records index, assign c (remove_at index records) db)
  | None => (None, db)
  end.
End Generic.
End Store.

(** ** The order routes (router mounted at /api/orders) *)

Module OrderRoutes.
Import Store.

Definition getOrderById (db : Database) (id : string) : option Order.t :=
  findRecordById c_orders db id.

Record StockCheck := mkStockCheck {
  available : bool;
  stock_message : option string
}.

Fixpoint validateStockAvailability (db : Database) (items : list OrderItem.t)
  : StockCheck :=
  match items with
  | [] => mkStockCheck true None
  | item :: rest =>
      match findRecordById c_products db (OrderItem.productId item) with
      | None =>
          mkStockCheck false
            (Some ("Product " ++ OrderItem.productId item ++ " not found"))
      | Some product =>
          if Product.stock product <? OrderItem.quantity item then
            mkStockCheck false
              (Some ("Insufficient stock for " ++ Product.name product))
          else validateStockAvailability db rest
      end
  end.

Definition enrichOrderItems (db : Database) (items : list OrderItem.t)
  : list OrderItem.t :=
  map (fun item =>
         let product :=
           findRecordById c_products db (OrderItem.productId item) in
         OrderItem.mk
           (OrderItem.productId item)
           (Some match product with
                 | Some p => Product.name p
                 | None => "Unknown"
                 end)
           (match product with
            | Some p => Product.price p
            | None => 0%float
            end)
           (OrderItem.quantity item)
           (OrderItem.weight item)
           (OrderItem.discountPercent item))
      items.

Definition buildOrderObject (env : Env) (db : Database) (d : Order.partial)
  : Order.t :=
  let orderId := Helpers.generateId env in
  let items := enrichOrderItems db (override (Order.items' d) []) in
  let totals := Helpers.calculateTotal items in
  {| Order.id := orderId;
     Order.userId := str_or_else (Order.userId' d) "";
     Order.items := items;
     Order.shippingAddress :=
       override (Order.shippingAddress' d) (mkAddress "" "" None "" None);
     Order.shippingMethod :=
       Some (str_or_else (Order.shippingMethod' d) "standard");
     Order.status := pending;
     Order.paymentStatus := None;
     Order.shippingStatus := None;
     Order.totals := Some totals;
     Order.createdAt := Some (now env);
     Order.confirmedAt := None;
     Order.processingAt := None;
     Order.shippedAt := None;
     Order.deliveredAt := None;
     Order.cancelledAt := None;
     Order.updatedAt := None |}.

Definition createOrder (env : Env) (db : Database) (orderData : Order.partial)
  : Order.t * Database :=
  let newOrder := buildOrderObject env db orderData in
  insertRecord c_orders env db newOrder.

(** [stock: product.stock - item.quantity], and [+] in
    [restoreProductStock]: the integer operation, which is what binary64
    computes on integers of absolute value below 2^53. *)
Definition updateProductStock (env : Env) (db : Database)
    (items : list OrderItem.t) : Database :=
  fold_left
    (fun db item =>
       match findRecordById c_products db (OrderItem.productId item) with
       | Some product =>
           snd (updateRecord c_products env db (Product.id product)
                  (Product.only_stock
                     (Product.stock product - OrderItem.quantity item)))
       | None => db
       end)
    items db.

Definition restoreProductStock (env : Env) (db : Database)
    (items : list OrderItem.t) : Database :=
  fold_left
    (fun db item =>
       match findRecordById c_products db (OrderItem.productId item) with
       | Some product =>
           snd (updateRecord c_products env db (Product.id product)
                  (Product.only_stock
                     (Product.stock product + OrderItem.quantity item)))
       | None => db
       end)
    items db.

Definition includes (l : list OrderStatus) (s : OrderStatus) : bool :=
  existsb (OrderStatus_eqb s) l.

Definition canModifyOrder (order : Order.t) : bool :=
  let modifiableStatuses := [pending; confirmed] in
  includes modifiableStatuses (Order.status order).

(** [const { id, createdAt, ...safe } = updates] *)
Definition filterOrderUpdates (updates : Order.partial) : Order.partial :=
  Order.mkPartial
    None
    (Order.userId' updates)
    (Order.items' updates)
    (Order.shippingAddress' updates)
    (Order.shippingMethod' updates)
    (Order.status' updates)
    (Order.paymentStatus' updates)
    (Order.shippingStatus' updates)
    (Order.totals' updates)
    None
    (Order.confirmedAt' updates)
    (Order.processingAt' updates)
    (Order.shippedAt' updates)
    (Order.deliveredAt' updates)
    (Order.cancelledAt' updates)
    (Order.updatedAt' updates).

Definition updateOrderData (env : Env) (db : Database) (id : string)
    (updates : Order.partial) : option Order.t * Database :=
  let safeUpdates := filterOrderUpdates updates in
  updateRecord c_orders env db id safeUpdates.

Definition getValidTransitions (current : OrderStatus) : list OrderStatus :=
  match current with
  | pending => [confirmed; cancelled]
  | confirmed => [processing; cancelled]
  | processing => [shipped; cancelled]
  | shipped => [delivered]
  | delivered => []
  | cancelled => []
  end.

Definition isValidStatusTransition (current newStatus : OrderStatus) : bool :=
  let transitions := getValidTransitions in
  includes (transitions current) newStatus.

Definition updateOrderStatus (env : Env) (db : Database) (id : string)
    (s : OrderStatus) : option Order.t * Database :=
  updateRecord c_orders env db id (Order.only_status s).

Definition canCancelOrder (order : Order.t) : bool :=
  let cancellableStatuses := [pending; confirmed; processing] in
  includes cancellableStatuses (Order.status order).

Definition cancelOrder (env : Env) (db : Database) (id : string)
  : option Order.t * Database :=
  updateOrderStatus env db id cancelled.

(** [router.post('/')] *)
Definition post_order (env : Env) (req_body : Order.partial) (db : Database)
  : Reply Order.t * Database :=
  let validation := Validators.validateOrder req_body in
  if negb (Validators.isValid validation) then
    (status_json 400
       (formatErrorResponse
          (Some (Validators.JSON_stringify (Validators.errors validation)))),
     db)
  else
    let stockCheck :=
      validateStockAvailability db (override (Order.items' req_body) []) in
    if negb (available stockCheck) then
      (status_json 400 (formatErrorResponse (stock_message stockCheck)), db)
    else
      let '(order, db1) := createOrder env db req_body in
      let db2 := updateProductStock env db1 (Order.items order) in
      (status_json 201
         (formatResponse (Some order) "Order created successfully"), db2).

(** [router.put('/:id')] *)
Definition put_order (env : Env) (id : string) (req_body : Order.partial)
    (db : Database) : Reply Order.t * Database :=
  match getOrderById db id with
  | None => (status_json 404 (formatErrorResponse (Some "Order not found")), db)
  | Some order =>
      if negb (canModifyOrder order) then
        (status_json 400
           (formatErrorResponse (Some "Order cannot be modified")), db)
      else
        let '(updated, db1) := updateOrderData env db id req_body in
        (json (formatResponse updated "Order updated"), db1)
  end.

(** [router.patch('/:id/status')] *)
Definition patch_order_status (env : Env) (id : string) (s : OrderStatus)
    (db : Database) : Reply Order.t * Database :=
  match getOrderById db id with
  | None => (status_json 404 (formatErrorResponse (Some "Order not found")), db)
  | Some order =>
      if negb (isValidStatusTransition (Order.status order) s) then
        (status_json 400
           (formatErrorResponse (Some "Invalid status transition")), db)
      else
        let '(updated, db1) := updateOrderStatus env db id s in
        (json (formatResponse updated "Order status updated"), db1)
  end.

(** [router.post('/:id/cancel')] *)
Definition post_order_cancel (env : Env) (id : string) (db : Database)
  : Reply Order.t * Database :=
  match getOrderById db id with
  | None => (status_json 404 (formatErrorResponse (Some "Order not found")), db)
  | Some order =>
      if negb (canCancelOrder order) then
        (status_json 400
           (formatErrorResponse (Some "Order cannot be cancelled")), db)
      else
        let '(cancelled_order, db1) := cancelOrder env db id in
        let db2 := restoreProductStock env db1 (Order.items order) in
        (json (formatResponse cancelled_order "Order cancelled"), db2)
  end.

End OrderRoutes.

(** ** The product routes (router mounted at /api/products) *)

Module ProductRoutes.
Import Store.

Definition getProductById (db : Database) (id : string) : option Product.t :=
  findRecordById c_products db id.

(** [stock: parseInt(String(data.stock)) || 0] is the integer itself
    when its absolute value is below 10^21; from 10^21 on the code
    stores the digits before the point of the exponent form, which the
    model does not follow. *)
Definition buildProductObject (env : Env) (d : Product.partial) : Product.t :=
  {| Product.id := Helpers.generateId env;
     Product.name := str_or_else (Product.name' d) "";
     Product.price :=
       match Product.price' d with
       | Some p => JS.or_else (JS.parseFloat_String p) 0%float
       | None => 0%float
       end;
     Product.categoryId := str_or_else (Product.categoryId' d) "";
     Product.stock := override (Product.stock' d) 0;
     Product.description := Some (str_or_else (Product.description' d) "");
     Product.averageRating := None;
     Product.reviewCount := None;
     Product.createdAt := None;
     Product.updatedAt := None |}.

Definition createProduct (env : Env) (db : Database) (d : Product.partial)
  : Product.t * Database :=
  let newProduct := buildProductObject env d in
  insertRecord c_products env db newProduct.

Definition updateProductData (env : Env) (db : Database) (id : string)
    (updates : Product.partial) : option Product.t * Database :=
  updateRecord c_products env db id updates.

Definition updateProductStock (env : Env) (db : Database) (id : string)
    (quantity : Z) : option Product.t * Database :=
  updateRecord c_products env db id (Product.only_stock quantity).

Definition removeProduct (db : Database) (id : string)
  : option Product.t * Database :=
  deleteRecord c_products db id.

(** [router.post('/')] *)
Definition post_product (env : Env) (req_body : Product.partial)
    (db : Database) : Reply Product.t * Database :=
  let validation := Validators.validateProduct req_body in
  if negb (Validators.isValid validation) then
    (status_json 400
       (formatErrorResponse
          (Some (Validators.JSON_stringify (Validators.errors validation)))),
     db)
  else
    let '(product, db1) := createProduct env db req_body in
    (status_json 201
       (formatResponse (Some product) "Product created successfully"), db1).

(** [router.put('/:id')] *)
Definition put_product (env : Env) (id : string) (req_body : Product.partial)
    (db : Database) : Reply Product.t * Database :=
  match getProductById db id with
  | None =>
      (status_json 404 (formatErrorResponse (Some "Product not found")), db)
  | Some existingProduct =>
      let '(updated, db1) := updateProductData env db id req_body in
      (json (formatResponse updated "Product updated successfully"), db1)
  end.

(** [router.patch('/:id/stock')], with [req.body.quantity] *)
Definition patch_product_stock (env : Env) (id : string) (quantity : Z)
    (db : Database) : Reply Product.t * Database :=
  match getProductById db id with
  | None =>
      (status_json 404 (formatErrorResponse (Some "Product not found")), db)
  | Some product =>
      let '(updated, db1) := updateProductStock env db id quantity in
      (json (formatResponse updated "Stock updated"), db1)
  end.

(** [router.delete('/:id')] *)
Definition delete_product (id : string) (db : Database)
  : Reply Product.t * Database :=
  match getProductById db id with
  | None =>
      (status_json 404 (formatErrorResponse (Some "Product not found")), db)
  | Some product =>
      let '(deleted, db1) := removeProduct db id in
      (json (formatResponse deleted "Product deleted"), db1)
  end.

End ProductRoutes.

(** ** The cart routes (router mounted at /api/cart) *)

(** A handler either returns or throws; both leave a store behind. *)
Inductive JSError := TypeError.

Inductive Outcome (A : Type) :=
| Returned (a : A) (db : Database)
| Thrown (e : JSError) (db : Database).
Arguments Returned {A}.
Arguments Thrown {A}.

Definition bind {A B : Type} (o : Outcome A)
    (k : A -> Database -> Outcome B) : Outcome B :=
  match o with
  | Returned a db => k a db
  | Thrown e db => Thrown e db
  end.

Definition final_db {A : Type} (o : Outcome A) : Database :=
  match o with
  | Returned _ db => db
  | Thrown _ db => db
  end.

Module CartRoutes.
Import Store.

(** A cart object of [database.carts]: its index in the array and its
    current fields. *)
Definition CartRef : Type := nat * Cart.t.

(** [Array.prototype.find], keeping the position of the element. *)
Fixpoint find_ref {A : Type} (f : A -> bool) (l : list A)
  : option (nat * A) :=
  match l with
  | [] => None
  | x :: l' =>
      if f x then Some (O, x)
      else match find_ref f l' with
           | Some (i, y) => Some (S i, y)
           | None => None
           end
  end.

(** A mutation of the cart object [fst r]. *)
Definition write (db : Database) (r : CartRef) : Database :=
  set_carts (replace_at (fst r) (snd r) (carts db)) db.

Definition getCartByUserId (db : Database) (userId : string)
  : option CartRef :=
  find_ref (fun cart => (Cart.userId cart =? userId)%string) (carts db).

Definition buildEmptyCart (env : Env) (userId : string) : Cart.t :=
  {| Cart.id := Helpers.generateId env;
     Cart.userId := userId;
     Cart.items := [];
     Cart.createdAt := Some (now env);
     Cart.updatedAt := Some (now env) |}.

Definition createEmptyCart (env : Env) (db : Database) (userId : string)
  : CartRef * Database :=
  let cart := buildEmptyCart env userId in
  ((List.length (carts db), cart), set_carts (carts db ++ [cart])%list db).

Definition calculateItemTotal (item : CartItem.t) : JS.number :=
  (JS.or_else (CartItem.price item) 0%float
   * JS.of_Z (JS.int_or_else (CartItem.quantity item) 1))%float.

Record EnrichedCartItem := mkEnrichedItem {
  item : CartItem.t;
  enriched_name : string;
  currentStock : Z;
  formattedPrice : string;
  formattedTotal : string
}.

Definition enrichCartItem (db : Database) (i : CartItem.t)
  : EnrichedCartItem :=
  let product := findRecordById c_products db (CartItem.productId i) in
  let itemTotal := calculateItemTotal i in
  {| item := i;
     enriched_name :=
       match product with Some p => Product.name p | None => "Unknown" end;
     currentStock :=
       match product with Some p => Product.stock p | None => 0 end;
     formattedPrice := Helpers.formatPrice (CartItem.price i);
     formattedTotal := Helpers.formatPrice itemTotal |}.

Definition enrichCartItems (db : Database) (items : list CartItem.t)
  : list EnrichedCartItem :=
  map (enrichCartItem db) items.

Definition calculateItemCount (items : list EnrichedCartItem) : Z :=
  fold_left (fun total i => total + CartItem.quantity (item i)) items 0.

Record EnrichedCart := mkEnrichedCart {
  cart : Cart.t;
  enriched_items : list EnrichedCartItem;
  cart_totals : OrderTotals;
  itemCount : Z
}.

Definition enrichCartData (db : Database) (c : Cart.t) : EnrichedCart :=
  let items := enrichCartItems db (Cart.items c) in
  let totals :=
    Helpers.calculateTotal
      (map (fun i =>
              OrderItem.mk (CartItem.productId (item i)) None
                (CartItem.price (item i)) (CartItem.quantity (item i))
                None None)
           items) in
  let count := calculateItemCount items in
  {| cart := c; enriched_items := items; cart_totals := totals;
     itemCount := count |}.

Definition checkStockAvailable (product : Product.t) (quantity : Z) : bool :=
  quantity <=? Product.stock product.

Definition is_line (productId : string) (i : CartItem.t) : bool :=
  (CartItem.productId i =? productId)%string.

Definition findCartItem (c : Cart.t) (productId : string)
  : option CartItem.t :=
  find (is_line productId) (Cart.items c).

(** [cart.items[itemIndex].quantity = newQuantity]: with [itemIndex]
    equal to [-1] the element is [undefined] and the assignment throws
    a [TypeError]. *)
Definition updateExistingCartItem (env : Env) (db : Database) (r : CartRef)
    (productId : string) (newQuantity : Z) : Outcome CartRef :=
  let c := snd r in
  match findIndex (is_line productId) (Cart.items c) with
  | None => Thrown TypeError db
  | Some itemIndex =>
      match nth_error (Cart.items c) itemIndex with
      | None => Thrown TypeError db
      | Some line =>
          let items' :=
            replace_at itemIndex (CartItem.set_quantity newQuantity line)
              (Cart.items c) in
          let r' :=
            (fst r, Cart.set_updatedAt (now env) (Cart.set_items items' c)) in
          Returned r' (write db r')
      end
  end.

Definition buildCartItem (env : Env) (product : Product.t) (quantity : Z)
  : CartItem.t :=
  {| CartItem.productId := Product.id product;
     CartItem.name := Some (Product.name product);
     CartItem.price := Product.price product;
     CartItem.quantity := quantity;
     CartItem.addedAt := Some (now env) |}.

Definition addNewCartItem (env : Env) (db : Database) (r : CartRef)
    (product : Product.t) (quantity : Z) : CartRef * Database :=
  let c := snd r in
  let newItem := buildCartItem env product quantity in
  let r' :=
    (fst r,
     Cart.set_updatedAt (now env)
       (Cart.set_items (Cart.items c ++ [newItem])%list c)) in
  (r', write db r').

Definition addItemToCart (env : Env) (db : Database) (userId : string)
    (product : Product.t) (quantity : Z) : Outcome CartRef :=
  let '(r, db1) :=
    match getCartByUserId db userId with
    | Some r => (r, db)
    | None => createEmptyCart env db userId
    end in
  match findCartItem (snd r) (Product.id product) with
  | Some existingItem =>
      updateExistingCartItem env db1 r (Product.id product)
        (CartItem.quantity existingItem + quantity)
  | None =>
      let '(r', db2) := addNewCartItem env db1 r product quantity in
      Returned r' db2
  end.

Definition filterOutItem (items : list CartItem.t) (productId : string)
  : list CartItem.t :=
  filter (fun i => negb (is_line productId i)) items.

Definition removeCartItem (env : Env) (db : Database) (userId : string)
    (productId : string) : CartRef * Database :=
  match getCartByUserId db userId with
  | None => createEmptyCart env db userId
  | Some r =>
      let c := snd r in
      let r' :=
        (fst r,
         Cart.set_updatedAt (now env)
           (Cart.set_items (filterOutItem (Cart.items c) productId) c)) in
      (r', write db r')
  end.

Definition updateCartItemQuantity (env : Env) (db : Database)
    (userId productId : string) (quantity : Z) : Outcome CartRef :=
  match getCartByUserId db userId with
  | None =>
      let '(r, db1) := createEmptyCart env db userId in Returned r db1
  | Some r =>
      if quantity <=? 0 then
        let '(r', db1) := removeCartItem env db userId productId in
        Returned r' db1
      else updateExistingCartItem env db r productId quantity
  end.

(** [router.post('/:userId/items')], with [req.body.productId] and
    [req.body.quantity] *)
Definition post_cart_item (env : Env) (userId productId : string)
    (quantity : Z) (db : Database) : Outcome (Reply EnrichedCart) :=
  match findRecordById c_products db productId with
  | None =>
      Returned
        (status_json 404 (formatErrorResponse (Some "Product not found"))) db
  | Some product =>
      if negb (checkStockAvailable product quantity) then
        Returned
          (status_json 400 (formatErrorResponse (Some "Insufficient stock")))
          db
      else
        bind (addItemToCart env db userId product quantity)
          (fun r db1 =>
             let enriched := enrichCartData db1 (snd r) in
             Returned
               (json (formatResponse (Some enriched) "Item added to cart"))
               db1)
  end.

(** [router.put('/:userId/items/:productId')], with [req.body.quantity] *)
Definition put_cart_item (env : Env) (userId productId : string)
    (quantity : Z) (db : Database) : Outcome (Reply EnrichedCart) :=
  match findRecordById c_products db productId with
  | None =>
      Returned
        (status_json 404 (formatErrorResponse (Some "Product not found"))) db
  | Some product =>
      if negb (checkStockAvailable product quantity) then
        Returned
          (status_json 400 (formatErrorResponse (Some "Insufficient stock")))
          db
      else
        bind (updateCartItemQuantity env db userId productId quantity)
          (fun r db1 =>
             let enriched := enrichCartData db1 (snd r) in
             Returned
               (json (formatResponse (Some enriched) "Cart item updated"))
               db1)
  end.

End CartRoutes.

(** ** The payment routes (router mounted at /api/payments): refunds *)

Module PaymentRoutes.

Definition has_id (id : string) (p : Payment.t) : bool :=
  (Payment.id p =? id)%string.

Definition getPaymentById (db : Database) (id : string) : option Payment.t :=
  find (has_id id) (payments db).

Definition ms_per_day : Z := 1000 * 60 * 60 * 24.

(** [Math.floor(diff / (1000 * 60 * 60 * 24))]; a missing date makes the
    difference [NaN], here [None]. *)
Definition calculateDaysSince (env : Env) (date : option Date) : option Z :=
  match date with
  | Some d =>
      let diff := now env - d in
      Some (diff / ms_per_day)
  | None => None
  end.

Definition canRefundPayment (env : Env) (payment : Payment.t) : bool :=
  let refundableStatuses := [pay_completed] in
  let daysSincePayment := calculateDaysSince env (Payment.createdAt payment) in
  existsb (PaymentStatus_eqb (Payment.status payment)) refundableStatuses
  && match daysSincePayment with
     | Some days => days <=? 30
     | None => false
     end.

Record RefundResult := mkRefundResult {
  refund_success : bool;
  refund_message : option string;
  refundId : option string;
  refund_amount : option JS.number
}.

Definition generateRefundId (env : Env) : string :=
  "REF-" ++ JS.digits (now env) ++ "-" ++ JS.toUpperCase (random_suffix env).

Definition processRefund (env : Env) (payment : Payment.t)
    (amount : option JS.number) : RefundResult :=
  let refundAmount := JS.opt_or_else amount (Payment.amount payment) in
  if PrimFloat.ltb (Payment.amount payment) refundAmount then
    mkRefundResult false (Some "Refund amount exceeds payment amount")
      None None
  else
    let id := generateRefundId env in
    mkRefundResult true None (Some id) (Some refundAmount).

Record Refund := mkRefund {
  refund_id : string;
  paymentId : string;
  refund_orderId : string;
  refund_refundId : option string;
  amount : option JS.number;
  formattedAmount : string;
  refund_status : string;
  refund_createdAt : Date
}.

Definition createRefundRecord (env : Env) (payment : Payment.t)
    (result : RefundResult) : Refund :=
  {| refund_id := Helpers.generateId env;
     paymentId := Payment.id payment;
     refund_orderId := Payment.orderId payment;
     refund_refundId := refundId result;
     amount := refund_amount result;
     formattedAmount :=
       Helpers.formatPrice
         (match refund_amount result with
          | Some a => a
          | None => PrimFloat.nan
          end);
     refund_status := "completed";
     refund_createdAt := now env |}.

Definition updatePaymentStatus (env : Env) (db : Database) (id : string)
    (s : PaymentStatus) : Database :=
  match findIndex (has_id id) (payments db) with
  | Some index =>
      match nth_error (payments db) index with
      | Some p =>
          set_payments
            (replace_at index
               (Payment.set_updatedAt (now env) (Payment.set_status s p))
               (payments db))
            db
      | None => db
      end
  | None => db
  end.

(** [router.post('/:id/refund')], with [req.body.amount] *)
Definition post_refund (env : Env) (id : string) (amount : option JS.number)
    (db : Database) : Reply Refund * Database :=
  match getPaymentById db id with
  | None =>
      (status_json 404 (formatErrorResponse (Some "Payment not found")), db)
  | Some payment =>
      if negb (canRefundPayment env payment) then
        (status_json 400
           (formatErrorResponse (Some "Payment cannot be refunded")), db)
      else
        let refundResult := processRefund env payment amount in
        if negb (refund_success refundResult) then
          (status_json 400
             (formatErrorResponse (refund_message refundResult)), db)
        else
          let refund := createRefundRecord env payment refundResult in
          let db1 := updatePaymentStatus env db id pay_refunded in
          (json (formatResponse (Some refund) "Refund processed successfully"),
           db1)
  end.

End PaymentRoutes.

(** ** The pricing rules in the words of the specification *)

Module PricingSpec.

(** Sum of a sequence of amounts, taken from left to right. *)
Definition sum (l : list JS.number) : JS.number :=
  fold_left PrimFloat.add l 0%float.

(** Per-item total: (unitPrice - unitPrice * discountPercent / 100) *
    quantity; an item without a discount is charged the unit price. *)
Definition item_total (it : OrderItem.t) : JS.number :=
  match OrderItem.discountPercent it with
  | Some d =>
      ((OrderItem.price it - OrderItem.price it * d / 100)
       * JS.of_Z (OrderItem.quantity it))%float
  | None => (OrderItem.price it * JS.of_Z (OrderItem.quantity it))%float
  end.

(** The weight of an item, 0.5 units when it has none. *)
Definition weight_of (it : OrderItem.t) : JS.number :=
  match OrderItem.weight it with
  | Some w => w
  | None => 0.5%float
  end.

(** Rounding to two decimal places. *)
Definition round2 (x : JS.number) : JS.number :=
  (JS.Math_round (x * 100) / 100)%float.

Definition subtotal_of (items : list OrderItem.t) : JS.number :=
  sum (map item_total items).

Definition tax_of (items : list OrderItem.t) : JS.number :=
  round2 (subtotal_of items * 0.08)%float.

Definition shipping_of (items : list OrderItem.t) : JS.number :=
  round2 (5.99 + sum (map weight_of items) * 0.5)%float.

Definition grand_total (items : list OrderItem.t) : JS.number :=
  (subtotal_of items + tax_of items + shipping_of items)%float.

(** The totals record: formatted amounts and the raw grand total. *)
Definition totals_of (items : list OrderItem.t) : OrderTotals :=
  {| subtotal := Helpers.formatPrice (subtotal_of items);
     tax := Helpers.formatPrice (tax_of items);
     shipping := Helpers.formatPrice (shipping_of items);
     total := Helpers.formatPrice (grand_total items);
     rawTotal := grand_total items |}.

(** The line item that is priced: a price that is [NaN] or a zero counts
    as 0, a quantity of 0 counts as 1, a discount that is zero or [NaN] is
    no discount, and a weight that is zero or [NaN] counts as 0.5. *)
Definition effective (it : OrderItem.t) : OrderItem.t :=
  {| OrderItem.productId := OrderItem.productId it;
     OrderItem.name := OrderItem.name it;
     OrderItem.price := if JS.truthy (OrderItem.price it)
                        then OrderItem.price it else 0%float;
     OrderItem.quantity := if OrderItem.quantity it =? 0
                           then 1 else OrderItem.quantity it;
     OrderItem.weight :=
       match OrderItem.weight it with
       | Some w => if JS.truthy w then Some w else None
       | None => None
       end;
     OrderItem.discountPercent :=
       match OrderItem.discountPercent it with
       | Some d => if JS.truthy d then Some d else None
       | None => None
       end |}.

(** A line item on which the defaults of the code do not intervene: its
    quantity is not zero, its price is a number other than [-0], and a
    discount or weight that is given is neither zero nor [NaN]. *)
Definition given (x : option JS.number) : Prop :=
  forall v, x = Some v -> JS.truthy v = true.

Definition plain_item (it : OrderItem.t) : Prop :=
  OrderItem.quantity it <> 0
  /\ (OrderItem.price it = 0%float \/ JS.truthy (OrderItem.price it) = true)
  /\ given (OrderItem.discountPercent it)
  /\ given (OrderItem.weight it).

End PricingSpec.

(** * The vocabulary of the properties *)

Section Vocabulary.
Import Helpers OrderRoutes CartRoutes PaymentRoutes.

(** The transition table of the specification, as pairs
    (current, allowed next). *)
Definition transition_table : list (OrderStatus * OrderStatus) :=
  [ (pending, confirmed); (pending, cancelled);
    (confirmed, processing); (confirmed, cancelled);
    (processing, shipped); (processing, cancelled);
    (shipped, delivered) ].

(** One turn of the loops of [updateProductStock] and
    [restoreProductStock]: the stock of the product of [item] becomes
    [change stock quantity]. *)
Definition adjustStock (change : Z -> Z -> Z) (env : Env) (db : Database)
    (item : OrderItem.t) : Database :=
  match Store.findRecordById c_products db (OrderItem.productId item) with
  | Some product =>
      snd (Store.updateRecord c_products env db (Product.id product)
             (Product.only_stock
                (change (Product.stock product) (OrderItem.quantity item))))
  | None => db
  end.

(** The stock column of the product collection. *)
Definition stock_view (db : Database) : list (string * Z) :=
  map (fun p => (Product.id p, Product.stock p)) (products db).

(** The first entry for [pid], if any, moves by [f]. *)
Fixpoint bump (pid : string) (f : Z -> Z) (v : list (string * Z))
  : list (string * Z) :=
  match v with
  | [] => []
  | (i, s) :: v' =>
      if (i =? pid)%string then (i, f s) :: v'
      else (i, s) :: bump pid f v'
  end.

(** The stock column holds enough of the product of the line. *)
Definition in_stock (v : list (string * Z)) (it : OrderItem.t) : Prop :=
  exists s,
    find (fun e => (fst e =? OrderItem.productId it)%string) v
    = Some (OrderItem.productId it, s)
    /\ OrderItem.quantity it <= s.

(** The stock movements of a line at creation and at cancellation. *)
Definition take_out (v : list (string * Z)) (it : OrderItem.t) :=
  bump (OrderItem.productId it) (fun s => s - OrderItem.quantity it) v.

Definition put_back (v : list (string * Z)) (it : OrderItem.t) :=
  bump (OrderItem.productId it) (fun s => s + OrderItem.quantity it) v.

(** The stock check of one line against the current store. *)
Definition passes (db : Database) (it : OrderItem.t) : Prop :=
  exists p,
    Store.findRecordById c_products db (OrderItem.productId it) = Some p
    /\ OrderItem.quantity it <= Product.stock p.

(** The line names no product of the store, or asks for more than its
    stock. *)
Definition fails (db : Database) (it : OrderItem.t) : Prop :=
  Store.findRecordById c_products db (OrderItem.productId it) = None
  \/ exists p,
       Store.findRecordById c_products db (OrderItem.productId it) = Some p
       /\ Product.stock p < OrderItem.quantity it.

(** The statuses from which the specification permits a cancellation. *)
Definition cancellable : list OrderStatus := [pending; confirmed; processing].

(** No two lines of the cart are for the same product. *)
Definition cart_no_dup (c : Cart.t) : Prop :=
  NoDup (map CartItem.productId (Cart.items c)).



(** The refund request is answered with 200. *)
Definition refund_accepted (env : Env) (id : string)
    (amount : option JS.number) (db : Database) : Prop :=
  code (fst (post_refund env id amount db)) = 200.

(** What a stored line keeps of the line the client sent. *)
Definition line_key (it : OrderItem.t)
  : string * Z * option JS.number * option JS.number :=
  (OrderItem.productId it, OrderItem.quantity it, OrderItem.weight it,
   OrderItem.discountPercent it).

(** A stored line is the catalog's record of the product of the line. *)
Definition snapshot_of (db : Database) (line stored : OrderItem.t) : Prop :=
  line_key stored = line_key line
  /\ match Store.findRecordById c_products db (OrderItem.productId line) with
     | Some p =>
         OrderItem.name stored = Some (Product.name p)
         /\ OrderItem.price stored = Product.price p
     | None =>
         OrderItem.name stored = Some "Unknown"
         /\ OrderItem.price stored = 0%float
     end.

(** Product.stock >= 0, for every product of the store. *)
Definition stock_nonneg (db : Database) : Prop :=
  Forall (fun e => 0 <= snd e) (stock_view db).

End Vocabulary.

(** * Sample data *)

Section Samples.

(** The line item of the worked example of the specification. *)
Definition example_item : OrderItem.t :=
  {| OrderItem.productId := "P1";
     OrderItem.name := None;
     OrderItem.price := 10%float;
     OrderItem.quantity := 2;
     OrderItem.weight := Some 1%float;
     OrderItem.discountPercent := None |}.

(** A store with one pending order. *)
Definition sample_order (s : OrderStatus) : Order.t :=
  {| Order.id := "o1";
     Order.userId := "u1";
     Order.items := [];
     Order.shippingAddress := mkAddress "1 Main St" "Springfield" None "12345" None;
     Order.shippingMethod := Some "standard";
     Order.status := s;
     Order.paymentStatus := None;
     Order.shippingStatus := None;
     Order.totals := None;
     Order.createdAt := Some 1000;
     Order.confirmedAt := None;
     Order.processingAt := None;
     Order.shippedAt := None;
     Order.deliveredAt := None;
     Order.cancelledAt := None;
     Order.updatedAt := None |}.

Definition sample_db (s : OrderStatus) : Database :=
  mkDatabase [] [sample_order s] [] [].

Definition sample_env : Env := mkEnv 5000 "abcdefgh" "K3J2H1G0F".

(** The payload [{ id: "x", status: "delivered", createdAt: 7 }]. *)
Definition sample_payload : Order.partial :=
  Order.mkPartial (Some "x") None None None None (Some delivered) None None
    None (Some 7) None None None None None None.

(** A shop with one product, five in stock. *)
Definition widget : Product.t :=
  {| Product.id := "P1";
     Product.name := "Widget";
     Product.price := 10%float;
     Product.categoryId := "cat-1";
     Product.stock := 5;
     Product.description := None;
     Product.averageRating := None;
     Product.reviewCount := None;
     Product.createdAt := None;
     Product.updatedAt := None |}.

Definition shop : Database := mkDatabase [widget] [] [] [].

(** A line for [quantity] widgets; the client also sends a name and a
    price of its own. *)
Definition widget_line (quantity : Z) : OrderItem.t :=
  {| OrderItem.productId := "P1";
     OrderItem.name := Some "Bargain";
     OrderItem.price := 0.01%float;
     OrderItem.quantity := quantity;
     OrderItem.weight := Some 1%float;
     OrderItem.discountPercent := None |}.

Definition order_request (lines : list OrderItem.t) : Order.partial :=
  Order.mkPartial None (Some "u1") (Some lines)
    (Some (mkAddress "1 Main St" "Springfield" None "12345" None))
    None None None None None None None None None None None None.

(** A user with an empty cart. *)
Definition shop_with_cart : Database :=
  mkDatabase [widget] []
    [ {| Cart.id := "c1"; Cart.userId := "u1"; Cart.items := [];
         Cart.createdAt := Some 1; Cart.updatedAt := Some 1 |} ] [].

(** A completed payment of 50.00 made at time 0. *)
Definition sample_payment : Payment.t :=
  {| Payment.id := "pay1";
     Payment.orderId := "o1";
     Payment.method := paypal;
     Payment.amount := 50%float;
     Payment.formattedAmount := Some "$50.00";
     Payment.transactionId := Some "TXN-1";
     Payment.cardNumber := None;
     Payment.status := pay_completed;
     Payment.createdAt := Some 0;
     Payment.updatedAt := None |}.

Definition ledger : Database := mkDatabase [] [] [] [sample_payment].


(** A line for a product that the catalog does not have. *)
Definition ghost_line : OrderItem.t :=
  {| OrderItem.productId := "P9";
     OrderItem.name := Some "Ghost";
     OrderItem.price := 99%float;
     OrderItem.quantity := 1;
     OrderItem.weight := None;
     OrderItem.discountPercent := None |}.

End Samples.

(** * Further code of the cited files *)

From Stdlib Require Import Sorted Permutation.

(** ** The order routes: reading orders *)

Module OrderViews.
Import Store OrderRoutes.

Record StatusInfo := mkStatusInfo {
  label : string;
  progress : Z
}.

Definition buildStatusMap (s : OrderStatus) : StatusInfo :=
  match s with
  | pending => mkStatusInfo "Pending" 10
  | confirmed => mkStatusInfo "Confirmed" 25
  | processing => mkStatusInfo "Processing" 50
  | shipped => mkStatusInfo "Shipped" 75
  | delivered => mkStatusInfo "Delivered" 100
  | cancelled => mkStatusInfo "Cancelled" 0
  end.

(** [statusMap[status] || { label: 'Unknown', progress: 0 }]: every
    status has an entry. *)
Definition getOrderStatusInfo (s : OrderStatus) : StatusInfo :=
  let statusMap := buildStatusMap in
  statusMap s.

(** [{ ...order, totals, statusInfo }]: the totals of the reply are the
    recomputed ones. *)
Record EnrichedOrder := mkEnrichedOrder {
  order : Order.t;
  statusInfo : StatusInfo
}.

Definition enrichOrderData (o : Order.t) : EnrichedOrder :=
  let totals := Helpers.calculateTotal (Order.items o) in
  let info := getOrderStatusInfo (Order.status o) in
  {| order :=
       Order.spread o
         (Order.mkPartial None None None None None None None None
            (Some totals) None None None None None None None);
     statusInfo := info |}.

Definition getAllOrders (db : Database) : list Order.t := orders db.

Definition enrichOrderList (l : list Order.t) : list EnrichedOrder :=
  map enrichOrderData l.

(** [router.get('/')] *)
Definition get_orders (db : Database) : Reply (list EnrichedOrder) :=
  let all := getAllOrders db in
  let enriched := enrichOrderList all in
  json (formatResponse (Some enriched) "Orders retrieved").

(** [router.get('/:id')] *)
Definition get_order (id : string) (db : Database) : Reply EnrichedOrder :=
  match getOrderById db id with
  | None => status_json 404 (formatErrorResponse (Some "Order not found"))
  | Some o =>
      let enriched := enrichOrderData o in
      json (formatResponse (Some enriched) "Order retrieved")
  end.

End OrderViews.

(** ** The cart routes: reading, removing, clearing, checkout *)

Module CartOps.
Import Store CartRoutes.

(** A reply carries the cart as stored, or the cart with its lines
    enriched and its totals. *)
Inductive CartData :=
| plain_cart (c : Cart.t)
| enriched_cart (e : EnrichedCart).

(** [router.get('/:userId')] *)
Definition get_cart (env : Env) (userId : string) (db : Database)
  : Reply CartData * Database :=
  match getCartByUserId db userId with
  | None =>
      let '(emptyCart, db1) := createEmptyCart env db userId in
      (json (formatResponse (Some (plain_cart (snd emptyCart)))
               "Cart retrieved"), db1)
  | Some r =>
      let enriched := enrichCartData db (snd r) in
      (json (formatResponse (Some (enriched_cart enriched)) "Cart retrieved"),
       db)
  end.

(** [router.delete('/:userId/items/:productId')] *)
Definition delete_cart_item (env : Env) (userId productId : string)
    (db : Database) : Reply EnrichedCart * Database :=
  let '(r, db1) := removeCartItem env db userId productId in
  let enriched := enrichCartData db1 (snd r) in
  (json (formatResponse (Some enriched) "Item removed from cart"), db1).

Definition clearCart (env : Env) (db : Database) (userId : string)
  : CartRef * Database :=
  match getCartByUserId db userId with
  | None => createEmptyCart env db userId
  | Some r =>
      let r' :=
        (fst r, Cart.set_updatedAt (now env) (Cart.set_items [] (snd r))) in
      (r', write db r')
  end.

(** [router.delete('/:userId')] *)
Definition delete_cart (env : Env) (userId : string) (db : Database)
  : Reply Cart.t * Database :=
  let '(r, db1) := clearCart env db userId in
  (json (formatResponse (Some (snd r)) "Cart cleared"), db1).

Record ItemCheck := mkItemCheck {
  valid : bool;
  check_message : option string
}.

Definition validateItemStock (db : Database) (i : CartItem.t) : ItemCheck :=
  match findRecordById c_products db (CartItem.productId i) with
  | None =>
      mkItemCheck false
        (Some ("Product " ++ CartItem.productId i ++ " no longer available"))
  | Some product =>
      if Product.stock product <? CartItem.quantity i then
        mkItemCheck false
          (Some ("Insufficient stock for " ++ Product.name product))
      else mkItemCheck true None
  end.

Fixpoint validateCartForCheckout (db : Database) (items : list CartItem.t)
  : ItemCheck :=
  match items with
  | [] => mkItemCheck true None
  | i :: rest =>
      let stockCheck := validateItemStock db i in
      if negb (valid stockCheck) then stockCheck
      else validateCartForCheckout db rest
  end.

Record ShippingOption := mkShippingOption {
  option_id : string;
  option_name : string;
  option_price : JS.number
}.

Definition getShippingOptions : list ShippingOption :=
  [ mkShippingOption "express" "Express (2 days)" 15.99%float;
    mkShippingOption "standard" "Standard (5 days)" 5.99%float;
    mkShippingOption "economy" "Economy (10 days)" 2.99%float ].

Record CheckoutData := mkCheckoutData {
  cartId : string;
  checkout_items : list EnrichedCartItem;
  checkout_totals : OrderTotals;
  shippingOptions : list ShippingOption;
  selectedShipping : string
}.

(** [checkoutOptions] is the request body; only its [shippingMethod] is
    read. *)
Definition prepareCheckoutData (db : Database) (c : Cart.t)
    (shippingMethod : option string) : CheckoutData :=
  let items := enrichCartItems db (Cart.items c) in
  let totals :=
    Helpers.calculateTotal
      (map (fun i =>
              OrderItem.mk (CartItem.productId (item i)) None
                (CartItem.price (item i)) (CartItem.quantity (item i))
                None None)
           items) in
  {| cartId := Cart.id c;
     checkout_items := items;
     checkout_totals := totals;
     shippingOptions := getShippingOptions;
     selectedShipping := str_or_else shippingMethod "standard" |}.

(** [router.post('/:userId/checkout')]: it reads the store only. *)
Definition post_checkout (userId : string) (shippingMethod : option string)
    (db : Database) : Reply CheckoutData :=
  match getCartByUserId db userId with
  | None => status_json 400 (formatErrorResponse (Some "Cart is empty"))
  | Some r =>
      if Nat.eqb (List.length (Cart.items (snd r))) 0 then
        status_json 400 (formatErrorResponse (Some "Cart is empty"))
      else
        let validationResult :=
          validateCartForCheckout db (Cart.items (snd r)) in
        if negb (valid validationResult) then
          status_json 400
            (formatErrorResponse (check_message validationResult))
        else
          let checkoutData := prepareCheckoutData db (snd r) shippingMethod in
          json (formatResponse (Some checkoutData) "Ready for checkout")
  end.

(** The requests of the cart router. *)
Inductive CartRequest :=
| GetCart (userId : string)
| PostItem (userId productId : string) (quantity : Z)
| PutItem (userId productId : string) (quantity : Z)
| DeleteItem (userId productId : string)
| DeleteCart (userId : string)
| PostCheckout (userId : string) (shippingMethod : option string).

(** The store a request leaves behind, whether its handler returns or
    throws. *)
Definition cart_step (env : Env) (req : CartRequest) (db : Database)
  : Database :=
  match req with
  | GetCart u => snd (get_cart env u db)
  | PostItem u p q => final_db (post_cart_item env u p q db)
  | PutItem u p q => final_db (put_cart_item env u p q db)
  | DeleteItem u p => snd (delete_cart_item env u p db)
  | DeleteCart u => snd (delete_cart env u db)
  | PostCheckout _ _ => db
  end.

Definition cart_run (requests : list (Env * CartRequest)) (db : Database)
  : Database :=
  fold_left (fun d er => cart_step (fst er) (snd er) d) requests db.

End CartOps.

(** ** The payment routes: charging and reading payments *)

Module PaymentOps.
Import Store PaymentRoutes.

(** [req.body] of [POST /payments]. *)
Record PaymentData := mkPaymentData {
  data_orderId : option string;
  data_method : option string;
  data_amount : option JS.number;
  data_cardNumber : option string;
  data_expiryDate : option string;
  data_cvv : option string
}.

(** src/utils/validators.ts, [validatePayment] and what it calls. *)
Definition validatePaymentMethod (method : option string) : bool :=
  let validMethods :=
    ["credit_card"; "debit_card"; "paypal"; "bank_transfer"] in
  match method with
  | Some m => existsb (String.eqb m) validMethods
  | None => false
  end.

Definition validatePaymentAmount (amount : option JS.number) : bool :=
  Validators.validatePrice amount.

Definition validatePayment (payment : PaymentData)
  : Validators.ValidationResult :=
  let errs := [] in
  let errs :=
    Validators.push_unless
      (Validators.validateRequiredField (data_orderId payment))
      (Validators.createValidationError "orderId" "Order ID is required")
      errs in
  let errs :=
    Validators.push_unless (validatePaymentMethod (data_method payment))
      (Validators.createValidationError "method"
         "Valid payment method is required") errs in
  let errs :=
    Validators.push_unless (validatePaymentAmount (data_amount payment))
      (Validators.createValidationError "amount"
         "Valid payment amount is required") errs in
  Validators.buildValidationResult errs.

(** Truthiness of a string that may be [undefined]. *)
Definition nonempty (s : option string) : bool :=
  match s with
  | Some v => negb (v =? "")%string
  | None => false
  end.

(** [\d] and [\D] *)
Definition is_digit (c : ascii) : bool :=
  (48 <=? nat_of_ascii c)%nat && (nat_of_ascii c <=? 57)%nat.

(** [s.replace(/\D/g, '')] *)
Fixpoint strip_non_digits (s : string) : string :=
  match s with
  | EmptyString => EmptyString
  | String c s' =>
      if is_digit c then String c (strip_non_digits s')
      else strip_non_digits s'
  end.

Fixpoint all_digits (s : string) : bool :=
  match s with
  | EmptyString => true
  | String c s' => is_digit c && all_digits s'
  end.

(** [s.slice(-4)]: the last four characters, the whole string when it
    is shorter.  A string is the sequence of its code units. *)
Definition slice_last4 (s : string) : string :=
  substring (String.length s - 4) 4 s.

Definition maskCardNumber (cardNumber : string) : string :=
  let last4 := slice_last4 cardNumber in
  "****-****-****-" ++ last4.

Definition sanitizePaymentData (payment : Payment.t) : Payment.t :=
  match Payment.cardNumber payment with
  | Some c =>
      if negb (c =? "")%string then
        Payment.mk (Payment.id payment) (Payment.orderId payment)
          (Payment.method payment) (Payment.amount payment)
          (Payment.formattedAmount payment) (Payment.transactionId payment)
          (Some (maskCardNumber c)) (Payment.status payment)
          (Payment.createdAt payment) (Payment.updatedAt payment)
      else payment
  | None => payment
  end.

Definition getOrderPayments (db : Database) (orderId : string)
  : list Payment.t :=
  filter (fun p => (Payment.orderId p =? orderId)%string) (payments db).

Definition isValidCardNumber (cardNumber : string) : bool :=
  let cleaned := strip_non_digits cardNumber in
  (13 <=? String.length cleaned)%nat && (String.length cleaned <=? 19)%nat.

(** [/^\d{3,4}$/.test(cvv)] *)
Definition isValidCVV (cvv : string) : bool :=
  all_digits cvv
  && (3 <=? String.length cvv)%nat && (String.length cvv <=? 4)%nat.

Record DetailsCheck := mkDetailsCheck {
  details_valid : bool;
  details_message : option string
}.

Record ChargeResult := mkChargeResult {
  charge_success : bool;
  charge_message : option string;
  charge_transactionId : option string;
  charge_timestamp : option Date
}.

Definition generateTransactionId (env : Env) : string :=
  "TXN-" ++ JS.digits (now env) ++ "-" ++ JS.toUpperCase (random_suffix env).

Definition simulatePaymentCharge (env : Env) (paymentData : PaymentData)
  : ChargeResult :=
  let transactionId := generateTransactionId env in
  let timestamp := now env in
  mkChargeResult true None (Some transactionId) (Some timestamp).

(** The method of a body that [validatePayment] has accepted; any other
    string never reaches [buildPaymentRecord]. *)
Definition method_of (method : option string) : PaymentMethod :=
  match method with
  | Some m =>
      if (m =? "credit_card")%string then credit_card
      else if (m =? "debit_card")%string then debit_card
      else if (m =? "paypal")%string then paypal
      else bank_transfer
  | None => bank_transfer
  end.

Definition buildPaymentRecord (env : Env) (d : PaymentData)
    (result : ChargeResult) : Payment.t :=
  let amount :=
    match data_amount d with
    | Some a => a
    | None => PrimFloat.nan
    end in
  {| Payment.id := Helpers.generateId env;
     Payment.orderId := override (data_orderId d) "";
     Payment.method := method_of (data_method d);
     Payment.amount := amount;
     Payment.formattedAmount := Some (Helpers.formatPrice amount);
     Payment.transactionId := charge_transactionId result;
     Payment.cardNumber :=
       match data_cardNumber d with
       | Some c =>
           if negb (c =? "")%string then Some (maskCardNumber c) else None
       | None => None
       end;
     Payment.status := pay_completed;
     Payment.createdAt := Some (now env);
     Payment.updatedAt := None |}.

Definition createPaymentRecord (env : Env) (db : Database)
    (paymentData : PaymentData) (result : ChargeResult)
  : Payment.t * Database :=
  let payment := buildPaymentRecord env paymentData result in
  (payment, set_payments (payments db ++ [payment])%list db).

(** [updateRecord('orders', orderId, { paymentStatus: status })] *)
Definition updateOrderPaymentStatus (env : Env) (db : Database)
    (orderId : string) (status : string) : Database :=
  snd (updateRecord c_orders env db orderId
         (Order.mkPartial None None None None None None (Some status) None
            None None None None None None None None)).

Section Charging.

(** [isValidExpiryDate] compares the first instant of the month of the
    card, in the time zone of the host, with the clock; the model
    leaves its answer open. *)
Variable isValidExpiryDate : Env -> string -> bool.

Definition validateCardDetails (env : Env) (d : PaymentData) : DetailsCheck :=
  if negb (nonempty (data_cardNumber d))
     || negb (isValidCardNumber (override (data_cardNumber d) "")) then
    mkDetailsCheck false (Some "Invalid card number")
  else if negb (nonempty (data_expiryDate d))
          || negb (isValidExpiryDate env (override (data_expiryDate d) ""))
  then mkDetailsCheck false (Some "Invalid expiry date")
  else if negb (nonempty (data_cvv d))
          || negb (isValidCVV (override (data_cvv d) "")) then
    mkDetailsCheck false (Some "Invalid CVV")
  else mkDetailsCheck true None.

Definition validatePaymentDetails (env : Env) (d : PaymentData)
  : DetailsCheck :=
  match data_method d with
  | Some method =>
      if (method =? "credit_card")%string || (method =? "debit_card")%string
      then validateCardDetails env d
      else mkDetailsCheck true None
  | None => mkDetailsCheck true None
  end.

Definition processPayment (env : Env) (paymentData : PaymentData)
  : ChargeResult :=
  let validationResult := validatePaymentDetails env paymentData in
  if negb (details_valid validationResult) then
    mkChargeResult false (details_message validationResult) None None
  else
    let chargeResult := simulatePaymentCharge env paymentData in
    chargeResult.

(** [router.post('/')] *)
Definition post_payment (env : Env) (req_body : PaymentData) (db : Database)
  : Reply Payment.t * Database :=
  let validation := validatePayment req_body in
  if negb (Validators.isValid validation) then
    (status_json 400
       (formatErrorResponse
          (Some (Validators.JSON_stringify (Validators.errors validation)))),
     db)
  else
    match
      match data_orderId req_body with
      | Some orderId => findRecordById c_orders db orderId
      | None => None
      end
    with
    | None =>
        (status_json 404 (formatErrorResponse (Some "Order not found")), db)
    | Some order =>
        let paymentResult := processPayment env req_body in
        if negb (charge_success paymentResult) then
          (status_json 400
             (formatErrorResponse (charge_message paymentResult)), db)
        else
          let '(payment, db1) :=
            createPaymentRecord env db req_body paymentResult in
          let db2 :=
            updateOrderPaymentStatus env db1
              (override (data_orderId req_body) "") "paid" in
          (status_json 201
             (formatResponse (Some payment) "Payment processed successfully"),
           db2)
    end.

End Charging.

(** [router.get('/:id')] *)
Definition get_payment (id : string) (db : Database) : Reply Payment.t :=
  match getPaymentById db id with
  | None => status_json 404 (formatErrorResponse (Some "Payment not found"))
  | Some payment =>
      let sanitized := sanitizePaymentData payment in
      json (formatResponse (Some sanitized) "Payment retrieved")
  end.

(** [router.get('/order/:orderId')] *)
Definition get_order_payments (orderId : string) (db : Database)
  : Reply (list Payment.t) :=
  match findRecordById c_orders db orderId with
  | None => status_json 404 (formatErrorResponse (Some "Order not found"))
  | Some order =>
      let payments := getOrderPayments db orderId in
      json (formatResponse (Some payments) "Order payments retrieved")
  end.

End PaymentOps.

(** ** The product routes: reading a product *)

Module ProductViews.
Import Store ProductRoutes.

Record Availability := mkAvailability {
  inStock : bool;
  available_quantity : Z;
  availability_status : string
}.

Definition getAvailabilityStatus (stock : Z) : string :=
  if stock =? 0 then "out_of_stock"
  else if stock <? 10 then "low_stock"
  else "in_stock".

Definition checkProductAvailability (product : Product.t) : Availability :=
  {| inStock := 0 <? Product.stock product;
     available_quantity := Product.stock product;
     availability_status := getAvailabilityStatus (Product.stock product) |}.

Definition applyProductDiscount (price : JS.number) : JS.number :=
  (price * 0.9)%float.

Record PriceInfo := mkPriceInfo {
  original : string;
  discounted : string;
  savings : string
}.

Definition calculatePriceInfo (product : Product.t) : PriceInfo :=
  let originalPrice := Product.price product in
  let discountedPrice := applyProductDiscount originalPrice in
  {| original := Helpers.formatPrice originalPrice;
     discounted := Helpers.formatPrice discountedPrice;
     savings := Helpers.formatPrice (originalPrice - discountedPrice)%float |}.

Record EnrichedProduct := mkEnrichedProduct {
  product : Product.t;
  availability : Availability;
  priceInfo : PriceInfo
}.

Definition enrichProductData (p : Product.t) : EnrichedProduct :=
  let availability := checkProductAvailability p in
  let priceInfo := calculatePriceInfo p in
  {| product := p; availability := availability; priceInfo := priceInfo |}.

(** [router.get('/:id')] *)
Definition get_product (id : string) (db : Database) : Reply EnrichedProduct :=
  match getProductById db id with
  | None => status_json 404 (formatErrorResponse (Some "Product not found"))
  | Some p =>
      let enriched := enrichProductData p in
      json (formatResponse (Some enriched) "Product retrieved")
  end.

End ProductViews.

(** ** src/routes/analyticsRoutes.ts: the counts and sums of the dashboard *)

Module Analytics.

Definition calculateTotalOrders (orders : list Order.t) : nat :=
  List.length orders.

Definition extractOrderTotal (order : Order.t) : JS.number :=
  match Order.totals order with
  | Some t =>
      if JS.truthy (rawTotal t) then rawTotal t
      else Helpers.calculateSubtotal (Order.items order)
  | None => Helpers.calculateSubtotal (Order.items order)
  end.

Record Revenue := mkRevenue {
  value : JS.number;
  formatted : string
}.

Definition calculateTotalRevenue (orders : list Order.t) : Revenue :=
  let total :=
    fold_left
      (fun sum order =>
         let orderTotal := extractOrderTotal order in
         (sum + orderTotal)%float)
      orders 0%float in
  {| value := total; formatted := Helpers.formatPrice total |}.

Record ProductSales := mkProductSales {
  productId : string;
  productName : option string;
  quantity : Z;
  revenue : JS.number
}.

(** A [Map] from product ids to sales entries, in insertion order. *)
Definition SalesMap : Type := list (string * ProductSales).

Definition map_has (m : SalesMap) (k : string) : bool :=
  existsb (fun e => (fst e =? k)%string) m.

Definition map_get (m : SalesMap) (k : string) : option ProductSales :=
  option_map snd (find (fun e => (fst e =? k)%string) m).

(** [m.set(k, v)], also the mutation of the entry under [k]: a new key
    goes last, a present key keeps its place. *)
Fixpoint map_set (m : SalesMap) (k : string) (v : ProductSales) : SalesMap :=
  match m with
  | [] => [(k, v)]
  | (k', v') :: m' =>
      if (k' =? k)%string then (k, v) :: m' else (k', v') :: map_set m' k v
  end.

Definition map_values (m : SalesMap) : list ProductSales := map snd m.

Definition createProductSalesEntry (item : OrderItem.t) : ProductSales :=
  {| productId := OrderItem.productId item;
     productName := OrderItem.name item;
     quantity := 0;
     revenue := 0%float |}.

Definition incrementProductSales (entry : ProductSales) (item : OrderItem.t)
  : ProductSales :=
  {| productId := productId entry;
     productName := productName entry;
     quantity :=
       quantity entry + JS.int_or_else (OrderItem.quantity item) 1;
     revenue :=
       (revenue entry
        + JS.or_else (OrderItem.price item) 0%float
          * JS.of_Z (JS.int_or_else (OrderItem.quantity item) 1))%float |}.

Definition updateProductSalesMap (salesMap : SalesMap) (item : OrderItem.t)
  : SalesMap :=
  let productId := OrderItem.productId item in
  let salesMap :=
    if negb (map_has salesMap productId) then
      map_set salesMap productId (createProductSalesEntry item)
    else salesMap in
  match map_get salesMap productId with
  | Some entry => map_set salesMap productId (incrementProductSales entry item)
  | None => salesMap
  end.

Definition processOrderItems (items : list OrderItem.t) (salesMap : SalesMap)
  : SalesMap :=
  fold_left updateProductSalesMap items salesMap.

Definition aggregateProductSales (orders : list Order.t)
  : list ProductSales :=
  let salesMap :=
    fold_left (fun m order => processOrderItems (Order.items order) m)
      orders [] in
  map_values salesMap.

(** [[...products].sort((a, b) => b.quantity - a.quantity)]: the sort
    is stable, entries of equal quantity keep their order. *)
Fixpoint insert_sale (x : ProductSales) (l : list ProductSales)
  : list ProductSales :=
  match l with
  | [] => [x]
  | y :: l' =>
      if quantity y <=? quantity x then x :: y :: l'
      else y :: insert_sale x l'
  end.

Definition sortByQuantity (products : list ProductSales)
  : list ProductSales :=
  fold_right insert_sale [] products.

Definition getTopProducts (orders : list Order.t) (limit : nat)
  : list ProductSales :=
  let productSales := aggregateProductSales orders in
  let sorted := sortByQuantity productSales in
  firstn limit sorted.

Record StatusGroups := mkStatusGroups {
  n_pending : Z;
  n_confirmed : Z;
  n_processing : Z;
  n_shipped : Z;
  n_delivered : Z;
  n_cancelled : Z
}.

Definition initializeStatusGroups : StatusGroups :=
  mkStatusGroups 0 0 0 0 0 0.

(** [groups[status]++]; every status is a key of the groups. *)
Definition incrementStatusCount (g : StatusGroups) (status : OrderStatus)
  : StatusGroups :=
  match status with
  | pending =>
      mkStatusGroups (n_pending g + 1) (n_confirmed g) (n_processing g)
        (n_shipped g) (n_delivered g) (n_cancelled g)
  | confirmed =>
      mkStatusGroups (n_pending g) (n_confirmed g + 1) (n_processing g)
        (n_shipped g) (n_delivered g) (n_cancelled g)
  | processing =>
      mkStatusGroups (n_pending g) (n_confirmed g) (n_processing g + 1)
        (n_shipped g) (n_delivered g) (n_cancelled g)
  | shipped =>
      mkStatusGroups (n_pending g) (n_confirmed g) (n_processing g)
        (n_shipped g + 1) (n_delivered g) (n_cancelled g)
  | delivered =>
      mkStatusGroups (n_pending g) (n_confirmed g) (n_processing g)
        (n_shipped g) (n_delivered g + 1) (n_cancelled g)
  | cancelled =>
      mkStatusGroups (n_pending g) (n_confirmed g) (n_processing g)
        (n_shipped g) (n_delivered g) (n_cancelled g + 1)
  end.

Definition groupOrdersByStatus (orders : list Order.t) : StatusGroups :=
  fold_left (fun g order => incrementStatusCount g (Order.status order))
    orders initializeStatusGroups.

Definition countInStockProducts (products : list Product.t) : nat :=
  List.length (filter (fun p => 0 <? Product.stock p) products).

Definition countOutOfStockProducts (products : list Product.t) : nat :=
  List.length (filter (fun p => Product.stock p =? 0) products).

Definition countLowStockProducts (products : list Product.t) : nat :=
  List.length
    (filter (fun p => (0 <? Product.stock p) && (Product.stock p <? 10))
       products).

End Analytics.

(** ** src/utils/helpers.ts, second part: the request log *)

Module Logger.

(** [url.substring(0, 97) + '...']; lengths and positions count code
    units. *)
Definition truncateUrl (url : string) : string :=
  substring 0 97 url ++ "...".

Definition formatUrl (url : string) : string :=
  if (100 <? String.length url)%nat then truncateUrl url else url.

(** [logBuffer.length = 0] *)
Definition flushLogBuffer (logBuffer : list string) : list string := [].

Definition appendToLogBuffer (logBuffer : list string) (entry : string)
  : list string :=
  let logBuffer := (logBuffer ++ [entry])%list in
  if (1000 <? List.length logBuffer)%nat then flushLogBuffer logBuffer
  else logBuffer.

(** [writeLog], as far as the buffer goes. *)
Definition writeLog (logBuffer : list string) (logEntry : string)
  : list string :=
  appendToLogBuffer logBuffer logEntry.

End Logger.

(** * The vocabulary of the further properties *)

Section MoreVocabulary.
Import OrderRoutes CartRoutes CartOps PaymentRoutes PaymentOps Analytics.

(** The replies to a sequence of status updates of one order. *)
Fixpoint patch_run (id : string) (requests : list (Env * OrderStatus))
    (db : Database) : list (Reply Order.t) :=
  match requests with
  | [] => []
  | (env, s) :: rest =>
      let '(reply, db1) := patch_order_status env id s db in
      reply :: patch_run id rest db1
  end.

(** How many of the replies are 200. *)
Definition accepted {A : Type} (replies : list (Reply A)) : nat :=
  List.length (filter (fun r => code r =? 200) replies).

(** The longest chain of status updates that can still be accepted. *)
Definition steps_left (s : OrderStatus) : nat :=
  match s with
  | pending => 4
  | confirmed => 3
  | processing => 2
  | shipped => 1
  | delivered => 0
  | cancelled => 0
  end.

(** Two orders that differ at most in their status and the time of
    their last update. *)
Definition same_but_status (a b : Order.t) : Prop :=
  Order.id a = Order.id b
  /\ Order.userId a = Order.userId b
  /\ Order.items a = Order.items b
  /\ Order.shippingAddress a = Order.shippingAddress b
  /\ Order.shippingMethod a = Order.shippingMethod b
  /\ Order.paymentStatus a = Order.paymentStatus b
  /\ Order.shippingStatus a = Order.shippingStatus b
  /\ Order.totals a = Order.totals b
  /\ Order.createdAt a = Order.createdAt b
  /\ Order.confirmedAt a = Order.confirmedAt b
  /\ Order.processingAt a = Order.processingAt b
  /\ Order.shippedAt a = Order.shippedAt b
  /\ Order.deliveredAt a = Order.deliveredAt b
  /\ Order.cancelledAt a = Order.cancelledAt b.

(** Every user has at most one cart. *)
Definition one_cart_per_user (db : Database) : Prop :=
  NoDup (map Cart.userId (carts db)).

(** The carts of the store are in order: one cart per user, one line
    per product in each cart. *)
Definition carts_ok (db : Database) : Prop :=
  one_cart_per_user db /\ Forall cart_no_dup (carts db).

(** The line can be served from the current stock of its product. *)
Definition line_in_stock (db : Database) (i : CartItem.t) : Prop :=
  exists p,
    Store.findRecordById c_products db (CartItem.productId i) = Some p
    /\ CartItem.quantity i <= Product.stock p.

(** A stored card number is a mask: the fixed prefix and at most four
    characters. *)
Definition masked (p : Payment.t) : Prop :=
  match Payment.cardNumber p with
  | None => True
  | Some c =>
      exists last,
        c = "****-****-****-" ++ last /\ (String.length last <= 4)%nat
  end.

(** The requests that write payments. *)
Inductive PaymentRequest :=
| PayRequest (d : PaymentData)
| RefundRequest (id : string) (amount : option JS.number).

Definition payment_step (isValidExpiryDate : Env -> string -> bool)
    (env : Env) (req : PaymentRequest) (db : Database) : Database :=
  match req with
  | PayRequest d => snd (post_payment isValidExpiryDate env d db)
  | RefundRequest id amount => snd (post_refund env id amount db)
  end.

Definition payment_run (isValidExpiryDate : Env -> string -> bool)
    (requests : list (Env * PaymentRequest)) (db : Database) : Database :=
  fold_left
    (fun d er => payment_step isValidExpiryDate (fst er) (snd er) d)
    requests db.

(** The count that the groups hold for a status. *)
Definition group_count (g : StatusGroups) (s : OrderStatus) : Z :=
  match s with
  | pending => n_pending g
  | confirmed => n_confirmed g
  | processing => n_processing g
  | shipped => n_shipped g
  | delivered => n_delivered g
  | cancelled => n_cancelled g
  end.

(** The orders that have the status. *)
Definition with_status (s : OrderStatus) (orders : list Order.t)
  : list Order.t :=
  filter (fun o => OrderStatus_eqb (Order.status o) s) orders.






(** [a] is listed before [b] by the sales ranking. *)
Definition sells_no_less (a b : ProductSales) : Prop :=
  quantity b <= quantity a.

End MoreVocabulary.

(** * Further sample data *)

Section MoreSamples.
Import PaymentOps.

(** A payment of 50.00 by PayPal for the order o1. *)
Definition paypal_body : PaymentData :=
  mkPaymentData (Some "o1") (Some "paypal") (Some 50%float) None None None.

(** The same payment by card. *)
Definition card_body : PaymentData :=
  mkPaymentData (Some "o1") (Some "credit_card") (Some 50%float)
    (Some "4111 1111 1111 1111") (Some "12/30") (Some "123").

(** An expiry check that accepts every date. *)
Definition any_expiry : Env -> string -> bool := fun _ _ => true.

(** Thirty days and a bit after [sample_env]. *)
Definition later_env : Env :=
  mkEnv (5000 + 30 * 86400000 + 7) "ijklmnop" "Z9Y8X7W6V".

(** Two orders: two widgets and a gadget of quantity 0, then three
    widgets. *)
Definition sold_line (productId : string) (quantity : Z) : OrderItem.t :=
  OrderItem.mk productId (Some productId) 10%float quantity None None.

Definition sold_order (lines : list OrderItem.t) : Order.t :=
  Order.mk "o" "u1" lines (mkAddress "1 Main St" "Springfield" None "12345" None)
    None delivered None None None (Some 1000) None None None None None None.

Definition sold_orders : list Order.t :=
  [ sold_order [sold_line "P2" 0; sold_line "P1" 2];
    sold_order [sold_line "P1" 3] ].

End MoreSamples.

(** * Stock levels as binary64 numbers *)

Section StockNumbers.













End StockNumbers.

(** * Properties *)

(** ** Pricing (helpers.ts) *)

Section Pricing.
Import Helpers PricingSpec.

Lemma fold_left_add_map {A : Type} (f : A -> JS.number) (l : list A) :
  forall acc,
    fold_left (fun s x => (s + f x)%float) l acc
    = fold_left PrimFloat.add (map f l) acc.
Proof.
  induction l as [|x l IH]; intro acc; simpl; [reflexivity|apply IH].
Qed.

Lemma map_ext_Forall {A B : Type} (P : A -> Prop) (f g : A -> B) (l : list A) :
  (forall x, P x -> f x = g x) -> Forall P l -> map f l = map g l.
Proof.
  intros Hfg Hl; induction Hl as [|x l Hx _ IH]; simpl;
    [reflexivity | rewrite (Hfg x Hx), IH; reflexivity].
Qed.

Lemma or_else_zero_plain (p : JS.number) :
  p = 0%float \/ JS.truthy p = true -> JS.or_else p 0%float = p.
Proof.
  unfold JS.or_else; intros [-> | ->]; reflexivity.
Qed.

Lemma calculateItemTotal_plain (it : OrderItem.t) :
  plain_item it -> calculateItemTotal it = item_total it.
Proof.
  intros (Hq & Hp & Hd & _).
  unfold calculateItemTotal, item_total, JS.int_or_else, applyDiscount,
    calculateDiscountAmount.
  rewrite (or_else_zero_plain _ Hp).
  apply Z.eqb_neq in Hq; rewrite Hq.
  destruct (OrderItem.discountPercent it) as [d|]; [|reflexivity].
  rewrite (Hd d eq_refl); reflexivity.
Qed.

Lemma weight_plain (it : OrderItem.t) :
  plain_item it ->
  JS.opt_or_else (OrderItem.weight it) 0.5%float = weight_of it.
Proof.
  intros (_ & _ & _ & Hw); unfold weight_of, JS.opt_or_else, JS.or_else.
  destruct (OrderItem.weight it) as [w|]; [|reflexivity].
  rewrite (Hw w eq_refl); reflexivity.
Qed.

Lemma calculateSubtotal_plain (items : list OrderItem.t) :
  Forall plain_item items -> calculateSubtotal items = subtotal_of items.
Proof.
  intro H; unfold calculateSubtotal, subtotal_of, sum.
  rewrite fold_left_add_map.
  rewrite (map_ext_Forall plain_item _ item_total items); auto.
  exact calculateItemTotal_plain.
Qed.

Lemma calculateTotalWeight_plain (items : list OrderItem.t) :
  Forall plain_item items ->
  calculateTotalWeight items = sum (map weight_of items).
Proof.
  intro H; unfold calculateTotalWeight, sum.
  rewrite (fold_left_add_map
             (fun it => JS.opt_or_else (OrderItem.weight it) 0.5%float)).
  rewrite (map_ext_Forall plain_item _ weight_of items); auto.
  exact weight_plain.
Qed.

Lemma roundToDecimals_2 (x : JS.number) : roundToDecimals x 2 = round2 x.
Proof. reflexivity. Qed.

Lemma calculateItemTotal_effective (it : OrderItem.t) :
  calculateItemTotal it = item_total (effective it).
Proof.
  unfold calculateItemTotal, item_total, effective, JS.int_or_else,
    applyDiscount, calculateDiscountAmount, JS.or_else; simpl.
  destruct (OrderItem.discountPercent it) as [d|]; [|reflexivity].
  destruct (JS.truthy d); reflexivity.
Qed.

Lemma weight_effective (it : OrderItem.t) :
  JS.opt_or_else (OrderItem.weight it) 0.5%float = weight_of (effective it).
Proof.
  unfold weight_of, effective, JS.opt_or_else, JS.or_else; simpl.
  destruct (OrderItem.weight it) as [w|]; [|reflexivity].
  destruct (JS.truthy w); reflexivity.
Qed.

Lemma calculateSubtotal_effective (items : list OrderItem.t) :
  calculateSubtotal items = subtotal_of (map effective items).
Proof.
  unfold calculateSubtotal, subtotal_of, sum.
  rewrite fold_left_add_map, map_map.
  f_equal; apply map_ext; exact calculateItemTotal_effective.
Qed.

Lemma calculateTotalWeight_effective (items : list OrderItem.t) :
  calculateTotalWeight items = sum (map weight_of (map effective items)).
Proof.
  unfold calculateTotalWeight, sum.
  rewrite (fold_left_add_map
             (fun it => JS.opt_or_else (OrderItem.weight it) 0.5%float)).
  rewrite map_map; f_equal; apply map_ext; exact weight_effective.
Qed.

(** C1 (as amended). For every list of line items, [calculateTotal]
    returns the totals of the items that are priced, where a quantity of
    0 counts as 1, a weight of 0 counts as the default 0.5, a discount of
    0 is no discount and a price that is [NaN] counts as 0: the formatted
    subtotal, the subtotal being the left-to-right binary64 sum of
    (unitPrice - unitPrice * discountPercent / 100) * quantity, the
    formatted tax round(subtotal * 0.08, 2), the formatted shipping
    round(5.99 + (sum of weights, 0.5 when absent) * 0.5, 2), the
    formatted total, and as raw total subtotal + tax + shipping, not
    rounded again.  On line items on which no default intervenes these
    are the totals of the items as given.  For the single item
    {price 10.00, quantity 2, weight 1} it returns subtotal "$20.00", tax
    "$1.60", shipping "$6.49", total "$28.09", and the raw total is the
    binary64 sum 20 + 1.6 + 6.49 = 28.090000000000003. *)
Theorem C1_calculateTotal_formula (items : list OrderItem.t) :
  calculateTotal items = totals_of (map effective items)
  /\ (Forall plain_item items -> calculateTotal items = totals_of items)
  /\ calculateTotal [example_item]
     = {| subtotal := "$20.00";
          tax := "$1.60";
          shipping := "$6.49";
          total := "$28.09";
          rawTotal := 28.090000000000003%float |}.
Proof.
  split; [|split].
  - unfold calculateTotal, computeFinalTotal, calculateTax,
      calculateShippingCost, calculateWeightBasedShipping, totals_of,
      grand_total, tax_of, shipping_of, getTaxRate, getBaseShippingRate.
    rewrite !roundToDecimals_2, calculateSubtotal_effective,
      calculateTotalWeight_effective.
    reflexivity.
  - intro H.
    unfold calculateTotal, computeFinalTotal, calculateTax,
      calculateShippingCost, calculateWeightBasedShipping, totals_of,
      grand_total, tax_of, shipping_of, getTaxRate, getBaseShippingRate.
    rewrite !roundToDecimals_2, (calculateSubtotal_plain items H),
      (calculateTotalWeight_plain items H).
    reflexivity.
  - vm_compute; reflexivity.
Qed.

Lemma C1_calculateTotal_formula_witness :
  Forall plain_item [example_item]
  /\ calculateTotal [example_item] = totals_of [example_item].
Proof.
  assert (Hp : Forall plain_item [example_item]).
  { constructor; [|constructor].
    repeat split; try (intros v Hv; inversion Hv; subst; reflexivity).
    - discriminate.
    - right; reflexivity. }
  split; [exact Hp|].
  exact (proj1 (proj2 (C1_calculateTotal_formula [example_item])) Hp).
Defined.

(** A line with quantity 0 is charged once ([item.quantity || 1]), a
    weight of 0 is shipped as 0.5 ([item.weight || 0.5]), and the raw
    total of the worked example is not the double 28.09. *)
Lemma C1_counterexample :
  (let it := OrderItem.mk "P1" None 10%float 0 None None in
   calculateSubtotal [it] = 10%float
   /\ subtotal_of [it] = 0%float
   /\ subtotal (calculateTotal [it]) = "$10.00")
  /\ (let it := OrderItem.mk "P1" None 10%float 2 (Some 0%float) None in
      calculateShippingCost [it] = 6.24%float
      /\ shipping_of [it] = 5.99%float
      /\ shipping (calculateTotal [it]) = "$6.24")
  /\ rawTotal (calculateTotal [example_item]) <> 28.09%float.
Proof.
  split; [|split].
  - repeat split; vm_compute; reflexivity.
  - repeat split; vm_compute; reflexivity.
  - intro E; apply (f_equal Prim2SF) in E; vm_compute in E; discriminate E.
Qed.

End Pricing.

(** ** The record store (database.ts) *)

Section StoreFacts.

Lemma find_findIndex {A : Type} (f : A -> bool) (l : list A) (x : A) :
  find f l = Some x ->
  exists i, findIndex f l = Some i /\ nth_error l i = Some x /\ f x = true.
Proof.
  induction l as [|y l IH]; simpl; [discriminate|].
  destruct (f y) eqn:Hy.
  - intros [= ->]; exists O; auto.
  - intro H; destruct (IH H) as (i & Hi & Hn & Hx).
    exists (S i); rewrite Hi; auto.
Qed.

Lemma find_none_findIndex {A : Type} (f : A -> bool) (l : list A) :
  find f l = None -> findIndex f l = None.
Proof.
  induction l as [|y l IH]; simpl; [reflexivity|].
  destruct (f y); [discriminate|]; intro H; rewrite (IH H); reflexivity.
Qed.

Lemma find_replace_at {A : Type} (f : A -> bool) (l : list A) (i : nat) (r : A) :
  findIndex f l = Some i -> f r = true -> find f (replace_at i r l) = Some r.
Proof.
  revert i; induction l as [|y l IH]; intros i; simpl; [discriminate|].
  destruct (f y) eqn:Hy.
  - intros [= <-] Hr; simpl; rewrite Hr; reflexivity.
  - destruct (findIndex f l) as [j|]; [|discriminate].
    intros [= <-] Hr; simpl; rewrite Hy; apply (IH j eq_refl Hr).
Qed.

Lemma Forall_replace_at {A : Type} (P : A -> Prop) (l : list A) (i : nat) (r : A) :
  Forall P l -> P r -> Forall P (replace_at i r l).
Proof.
  intros Hl Hr; revert i; induction Hl as [|y l Hy Hl IH]; intro i; simpl;
    [constructor|].
  destruct i; constructor; auto.
Qed.

Lemma map_replace_at {A B : Type} (g : A -> B) (l : list A) (i : nat) (r : A) :
  map g (replace_at i r l) = replace_at i (g r) (map g l).
Proof.
  revert i; induction l as [|y l IH]; intro i; simpl; [reflexivity|].
  destruct i; simpl; [reflexivity|rewrite IH; reflexivity].
Qed.

Lemma replace_at_same {A : Type} (l : list A) (i : nat) (x : A) :
  nth_error l i = Some x -> replace_at i x l = l.
Proof.
  revert i; induction l as [|y l IH]; intro i; simpl; [reflexivity|].
  destruct i; simpl.
  - intros [= ->]; reflexivity.
  - intro H; rewrite (IH i H); reflexivity.
Qed.

Lemma find_app_fresh {A : Type} (f : A -> bool) (l : list A) (x : A) :
  find f l = None -> f x = true -> find f (l ++ [x]) = Some x.
Proof.
  induction l as [|y l IH]; simpl; intros H Hx.
  - rewrite Hx; reflexivity.
  - destruct (f y); [discriminate|]; auto.
Qed.

(** A record found under an id carries that id. *)
Lemma findRecordById_id {T : Type} `{Stored T} (c : Collection T)
    (db : Database) (id : string) (r : T) :
  Store.findRecordById c db id = Some r -> get_id r = id.
Proof.
  intro Hfind; apply find_some in Hfind; destruct Hfind as [_ E].
  apply String.eqb_eq in E; exact E.
Qed.

(** [updateRecord] on a record that exists: the first record with the
    given id is replaced by its merge with the update, stamped with the
    time. *)
Lemma updateRecord_found {T : Type} `{Stored T} (c : Collection T)
    (env : Env) (db : Database) (id : string) (u : Partial) (old : T) :
  Store.findRecordById c db id = Some old ->
  let r := put_updatedAt (now env) (spread old u) in
  exists i,
    findIndex (Store.has_id id) (select c db) = Some i
    /\ nth_error (select c db) i = Some old
    /\ Store.has_id id old = true
    /\ Store.updateRecord c env db id u
       = (Some r, assign c (replace_at i r (select c db)) db).
Proof.
  intros Hfind r.
  destruct (find_findIndex _ _ _ Hfind) as (i & Hi & Hn & Hid).
  exists i; repeat split; auto.
  unfold Store.updateRecord.
  rewrite Hi, Hn; reflexivity.
Qed.

Lemma updateRecord_orders (env : Env) (db : Database) (id : string)
    (u : Order.partial) (old : Order.t) :
  OrderRoutes.getOrderById db id = Some old ->
  let r := Order.with_updatedAt (now env) (Order.spread old u) in
  exists i,
    findIndex (Store.has_id id) (orders db) = Some i
    /\ nth_error (orders db) i = Some old
    /\ Store.has_id id old = true
    /\ Store.updateRecord c_orders env db id u
       = (Some r, set_orders (replace_at i r (orders db)) db).
Proof. exact (updateRecord_found c_orders env db id u old). Qed.

Lemma updateRecord_products (env : Env) (db : Database) (id : string)
    (u : Product.partial) (old : Product.t) :
  Store.findRecordById c_products db id = Some old ->
  let r := Product.with_updatedAt (now env) (Product.spread old u) in
  exists i,
    findIndex (Store.has_id id) (products db) = Some i
    /\ nth_error (products db) i = Some old
    /\ Store.has_id id old = true
    /\ Store.updateRecord c_products env db id u
       = (Some r, set_products (replace_at i r (products db)) db).
Proof. exact (updateRecord_found c_products env db id u old). Qed.

End StoreFacts.

(** ** Order status transitions and the generic order update *)

Section OrderStatusFacts.
Import OrderRoutes.

Lemma isValidStatusTransition_table (current requested : OrderStatus) :
  isValidStatusTransition current requested = true
  <-> In (current, requested) transition_table.
Proof.
  split.
  - destruct current, requested; simpl; intro H; try discriminate H;
      repeat (first [left; reflexivity | right]).
  - simpl; intros H.
    repeat (destruct H as [H|H]; [inversion H; subst; reflexivity|]).
    destruct H.
Qed.

(** C2. A status update is accepted exactly for the pairs of the table
    pending -> {confirmed, cancelled}, confirmed -> {processing,
    cancelled}, processing -> {shipped, cancelled}, shipped ->
    {delivered}, delivered -> {}, cancelled -> {}: an accepted request
    stores the requested status, every other pair is answered with the
    400 error "Invalid status transition" and the store is unchanged. *)
Theorem C2_status_transition_table
    (env : Env) (id : string) (db : Database) (order : Order.t)
    (requested : OrderStatus) :
  getOrderById db id = Some order ->
  (isValidStatusTransition (Order.status order) requested = true
   <-> In (Order.status order, requested) transition_table)
  /\ (In (Order.status order, requested) transition_table ->
      exists updated db',
        patch_order_status env id requested db
        = (json (formatResponse (Some updated) "Order status updated"), db')
        /\ getOrderById db' id = Some updated
        /\ Order.status updated = requested)
  /\ (~ In (Order.status order, requested) transition_table ->
      patch_order_status env id requested db
      = (status_json 400
           (formatErrorResponse (Some "Invalid status transition")), db)).
Proof.
  intro Hfind.
  split; [apply isValidStatusTransition_table|].
  unfold patch_order_status; rewrite Hfind.
  split; intro Hin.
  - apply isValidStatusTransition_table in Hin; rewrite Hin; simpl.
    unfold updateOrderStatus.
    destruct (updateRecord_orders env db id (Order.only_status requested)
                order Hfind) as (i & Hi & Hn & Hid & Hupd).
    rewrite Hupd.
    eexists; eexists; split; [reflexivity|]; split; [|reflexivity].
    unfold getOrderById, Store.findRecordById; simpl.
    apply find_replace_at; [exact Hi|exact Hid].
  - destruct (isValidStatusTransition (Order.status order) requested) eqn:E;
      [|reflexivity].
    apply isValidStatusTransition_table in E; contradiction.
Qed.

Lemma C2_status_transition_table_witness :
  getOrderById (sample_db shipped) "o1" = Some (sample_order shipped)
  /\ patch_order_status sample_env "o1" pending (sample_db shipped)
     = (status_json 400
          (formatErrorResponse (Some "Invalid status transition")),
        sample_db shipped).
Proof.
  split; [reflexivity|].
  apply (C2_status_transition_table sample_env "o1" (sample_db shipped)
           (sample_order shipped) pending eq_refl).
  simpl; intro H.
  repeat (destruct H as [H|H]; [discriminate H|]); exact H.
Defined.

Lemma filterOrderUpdates_strips (u : Order.partial) :
  Order.id' (filterOrderUpdates u) = None
  /\ Order.createdAt' (filterOrderUpdates u) = None.
Proof. split; reflexivity. Qed.

(** The guard of the generic update, and the two fields that it keeps:
    the update is permitted only when the status of the order is pending
    or confirmed; otherwise it is answered with the 400 error "Order
    cannot be modified" and the store is unchanged.  The fields id and
    createdAt are stripped before the merge, so the id and the creation
    time stamp of the order are unchanged whatever the payload
    contains. *)
Lemma put_order_keeps_id_and_createdAt
    (env : Env) (id : string) (payload : Order.partial) (db : Database)
    (order : Order.t) :
  getOrderById db id = Some order ->
  (In (Order.status order) [pending; confirmed] ->
   exists updated db',
     put_order env id payload db
     = (json (formatResponse (Some updated) "Order updated"), db')
     /\ getOrderById db' id = Some updated
     /\ Order.id updated = Order.id order
     /\ Order.createdAt updated = Order.createdAt order)
  /\ (~ In (Order.status order) [pending; confirmed] ->
      put_order env id payload db
      = (status_json 400
           (formatErrorResponse (Some "Order cannot be modified")), db)).
Proof.
  intro Hfind; unfold put_order; rewrite Hfind.
  split; intro Hin.
  - assert (Hcan : canModifyOrder order = true).
    { unfold canModifyOrder, includes; simpl.
      destruct Hin as [<-|[<-|[]]]; reflexivity. }
    rewrite Hcan; simpl.
    unfold updateOrderData.
    destruct (updateRecord_orders env db id (filterOrderUpdates payload)
                order Hfind) as (i & Hi & Hn & Hid & Hupd).
    rewrite Hupd.
    eexists; eexists; split; [reflexivity|]; repeat split.
    unfold getOrderById, Store.findRecordById; simpl.
    apply find_replace_at; [exact Hi|exact Hid].
  - destruct (canModifyOrder order) eqn:E; [|reflexivity].
    exfalso; apply Hin.
    unfold canModifyOrder, includes in E; simpl in E.
    destruct (Order.status order); simpl in *; auto; discriminate E.
Qed.

(** C5 (the code departs from the claim).  The generic update strips id
    and createdAt from the payload, but not status: [filterOrderUpdates]
    passes the status of the payload on and the update stores it.  A
    generic update of a pending or confirmed order with a payload that
    carries the status [s] is answered with 200 and leaves the order
    with the status [s], its id and creation time stamp unchanged and
    the stock untouched.  The status route answers the same change with
    the 400 error "Invalid status transition" when the pair is not in
    the transition table.  When [s] is cancelled, the cancel route
    answers 400 afterwards, so the stock of the order is not put
    back. *)
Theorem C5_put_stores_any_status
    (env : Env) (id : string) (payload : Order.partial) (db : Database)
    (order : Order.t) (s : OrderStatus) :
  getOrderById db id = Some order ->
  In (Order.status order) [pending; confirmed] ->
  Order.status' payload = Some s ->
  Order.status' (filterOrderUpdates payload) = Some s
  /\ (exists updated db',
        put_order env id payload db
        = (json (formatResponse (Some updated) "Order updated"), db')
        /\ getOrderById db' id = Some updated
        /\ Order.status updated = s
        /\ Order.id updated = Order.id order
        /\ Order.createdAt updated = Order.createdAt order
        /\ stock_view db' = stock_view db
        /\ (s = cancelled ->
            forall e',
              post_order_cancel e' id db'
              = (status_json 400
                   (formatErrorResponse (Some "Order cannot be cancelled")),
                 db')))
  /\ (~ In (Order.status order, s) transition_table ->
      patch_order_status env id s db
      = (status_json 400
           (formatErrorResponse (Some "Invalid status transition")), db)).
Proof.
  intros Hfind Hin Hs.
  split; [exact Hs|split].
  - unfold put_order; rewrite Hfind.
    assert (Hcan : canModifyOrder order = true).
    { unfold canModifyOrder, includes; simpl.
      destruct Hin as [<-|[<-|[]]]; reflexivity. }
    rewrite Hcan; simpl.
    unfold updateOrderData.
    destruct (updateRecord_orders env db id (filterOrderUpdates payload)
                order Hfind) as (i & Hi & Hn & Hid & Hupd).
    rewrite Hupd.
    set (r := Order.with_updatedAt (now env)
                (Order.spread order (filterOrderUpdates payload))).
    set (db' := set_orders (replace_at i r (orders db)) db).
    assert (Hfind' : getOrderById db' id = Some r).
    { unfold getOrderById, Store.findRecordById; simpl.
      apply find_replace_at; [exact Hi|exact Hid]. }
    assert (Hst : Order.status r = s) by (simpl; rewrite Hs; reflexivity).
    exists r, db'.
    split; [reflexivity|].
    split; [exact Hfind'|].
    split; [exact Hst|].
    split; [reflexivity|].
    split; [reflexivity|].
    split; [reflexivity|].
    intros -> e'.
    unfold post_order_cancel; rewrite Hfind'.
    unfold canCancelOrder, includes; rewrite Hst; reflexivity.
  - intro Hnot.
    unfold patch_order_status; rewrite Hfind.
    destruct (isValidStatusTransition (Order.status order) s) eqn:E;
      [|reflexivity].
    apply isValidStatusTransition_table in E; contradiction.
Qed.

Lemma C5_put_stores_any_status_witness :
  getOrderById (sample_db pending) "o1" = Some (sample_order pending)
  /\ (exists updated db',
        put_order sample_env "o1" sample_payload (sample_db pending)
        = (json (formatResponse (Some updated) "Order updated"), db')
        /\ getOrderById db' "o1" = Some updated
        /\ Order.status updated = delivered)
  /\ patch_order_status sample_env "o1" delivered (sample_db pending)
     = (status_json 400
          (formatErrorResponse (Some "Invalid status transition")),
        sample_db pending)
  /\ (exists updated db',
        put_order sample_env "o1" (Order.only_status cancelled)
          (sample_db confirmed)
        = (json (formatResponse (Some updated) "Order updated"), db')
        /\ Order.status updated = cancelled
        /\ forall e',
             post_order_cancel e' "o1" db'
             = (status_json 400
                  (formatErrorResponse (Some "Order cannot be cancelled")),
                db')).
Proof.
  split; [reflexivity|].
  destruct (C5_put_stores_any_status sample_env "o1" sample_payload
              (sample_db pending) (sample_order pending) delivered
              eq_refl (or_introl eq_refl) eq_refl)
    as (_ & (updated & db' & Hput & Hfind & Hst & _) & Hpatch).
  split; [|split].
  - exists updated, db'; auto.
  - apply Hpatch.
    simpl; intro H.
    repeat (destruct H as [H|H]; [discriminate H|]); exact H.
  - destruct (C5_put_stores_any_status sample_env "o1"
                (Order.only_status cancelled) (sample_db confirmed)
                (sample_order confirmed) cancelled
                eq_refl (or_intror (or_introl eq_refl)) eq_refl)
      as (_ & (u & d & Hp & _ & Hs & _ & _ & _ & Hc) & _).
    exists u, d; split; [exact Hp|split; [exact Hs|exact (Hc eq_refl)]].
Defined.

End OrderStatusFacts.

(** ** Stock movements of order creation and cancellation *)

Section StockFacts.
Import OrderRoutes.

Lemma adjustStock_orders change env db it :
  orders (adjustStock change env db it) = orders db
  /\ carts (adjustStock change env db it) = carts db
  /\ payments (adjustStock change env db it) = payments db.
Proof.
  unfold adjustStock.
  destruct (Store.findRecordById c_products db (OrderItem.productId it))
    as [p|] eqn:Hp; [|auto].
  assert (Hid : Product.id p = OrderItem.productId it)
    by exact (findRecordById_id c_products _ _ _ Hp).
  rewrite Hid.
  destruct (updateRecord_products env db (OrderItem.productId it)
              (Product.only_stock
                 (change (Product.stock p) (OrderItem.quantity it))) p Hp)
    as (i & _ & _ & _ & ->).
  auto.
Qed.

Lemma bump_replace_at (l : list Product.t) (pid : string) (f : Z -> Z) :
  forall i p r,
    findIndex (Store.has_id pid) l = Some i ->
    nth_error l i = Some p ->
    Product.id r = Product.id p ->
    Product.stock r = f (Product.stock p) ->
    map (fun p => (Product.id p, Product.stock p)) (replace_at i r l)
    = bump pid f (map (fun p => (Product.id p, Product.stock p)) l).
Proof.
  induction l as [|y l IH]; intros i p r; simpl; [discriminate|].
  unfold Store.has_id at 1; simpl.
  destruct (Product.id y =? pid)%string eqn:Hy.
  - intros [= <-]; simpl; intros [= ->] Hid Hst.
    rewrite Hid, Hst; reflexivity.
  - destruct (findIndex (Store.has_id pid) l) as [j|] eqn:Hj; [|discriminate].
    intros [= <-]; simpl; intros Hn Hid Hst.
    rewrite (IH j p r eq_refl Hn Hid Hst); reflexivity.
Qed.

Lemma bump_absent (l : list Product.t) (pid : string) (f : Z -> Z) :
  find (Store.has_id pid) l = None ->
  bump pid f (map (fun p => (Product.id p, Product.stock p)) l)
  = map (fun p => (Product.id p, Product.stock p)) l.
Proof.
  induction l as [|y l IH]; simpl; [reflexivity|].
  unfold Store.has_id at 1; simpl.
  destruct (Product.id y =? pid)%string; [discriminate|].
  intro H; rewrite (IH H); reflexivity.
Qed.

(** One turn of the stock loops, seen on the stock column. *)
Lemma adjustStock_view change env db it :
  stock_view (adjustStock change env db it)
  = bump (OrderItem.productId it)
      (fun s => change s (OrderItem.quantity it)) (stock_view db).
Proof.
  unfold adjustStock, stock_view.
  destruct (Store.findRecordById c_products db (OrderItem.productId it))
    as [p|] eqn:Hp.
  - assert (Hid : Product.id p = OrderItem.productId it)
      by exact (findRecordById_id c_products _ _ _ Hp).
    rewrite Hid.
    destruct (updateRecord_products env db (OrderItem.productId it)
                (Product.only_stock
                   (change (Product.stock p) (OrderItem.quantity it))) p Hp)
      as (i & Hi & Hn & _ & ->).
    simpl.
    apply (bump_replace_at _ _ _ i p); auto.
  - symmetry; apply bump_absent; exact Hp.
Qed.

Lemma fold_adjustStock_orders change env items :
  forall db,
    orders (fold_left (adjustStock change env) items db) = orders db
    /\ carts (fold_left (adjustStock change env) items db) = carts db
    /\ payments (fold_left (adjustStock change env) items db) = payments db.
Proof.
  induction items as [|it items IH]; intro db; simpl; [auto|].
  destruct (IH (adjustStock change env db it)) as (-> & -> & ->).
  apply adjustStock_orders.
Qed.

Lemma fold_adjustStock_view change env items :
  forall db,
    stock_view (fold_left (adjustStock change env) items db)
    = fold_left
        (fun v it =>
           bump (OrderItem.productId it)
             (fun s => change s (OrderItem.quantity it)) v)
        items (stock_view db).
Proof.
  induction items as [|it items IH]; intro db; simpl; [reflexivity|].
  rewrite IH, adjustStock_view; reflexivity.
Qed.





Lemma updateProductStock_loop env db items :
  updateProductStock env db items = fold_left (adjustStock Z.sub env) items db.
Proof. reflexivity. Qed.

Lemma restoreProductStock_loop env db items :
  restoreProductStock env db items = fold_left (adjustStock Z.add env) items db.
Proof. reflexivity. Qed.

Lemma updateProductStock_orders env db items :
  orders (updateProductStock env db items) = orders db.
Proof.
  rewrite updateProductStock_loop; apply fold_adjustStock_orders.
Qed.

Lemma restoreProductStock_orders env db items :
  orders (restoreProductStock env db items) = orders db.
Proof.
  rewrite restoreProductStock_loop; apply fold_adjustStock_orders.
Qed.

Lemma updateProductStock_view env db items :
  stock_view (updateProductStock env db items)
  = fold_left take_out items (stock_view db).
Proof.
  rewrite updateProductStock_loop; apply (fold_adjustStock_view Z.sub).
Qed.

Lemma restoreProductStock_view env db items :
  stock_view (restoreProductStock env db items)
  = fold_left put_back items (stock_view db).
Proof.
  rewrite restoreProductStock_loop; apply (fold_adjustStock_view Z.add).
Qed.

End StockFacts.

(** ** Order creation and cancellation *)

Section OrderLifecycle.
Import OrderRoutes.

Lemma fails_not_passes db it : fails db it -> ~ passes db it.
Proof.
  intros [Hn | (p & Hp & Hlt)] (q & Hq & Hle).
  - rewrite Hn in Hq; discriminate.
  - rewrite Hp in Hq; injection Hq as ->; lia.
Qed.

Lemma validateStockAvailability_passes db items :
  available (validateStockAvailability db items) = true
  <-> Forall (passes db) items.
Proof.
  induction items as [|it items IH]; simpl.
  - split; [constructor|reflexivity].
  - destruct (Store.findRecordById c_products db (OrderItem.productId it))
      as [p|] eqn:Hp.
    + destruct (Product.stock p <? OrderItem.quantity it) eqn:Hlt; simpl.
      * split; [discriminate|].
        intro H; inversion H as [|? ? (q & Hq & Hle) _]; subst.
        rewrite Hp in Hq; injection Hq as <-.
        apply Z.ltb_lt in Hlt; lia.
      * rewrite IH; split.
        -- intro H; constructor; [|exact H].
           exists p; split; [exact Hp|apply Z.ltb_ge in Hlt; exact Hlt].
        -- intro H; inversion H; assumption.
    + simpl; split; [discriminate|].
      intro H; inversion H as [|? ? (q & Hq & _) _]; subst.
      rewrite Hp in Hq; discriminate.
Qed.

Lemma take_out_enriched db items :
  forall v,
    fold_left take_out (enrichOrderItems db items) v
    = fold_left take_out items v.
Proof.
  induction items as [|it items IH]; intro v; simpl; [reflexivity|].
  rewrite <- IH; reflexivity.
Qed.

(** What a successful creation has done. *)
Lemma post_order_created env req_body db reply db1 order :
  post_order env req_body db = (reply, db1) ->
  data (body reply) = Some order ->
  let items := override (Order.items' req_body) [] in
  Forall (passes db) items
  /\ code reply = 201
  /\ Order.items order = enrichOrderItems db items
  /\ Order.status order = pending
  /\ orders db1 = (orders db ++ [order])%list
  /\ stock_view db1 = fold_left take_out items (stock_view db).
Proof.
  unfold post_order.
  destruct (Validators.isValid (Validators.validateOrder req_body)); simpl;
    [|intros [= <- <-]; discriminate].
  destruct (available
              (validateStockAvailability db
                 (override (Order.items' req_body) []))) eqn:Hav; simpl;
    [|intros [= <- <-]; discriminate].
  intros [= <- <-]; simpl; intros [= <-].
  split; [apply validateStockAvailability_passes; exact Hav|].
  split; [reflexivity|].
  split; [reflexivity|].
  split; [reflexivity|].
  split.
  - rewrite updateProductStock_orders; reflexivity.
  - rewrite updateProductStock_view; simpl.
    apply take_out_enriched.
Qed.

(** C4. When some line of an order-creation request asks for more than
    the current stock of its product, or names a product that does not
    exist, the request is answered with a 400 error and nothing is
    mutated: no order is inserted and no stock changes.  Only when every
    line passes the stock check is the order inserted and the stock of
    each line's product decremented by the line's quantity. *)
Theorem C4_order_creation_validates_before_mutating
    (env : Env) (req_body : Order.partial) (db : Database) :
  let items := override (Order.items' req_body) [] in
  ((exists it, In it items /\ fails db it) ->
   code (fst (post_order env req_body db)) = 400
   /\ success (body (fst (post_order env req_body db))) = false
   /\ snd (post_order env req_body db) = db)
  /\ (snd (post_order env req_body db) <> db
      \/ code (fst (post_order env req_body db)) = 201 ->
      Forall (passes db) items
      /\ exists order,
           data (body (fst (post_order env req_body db))) = Some order
           /\ orders (snd (post_order env req_body db))
              = (orders db ++ [order])%list
           /\ stock_view (snd (post_order env req_body db))
              = fold_left take_out items (stock_view db)).
Proof.
  intro items; split.
  - intros (it & Hin & Hfail).
    assert (Hav : available (validateStockAvailability db items) = false).
    { destruct (available (validateStockAvailability db items)) eqn:E;
        [|reflexivity].
      apply validateStockAvailability_passes in E.
      rewrite Forall_forall in E.
      destruct (fails_not_passes _ _ Hfail (E it Hin)). }
    unfold post_order; fold items.
    destruct (Validators.isValid (Validators.validateOrder req_body)); simpl;
      [rewrite Hav|]; simpl; auto.
  - intro Hdone.
    destruct (post_order env req_body db) as [reply db1] eqn:Hpost.
    simpl in *.
    assert (Hdata : exists order, data (body reply) = Some order).
    { revert Hpost Hdone; unfold post_order.
      destruct (Validators.isValid (Validators.validateOrder req_body));
        simpl.
      - destruct (available
                    (validateStockAvailability db
                       (override (Order.items' req_body) []))); simpl.
        + intros [= <- <-] _; simpl; eexists; reflexivity.
        + intros [= <- <-] [H|H]; [destruct (H eq_refl)|discriminate H].
      - intros [= <- <-] [H|H]; [destruct (H eq_refl)|discriminate H]. }
    destruct Hdata as (order & Hdata).
    destruct (post_order_created env req_body db reply db1 order Hpost Hdata)
      as (Hall & _ & _ & _ & Hord & Hview).
    split; [exact Hall|].
    exists order; auto.
Qed.

Lemma C4_order_creation_validates_before_mutating_witness :
  (exists it, In it [widget_line 7] /\ fails shop it)
  /\ snd (post_order sample_env (order_request [widget_line 7]) shop) = shop.
Proof.
  assert (H : exists it, In it [widget_line 7] /\ fails shop it).
  { exists (widget_line 7); split; [left; reflexivity|].
    right; exists widget; split; [reflexivity|simpl; lia]. }
  split; [exact H|].
  apply (proj1 (C4_order_creation_validates_before_mutating sample_env
                  (order_request [widget_line 7]) shop) H).
Defined.

End OrderLifecycle.

(** ** Binary64 arithmetic on safe integers *)

Section Binary64Facts.

























End Binary64Facts.

(** ** Cancellation *)

Section Cancellation.
Import OrderRoutes.


Lemma set_orders_view (l : list Order.t) (db : Database) :
  stock_view (set_orders l db) = stock_view db.
Proof. reflexivity. Qed.




End Cancellation.

(** ** The cart *)

Section CartFacts.
Import CartRoutes.

Lemma find_ref_spec {A : Type} (f : A -> bool) (l : list A) (i : nat) (x : A) :
  find_ref f l = Some (i, x) -> nth_error l i = Some x /\ f x = true.
Proof.
  revert i; induction l as [|y l IH]; intro i; simpl; [discriminate|].
  destruct (f y) eqn:Hy.
  - intros [= <- <-]; auto.
  - destruct (find_ref f l) as [[j z]|]; [|discriminate].
    intros [= <- <-]; simpl; apply IH; reflexivity.
Qed.

Lemma find_ref_replace_at {A : Type} (f : A -> bool) (l : list A)
    (i : nat) (x y : A) :
  find_ref f l = Some (i, x) -> f y = true ->
  find_ref f (replace_at i y l) = Some (i, y).
Proof.
  revert i; induction l as [|z l IH]; intro i; simpl; [discriminate|].
  destruct (f z) eqn:Hz.
  - intros [= <- <-] Hy; simpl; rewrite Hy; reflexivity.
  - destruct (find_ref f l) as [[j w]|] eqn:Hj; [|discriminate].
    intros [= <- <-] Hy; simpl; rewrite Hz, (IH j eq_refl Hy); reflexivity.
Qed.

Lemma find_none_not_in (c : Cart.t) (pid : string) :
  findCartItem c pid = None ->
  ~ In pid (map CartItem.productId (Cart.items c)).
Proof.
  unfold findCartItem; intros H Hin.
  apply in_map_iff in Hin; destruct Hin as (x & Hx & Hin).
  pose proof (find_none _ _ H x Hin) as Hf.
  unfold is_line in Hf; rewrite Hx, String.eqb_refl in Hf; discriminate.
Qed.

(** Overwriting the quantity of a line keeps the products of the lines. *)
Lemma set_quantity_keeps_products (items : list CartItem.t) (j : nat)
    (line : CartItem.t) (q : Z) :
  nth_error items j = Some line ->
  map CartItem.productId
    (replace_at j (CartItem.set_quantity q line) items)
  = map CartItem.productId items.
Proof.
  intro Hn; rewrite map_replace_at; apply replace_at_same.
  rewrite nth_error_map, Hn; reflexivity.
Qed.

(** [updateExistingCartItem] on a cart that has the line. *)
Lemma updateExistingCartItem_present env db r pid q line :
  findCartItem (snd r) pid = Some line ->
  exists j,
    nth_error (Cart.items (snd r)) j = Some line
    /\ findIndex (is_line pid) (Cart.items (snd r)) = Some j
    /\ updateExistingCartItem env db r pid q
       = let r' :=
           (fst r,
            Cart.set_updatedAt (now env)
              (Cart.set_items
                 (replace_at j (CartItem.set_quantity q line)
                    (Cart.items (snd r)))
                 (snd r))) in
         Returned r' (write db r').
Proof.
  intro H; destruct (find_findIndex _ _ _ H) as (j & Hj & Hn & _).
  exists j; split; [exact Hn|]; split; [exact Hj|].
  unfold updateExistingCartItem; rewrite Hj, Hn; reflexivity.
Qed.





(** C9. The item update is not total at its public interface: when the
    cart exists and has no line for the product, and the requested
    quantity is positive and passes the stock check,
    [updateExistingCartItem] indexes the lines at -1 and the assignment
    to the quantity throws a TypeError; the handler neither returns an
    error response nor returns the cart. *)
Theorem C9_update_of_missing_line_throws
    (env : Env) (db : Database) (userId productId : string) (q : Z)
    (product : Product.t) (r : CartRef) :
  Store.findRecordById c_products db productId = Some product ->
  q <= Product.stock product ->
  0 < q ->
  getCartByUserId db userId = Some r ->
  findCartItem (snd r) productId = None ->
  findIndex (is_line productId) (Cart.items (snd r)) = None
  /\ updateExistingCartItem env db r productId q = Thrown TypeError db
  /\ updateCartItemQuantity env db userId productId q = Thrown TypeError db
  /\ put_cart_item env userId productId q db = Thrown TypeError db.
Proof.
  intros Hp Hstock Hpos Hget Hline.
  pose proof (find_none_findIndex _ _ Hline) as Hidx.
  assert (Hupd : updateExistingCartItem env db r productId q
                 = Thrown TypeError db).
  { unfold updateExistingCartItem; rewrite Hidx; reflexivity. }
  assert (Hqty : updateCartItemQuantity env db userId productId q
                 = Thrown TypeError db).
  { unfold updateCartItemQuantity; rewrite Hget.
    destruct (q <=? 0) eqn:E; [apply Z.leb_le in E; lia|exact Hupd]. }
  repeat split; auto.
  unfold put_cart_item; rewrite Hp.
  unfold checkStockAvailable.
  destruct (q <=? Product.stock product) eqn:E;
    [|apply Z.leb_gt in E; lia].
  simpl; rewrite Hqty; reflexivity.
Qed.

Lemma C9_update_of_missing_line_throws_witness :
  put_cart_item sample_env "u1" "P1" 2 shop_with_cart
  = Thrown TypeError shop_with_cart.
Proof.
  apply (C9_update_of_missing_line_throws sample_env shop_with_cart "u1" "P1" 2
           widget
           (O, {| Cart.id := "c1"; Cart.userId := "u1"; Cart.items := [];
                  Cart.createdAt := Some 1; Cart.updatedAt := Some 1 |}));
    try reflexivity; simpl; lia.
Defined.

End CartFacts.

(** ** Refunds *)

Section RefundFacts.
Import PaymentRoutes.

Lemma SFeqb_finite_refl (s : bool) (m : positive) (e : Z) :
  SFeqb (S754_finite s m e) (S754_finite s m e) = true.
Proof.
  unfold SFeqb, SFcompare.
  destruct s; rewrite Z.compare_refl, Pos.compare_refl; reflexivity.
Qed.


Lemma updatePaymentStatus_refunded env db id payment :
  getPaymentById db id = Some payment ->
  option_map Payment.status
    (getPaymentById (updatePaymentStatus env db id pay_refunded) id)
  = Some pay_refunded.
Proof.
  intro H; destruct (find_findIndex _ _ _ H) as (i & Hi & Hn & Hid).
  unfold updatePaymentStatus; rewrite Hi, Hn.
  unfold getPaymentById; simpl.
  rewrite (find_replace_at _ _ i _ Hi); [reflexivity|exact Hid].
Qed.







End RefundFacts.

(** ** The price and name snapshot of order lines *)

Section SnapshotFacts.
Import OrderRoutes.

Lemma enrichOrderItems_snapshot db lines :
  Forall2 (snapshot_of db) lines (enrichOrderItems db lines).
Proof.
  induction lines as [|line lines IH]; simpl; constructor; [|exact IH].
  split; [reflexivity|].
  destruct (Store.findRecordById c_products db (OrderItem.productId line));
    split; reflexivity.
Qed.

Lemma enrichOrderItems_ignores_client_fields db lines1 lines2 :
  map line_key lines1 = map line_key lines2 ->
  enrichOrderItems db lines1 = enrichOrderItems db lines2.
Proof.
  revert lines2; induction lines1 as [|a l1 IH]; intros [|b l2]; simpl;
    try discriminate; [reflexivity|].
  intros [= Hp Hq Hw Hd Hrest].
  rewrite (IH l2 Hrest), Hp, Hq, Hw, Hd; reflexivity.
Qed.

(** C10. Order creation ignores the unit price and the name a client
    sends with a line: each stored line takes its name and price from
    the catalog record of the product at creation time, a line whose
    product does not exist is stored with name "Unknown" and price 0,
    and the totals of the order are computed from the stored lines. *)
Theorem C10_order_lines_snapshot_catalog
    (env : Env) (db : Database) (d : Order.partial) :
  let lines := override (Order.items' d) [] in
  let built := buildOrderObject env db d in
  let stored := fst (createOrder env db d) in
  Forall2 (snapshot_of db) lines (Order.items built)
  /\ Order.totals built = Some (Helpers.calculateTotal (Order.items built))
  /\ Order.items stored = Order.items built
  /\ Order.totals stored = Order.totals built
  /\ In stored (orders (snd (createOrder env db d)))
  /\ (forall lines2,
        map line_key lines2 = map line_key lines ->
        enrichOrderItems db lines2 = Order.items built).
Proof.
  intros lines built stored.
  split; [apply enrichOrderItems_snapshot|].
  split; [reflexivity|].
  split; [reflexivity|].
  split; [reflexivity|].
  split.
  - unfold stored, createOrder, Store.insertRecord; simpl.
    apply in_or_app; right; left; reflexivity.
  - intros lines2 H.
    apply (enrichOrderItems_ignores_client_fields db lines2 lines H).
Qed.

Lemma C10_order_lines_snapshot_catalog_witness :
  map (fun it => (OrderItem.name it, OrderItem.price it))
    (Order.items
       (buildOrderObject sample_env shop
          (order_request [widget_line 2; ghost_line])))
  = [(Some "Widget", 10%float); (Some "Unknown", 0%float)]
  /\ enrichOrderItems shop
       [ OrderItem.mk "P1" None 5%float 2 (Some 1%float) None;
         OrderItem.mk "P9" None 7%float 1 None None ]
     = Order.items
         (buildOrderObject sample_env shop
            (order_request [widget_line 2; ghost_line])).
Proof.
  split; [reflexivity|].
  apply (C10_order_lines_snapshot_catalog sample_env shop
           (order_request [widget_line 2; ghost_line])).
  reflexivity.
Defined.

End SnapshotFacts.

(** ** Non-negative stock *)

Section StockInvariant.
Import OrderRoutes.

Lemma passes_in_stock db it : passes db it -> in_stock (stock_view db) it.
Proof.
  intros (p & Hp & Hle); exists (Product.stock p); split; [|exact Hle].
  unfold Store.findRecordById in Hp; simpl in Hp.
  unfold stock_view.
  induction (products db) as [|y l IH]; simpl in *; [discriminate|].
  unfold Store.has_id in Hp at 1; simpl in Hp.
  destruct (Product.id y =? OrderItem.productId it)%string eqn:Hy.
  - injection Hp as ->; apply String.eqb_eq in Hy; rewrite Hy; reflexivity.
  - apply IH; exact Hp.
Qed.

Lemma take_out_nonneg v it :
  Forall (fun e => 0 <= snd e) v -> in_stock v it ->
  Forall (fun e => 0 <= snd e) (take_out v it).
Proof.
  intros Hv (s & Hfind & Hle); unfold take_out.
  induction Hv as [|[i t] v Ht Hv IH]; simpl in *; [constructor|].
  destruct (i =? OrderItem.productId it)%string.
  - injection Hfind as _ ->; constructor; [simpl; lia|exact Hv].
  - constructor; [exact Ht|apply IH; exact Hfind].
Qed.

Lemma take_out_in_stock_other v it it' :
  OrderItem.productId it' <> OrderItem.productId it ->
  in_stock v it' -> in_stock (take_out v it) it'.
Proof.
  intros Hne (s & Hfind & Hle); exists s; split; [|exact Hle].
  unfold take_out.
  induction v as [|[i t] v IH]; simpl in *; [discriminate|].
  destruct (i =? OrderItem.productId it)%string eqn:Hi; simpl.
  - apply String.eqb_eq in Hi; subst i.
    destruct (OrderItem.productId it =? OrderItem.productId it')%string
      eqn:E; [|exact Hfind].
    apply String.eqb_eq in E; congruence.
  - destruct (i =? OrderItem.productId it')%string; [exact Hfind|].
    apply IH; exact Hfind.
Qed.

Lemma fold_take_out_nonneg items :
  forall v,
    NoDup (map OrderItem.productId items) ->
    Forall (in_stock v) items ->
    Forall (fun e => 0 <= snd e) v ->
    Forall (fun e => 0 <= snd e) (fold_left take_out items v).
Proof.
  induction items as [|it items IH]; intros v Hnd Hin Hv; simpl;
    [exact Hv|].
  inversion Hnd as [|? ? Hnotin Hnd']; subst.
  inversion Hin as [|? ? Hit Hrest]; subst.
  apply IH; [exact Hnd'| |apply take_out_nonneg; assumption].
  rewrite Forall_forall in *; intros x Hx.
  apply take_out_in_stock_other; [|apply Hrest; exact Hx].
  intro E; apply Hnotin; rewrite <- E; apply in_map; exact Hx.
Qed.

(** Order creation keeps the stock non-negative when no two lines of the
    request are for the same product. *)
Lemma post_order_distinct_lines_nonneg env req_body db :
  NoDup (map OrderItem.productId (override (Order.items' req_body) [])) ->
  stock_nonneg db ->
  stock_nonneg (snd (post_order env req_body db)).
Proof.
  intros Hnd Hdb; unfold post_order.
  destruct (Validators.isValid (Validators.validateOrder req_body)); simpl;
    [|exact Hdb].
  destruct (available
              (validateStockAvailability db
                 (override (Order.items' req_body) []))) eqn:Hav; simpl;
    [|exact Hdb].
  apply validateStockAvailability_passes in Hav.
  unfold stock_nonneg; rewrite updateProductStock_view; simpl.
  rewrite take_out_enriched.
  apply fold_take_out_nonneg; [exact Hnd| |exact Hdb].
  rewrite Forall_forall in *; intros x Hx.
  apply passes_in_stock, Hav, Hx.
Qed.

(** Product creation validates the stock it is given. *)
Lemma post_product_nonneg env req_body db :
  stock_nonneg db ->
  stock_nonneg (snd (ProductRoutes.post_product env req_body db)).
Proof.
  intro Hdb; unfold ProductRoutes.post_product.
  destruct (Validators.isValid (Validators.validateProduct req_body))
    eqn:Hvalid; simpl; [|exact Hdb].
  unfold stock_nonneg, stock_view; simpl.
  rewrite map_app; apply Forall_app; split; [exact Hdb|].
  constructor; [|constructor]; simpl.
  unfold Validators.validateProduct, Validators.buildValidationResult,
    Validators.push_unless in Hvalid; simpl in Hvalid.
  destruct (Product.stock' req_body) as [s|]; simpl in *.
  - destruct (0 <=? s) eqn:Hs; [apply Z.leb_le; exact Hs|].
    destruct (Validators.validateRequiredField (Product.name' req_body)),
      (Validators.validatePrice (Product.price' req_body));
      discriminate Hvalid.
  - lia.
Qed.

Lemma put_back_nonneg v it :
  Forall (fun e => 0 <= snd e) v -> 0 <= OrderItem.quantity it ->
  Forall (fun e => 0 <= snd e) (put_back v it).
Proof.
  intros Hv Hq; unfold put_back.
  induction Hv as [|[i t] v Ht Hv IH]; simpl in *; [constructor|].
  destruct (i =? OrderItem.productId it)%string;
    constructor; simpl; auto; lia.
Qed.

(** Cancellation keeps the stock non-negative when the quantities of the
    order are not negative. *)
Lemma post_order_cancel_nonneg env id db :
  (forall o, getOrderById db id = Some o ->
             Forall (fun it => 0 <= OrderItem.quantity it) (Order.items o)) ->
  stock_nonneg db ->
  stock_nonneg (snd (post_order_cancel env id db)).
Proof.
  intros Hq Hdb; unfold post_order_cancel.
  destruct (getOrderById db id) as [o|] eqn:Hfind; [|exact Hdb].
  destruct (canCancelOrder o); simpl; [|exact Hdb].
  unfold cancelOrder, updateOrderStatus.
  destruct (updateRecord_orders env db id (Order.only_status cancelled) o Hfind)
    as (i & _ & _ & _ & ->).
  cbv beta iota zeta delta [snd]; unfold stock_nonneg in *.
  rewrite restoreProductStock_view, set_orders_view.
  specialize (Hq o eq_refl).
  revert Hdb; generalize (stock_view db).
  induction Hq as [|it items Hit _ IH]; intros v Hv; simpl; [exact Hv|].
  apply IH, put_back_nonneg; assumption.
Qed.

(** C6 fails on the code: the stock endpoint and the product update
    store a negative stock as given, and an order with two lines for the
    same product passes the per-line stock check and takes out more than
    there is. *)
Theorem C6_stock_becomes_negative :
  stock_nonneg shop
  /\ stock_view
       (snd (ProductRoutes.patch_product_stock sample_env "P1" (-5) shop))
     = [("P1", -5)]
  /\ stock_view
       (snd (ProductRoutes.put_product sample_env "P1"
               (Product.only_stock (-1)) shop))
     = [("P1", -1)]
  /\ code (fst (post_order sample_env
                  (order_request [widget_line 3; widget_line 3]) shop))
     = 201
  /\ stock_view
       (snd (post_order sample_env
               (order_request [widget_line 3; widget_line 3]) shop))
     = [("P1", -1)].
Proof.
  split; [repeat constructor; simpl; lia|].
  repeat split; reflexivity.
Qed.

End StockInvariant.

(** ** The record store: insertion, lookup, removal *)

Section StoreRoundTrips.
Import Store.

Lemma generateId_nonempty (env : Env) : Helpers.generateId env <> "".
Proof.
  unfold Helpers.generateId, Helpers.formatIdString.
  destruct (Helpers.getTimestamp env); simpl; discriminate.
Qed.

Lemma find_app_old {A : Type} (f : A -> bool) (l l' : list A) (x : A) :
  find f l = Some x -> find f (l ++ l') = Some x.
Proof.
  induction l as [|y l IH]; simpl; [discriminate|].
  destruct (f y); auto.
Qed.

(** What [insertRecord] does on a collection whose records carry their
    id as the store writes it. *)
Lemma insertRecord_lookup {T : Type} `{Stored T} (c : Collection T)
    (env : Env) (db : Database) (d : T) :
  (forall l, select c (assign c l db) = l) ->
  (forall i t x, get_id (put_createdAt t (put_id i x)) = i) ->
  let r := fst (insertRecord c env db d) in
  let db1 := snd (insertRecord c env db d) in
  get_id r <> ""
  /\ (get_id d <> "" -> get_id r = get_id d)
  /\ select c db1 = (select c db ++ [r])%list
  /\ (forall id old,
        findRecordById c db id = Some old ->
        findRecordById c db1 id = Some old)
  /\ (findRecordById c db (get_id r) = None ->
      findRecordById c db1 (get_id r) = Some r).
Proof.
  intros Hsel Hid r db1.
  assert (Hr : get_id r
               = if (get_id d =? "")%string then Helpers.generateId env
                 else get_id d).
  { unfold r, insertRecord; simpl; apply Hid. }
  assert (Hl : select c db1 = (select c db ++ [r])%list).
  { unfold db1, r, insertRecord; simpl; apply Hsel. }
  split; [|split; [|split; [exact Hl|split]]].
  - rewrite Hr; destruct (get_id d =? "")%string eqn:E.
    + apply generateId_nonempty.
    + apply String.eqb_neq in E; exact E.
  - intro Hd; apply String.eqb_neq in Hd; rewrite Hr, Hd; reflexivity.
  - intros id old Hold; unfold findRecordById in *; rewrite Hl.
    apply find_app_old; exact Hold.
  - intro Hnone; unfold findRecordById in *; rewrite Hl.
    apply find_app_fresh; [exact Hnone|].
    unfold has_id; apply String.eqb_refl.
Qed.

(** X1. A record inserted into the product or the order collection gets
    a non-empty id (its own when it has one, a generated one otherwise)
    and is appended at the end of the collection.  Every record that a
    lookup by id found before is still the answer for its id; the new
    record is the answer for its id when no older record has that id. *)
Theorem X1_insert_then_find (env : Env) (db : Database) :
  (forall d : Product.t,
      let r := fst (insertRecord c_products env db d) in
      let db1 := snd (insertRecord c_products env db d) in
      Product.id r <> ""
      /\ (Product.id d <> "" -> Product.id r = Product.id d)
      /\ products db1 = (products db ++ [r])%list
      /\ (forall id old,
            findRecordById c_products db id = Some old ->
            findRecordById c_products db1 id = Some old)
      /\ (findRecordById c_products db (Product.id r) = None ->
          findRecordById c_products db1 (Product.id r) = Some r))
  /\ (forall d : Order.t,
        let r := fst (insertRecord c_orders env db d) in
        let db1 := snd (insertRecord c_orders env db d) in
        Order.id r <> ""
        /\ (Order.id d <> "" -> Order.id r = Order.id d)
        /\ orders db1 = (orders db ++ [r])%list
        /\ (forall id old,
              findRecordById c_orders db id = Some old ->
              findRecordById c_orders db1 id = Some old)
        /\ (findRecordById c_orders db (Order.id r) = None ->
            findRecordById c_orders db1 (Order.id r) = Some r)).
Proof.
  split; intro d.
  - exact (insertRecord_lookup c_products env db d
             (fun _ => eq_refl) (fun _ _ _ => eq_refl)).
  - exact (insertRecord_lookup c_orders env db d
             (fun _ => eq_refl) (fun _ _ _ => eq_refl)).
Qed.

Lemma X1_insert_then_find_witness :
  let d := Product.with_id "" widget in
  let r := fst (Store.insertRecord c_products sample_env shop d) in
  Store.findRecordById c_products shop (Product.id r) = None
  /\ Store.findRecordById c_products
       (snd (Store.insertRecord c_products sample_env shop d)) (Product.id r)
     = Some r.
Proof.
  intros d r; split; [reflexivity|].
  apply (proj1 (X1_insert_then_find sample_env shop) d); reflexivity.
Defined.

Lemma findIndex_none_find {A : Type} (f : A -> bool) (l : list A) :
  findIndex f l = None -> find f l = None.
Proof.
  induction l as [|y l IH]; simpl; [reflexivity|].
  destruct (f y); [discriminate|].
  destruct (findIndex f l); [discriminate|]; auto.
Qed.

Lemma find_none_iff_no_id {T : Type} `{Stored T} (c : Collection T)
    (db : Database) (id : string) :
  findRecordById c db id = None <-> ~ In id (map get_id (select c db)).
Proof.
  unfold findRecordById; split.
  - intros Hnone Hin; apply in_map_iff in Hin.
    destruct Hin as (x & Hx & Hin).
    pose proof (find_none _ _ Hnone x Hin) as Hf.
    unfold has_id in Hf; rewrite Hx, String.eqb_refl in Hf; discriminate.
  - intro Hnot; destruct (find (has_id id) (select c db)) as [x|] eqn:E;
      [|reflexivity].
    apply find_some in E; destruct E as [Hin Hx].
    apply String.eqb_eq in Hx; exfalso; apply Hnot.
    apply in_map_iff; exists x; auto.
Qed.

(** X2. An id that no record of the collection carries: the generic
    update and delete return null and leave the store as it is, and
    every order and product route that takes an id answers 404 without
    changing the store. *)
Theorem X2_unknown_id_changes_nothing (env : Env) (db : Database)
    (id : string) :
  (~ In id (map Order.id (orders db)) ->
   (forall u, updateRecord c_orders env db id u = (None, db))
   /\ deleteRecord c_orders db id = (None, db)
   /\ (forall u,
         code (fst (OrderRoutes.put_order env id u db)) = 404
         /\ snd (OrderRoutes.put_order env id u db) = db)
   /\ (forall s,
         code (fst (OrderRoutes.patch_order_status env id s db)) = 404
         /\ snd (OrderRoutes.patch_order_status env id s db) = db)
   /\ code (fst (OrderRoutes.post_order_cancel env id db)) = 404
   /\ snd (OrderRoutes.post_order_cancel env id db) = db
   /\ code (OrderViews.get_order id db) = 404)
  /\ (~ In id (map Product.id (products db)) ->
      (forall u, updateRecord c_products env db id u = (None, db))
      /\ deleteRecord c_products db id = (None, db)
      /\ (forall u,
            code (fst (ProductRoutes.put_product env id u db)) = 404
            /\ snd (ProductRoutes.put_product env id u db) = db)
      /\ (forall q,
            code (fst (ProductRoutes.patch_product_stock env id q db)) = 404
            /\ snd (ProductRoutes.patch_product_stock env id q db) = db)
      /\ code (fst (ProductRoutes.delete_product id db)) = 404
      /\ snd (ProductRoutes.delete_product id db) = db).
Proof.
  split; intro Hnot.
  - pose proof (proj2 (find_none_iff_no_id c_orders db id) Hnot) as Hnone.
    pose proof (find_none_findIndex _ _ Hnone) as Hi; simpl in Hi.
    unfold findRecordById in Hnone; simpl in Hnone.
    unfold OrderRoutes.put_order, OrderRoutes.patch_order_status,
      OrderRoutes.post_order_cancel, OrderViews.get_order,
      OrderRoutes.getOrderById, updateRecord, deleteRecord.
    unfold findRecordById; simpl select; rewrite Hnone, Hi; repeat split; reflexivity.
  - pose proof (proj2 (find_none_iff_no_id c_products db id) Hnot) as Hnone.
    pose proof (find_none_findIndex _ _ Hnone) as Hi; simpl in Hi.
    unfold findRecordById in Hnone; simpl in Hnone.
    unfold ProductRoutes.put_product, ProductRoutes.patch_product_stock,
      ProductRoutes.delete_product, ProductRoutes.getProductById,
      updateRecord, deleteRecord.
    unfold findRecordById; simpl select; rewrite Hnone, Hi; repeat split; reflexivity.
Qed.

Lemma X2_unknown_id_changes_nothing_witness :
  ~ In "P9" (map Product.id (products shop))
  /\ snd (ProductRoutes.delete_product "P9" shop) = shop.
Proof.
  assert (H : ~ In "P9" (map Product.id (products shop))).
  { simpl; intros [E|[]]; discriminate E. }
  split; [exact H|].
  apply (proj2 (X2_unknown_id_changes_nothing sample_env shop "P9") H).
Defined.

Lemma findIndex_split {A : Type} (f : A -> bool) (l : list A) (i : nat) :
  findIndex f l = Some i ->
  exists l1 x l2,
    l = (l1 ++ x :: l2)%list
    /\ nth_error l i = Some x
    /\ f x = true
    /\ Forall (fun y => f y = false) l1
    /\ remove_at i l = (l1 ++ l2)%list.
Proof.
  revert i; induction l as [|y l IH]; intro i; simpl; [discriminate|].
  destruct (f y) eqn:Hy.
  - intros [= <-]; exists [], y, l; repeat split; auto.
  - destruct (findIndex f l) as [j|]; [|discriminate].
    intros [= <-].
    destruct (IH j eq_refl) as (l1 & x & l2 & -> & Hn & Hx & Hl1 & Hr).
    exists (y :: l1), x, l2; simpl; repeat split; auto.
    rewrite Hr; reflexivity.
Qed.

Lemma find_skip_prefix {A : Type} (f : A -> bool) (l1 l2 : list A) :
  Forall (fun y => f y = false) l1 -> find f (l1 ++ l2) = find f l2.
Proof.
  induction 1 as [|y l Hy _ IH]; simpl; [reflexivity|].
  rewrite Hy; exact IH.
Qed.

Lemma find_drop_other {A : Type} (f : A -> bool) (l1 l2 : list A) (x : A) :
  f x = false -> find f (l1 ++ x :: l2) = find f (l1 ++ l2).
Proof.
  intro Hx; induction l1 as [|y l1 IH]; simpl.
  - rewrite Hx; reflexivity.
  - destruct (f y); auto.
Qed.

(** X3. Deleting a product removes the first record that carries the
    id and nothing else: the reply carries that record, the records
    before and after it stay in their order, the lookup of every other
    id answers as before, and when no two products share an id the
    deleted id is not found any more. *)
Theorem X3_delete_removes_first_match (db : Database) (id : string)
    (p : Product.t) :
  ProductRoutes.getProductById db id = Some p ->
  exists l1 l2,
    products db = (l1 ++ p :: l2)%list
    /\ ~ In id (map Product.id l1)
    /\ ProductRoutes.delete_product id db
       = (json (formatResponse (Some p) "Product deleted"),
          set_products (l1 ++ l2) db)
    /\ (forall id',
          id' <> id ->
          ProductRoutes.getProductById (set_products (l1 ++ l2) db) id'
          = ProductRoutes.getProductById db id')
    /\ (NoDup (map Product.id (products db)) ->
        ProductRoutes.getProductById (set_products (l1 ++ l2) db) id = None).
Proof.
  intro Hfind.
  destruct (find_findIndex _ _ _ Hfind) as (i & Hi & Hn & Hp).
  destruct (findIndex_split _ _ _ Hi) as (l1 & x & l2 & Hl & Hn' & _ & Hl1 & Hr).
  simpl in Hn, Hn', Hl, Hr, Hi.
  rewrite Hn in Hn'; injection Hn' as <-.
  assert (Hid : Product.id p = id) by (apply String.eqb_eq; exact Hp).
  exists l1, l2; split; [exact Hl|]; split; [|split; [|split]].
  - intro Hin; apply in_map_iff in Hin; destruct Hin as (y & Hy & Hin).
    rewrite Forall_forall in Hl1; specialize (Hl1 y Hin).
    unfold has_id in Hl1; simpl in Hl1.
    rewrite Hy, String.eqb_refl in Hl1; discriminate.
  - unfold ProductRoutes.delete_product, ProductRoutes.removeProduct,
      deleteRecord.
    rewrite Hfind; simpl select; rewrite Hi, Hn, Hr; reflexivity.
  - intros id' Hne.
    unfold ProductRoutes.getProductById, findRecordById; simpl.
    rewrite Hl; symmetry; apply find_drop_other.
    unfold has_id; simpl; rewrite Hid; apply String.eqb_neq.
    intro E; apply Hne; symmetry; exact E.
  - intro Hnd.
    unfold ProductRoutes.getProductById.
    apply (proj2 (find_none_iff_no_id c_products _ id)); simpl.
    rewrite Hl, map_app in Hnd; simpl in Hnd.
    apply NoDup_remove_2 in Hnd; rewrite Hid in Hnd.
    rewrite map_app; exact Hnd.
Qed.

Lemma X3_delete_removes_first_match_witness :
  ProductRoutes.getProductById shop "P1" = Some widget
  /\ exists l1 l2,
       products shop = (l1 ++ widget :: l2)%list
       /\ ProductRoutes.delete_product "P1" shop
          = (json (formatResponse (Some widget) "Product deleted"),
             set_products (l1 ++ l2) shop).
Proof.
  split; [reflexivity|].
  destruct (X3_delete_removes_first_match shop "P1" widget eq_refl)
    as (l1 & l2 & H1 & _ & H2 & _).
  exists l1, l2; split; [exact H1|exact H2].
Defined.

End StoreRoundTrips.

(** ** Status updates and reading orders *)

Section StatusUpdates.
Import OrderRoutes OrderViews.

(** An accepted status update. *)
Lemma patch_order_status_accepted env id s db order :
  getOrderById db id = Some order ->
  isValidStatusTransition (Order.status order) s = true ->
  let updated :=
    Order.with_updatedAt (now env) (Order.spread order (Order.only_status s)) in
  exists i,
    nth_error (orders db) i = Some order
    /\ patch_order_status env id s db
       = (json (formatResponse (Some updated) "Order status updated"),
          set_orders (replace_at i updated (orders db)) db)
    /\ getOrderById (set_orders (replace_at i updated (orders db)) db) id
       = Some updated.
Proof.
  intros Hfind Hvalid updated.
  destruct (updateRecord_orders env db id (Order.only_status s) order Hfind)
    as (i & Hi & Hn & Hid & Hu).
  exists i; split; [exact Hn|]; split.
  - unfold patch_order_status, updateOrderStatus.
    rewrite Hfind, Hvalid, Hu; reflexivity.
  - unfold getOrderById, Store.findRecordById; simpl.
    apply find_replace_at; [exact Hi|exact Hid].
Qed.

(** X4. An accepted status update rewrites one order and nothing else:
    the order keeps every field but its status and the time of its last
    update (no confirmedAt, shippedAt, deliveredAt or cancelledAt is
    recorded), the other orders, the products and their stock, the
    carts and the payments are untouched. *)
Theorem X4_status_update_touches_only_status
    (env : Env) (id : string) (s : OrderStatus) (db : Database)
    (order : Order.t) :
  getOrderById db id = Some order ->
  isValidStatusTransition (Order.status order) s = true ->
  exists i updated,
    nth_error (orders db) i = Some order
    /\ patch_order_status env id s db
       = (json (formatResponse (Some updated) "Order status updated"),
          set_orders (replace_at i updated (orders db)) db)
    /\ Order.status updated = s
    /\ Order.updatedAt updated = Some (now env)
    /\ same_but_status updated order
    /\ products (snd (patch_order_status env id s db)) = products db
    /\ carts (snd (patch_order_status env id s db)) = carts db
    /\ payments (snd (patch_order_status env id s db)) = payments db.
Proof.
  intros Hfind Hvalid.
  destruct (patch_order_status_accepted env id s db order Hfind Hvalid)
    as (i & Hn & Hpatch & _).
  exists i; eexists; split; [exact Hn|]; split; [exact Hpatch|].
  rewrite Hpatch; unfold same_but_status; simpl.
  repeat split; reflexivity.
Qed.

Lemma X4_status_update_touches_only_status_witness :
  getOrderById (sample_db pending) "o1" = Some (sample_order pending)
  /\ isValidStatusTransition pending confirmed = true
  /\ exists i updated,
       nth_error (orders (sample_db pending)) i = Some (sample_order pending)
       /\ patch_order_status sample_env "o1" confirmed (sample_db pending)
          = (json (formatResponse (Some updated) "Order status updated"),
             set_orders (replace_at i updated (orders (sample_db pending)))
               (sample_db pending))
       /\ same_but_status updated (sample_order pending).
Proof.
  split; [reflexivity|]; split; [reflexivity|].
  destruct (X4_status_update_touches_only_status sample_env "o1" confirmed
              (sample_db pending) (sample_order pending) eq_refl eq_refl)
    as (i & updated & H1 & H2 & _ & _ & H3 & _).
  exists i, updated; split; [exact H1|]; split; [exact H2|exact H3].
Defined.

(** X5. Cancelling through the status route is not a cancellation: the
    update to cancelled is accepted from pending, confirmed and
    processing, it gives no stock back, and afterwards the cancel route
    refuses the order, so the stock taken at creation is never
    restored. *)
Theorem X5_cancel_by_status_update_keeps_stock
    (env : Env) (id : string) (db : Database) (order : Order.t) :
  getOrderById db id = Some order ->
  In (Order.status order) cancellable ->
  let db1 := snd (patch_order_status env id cancelled db) in
  code (fst (patch_order_status env id cancelled db)) = 200
  /\ option_map Order.status (getOrderById db1 id) = Some cancelled
  /\ stock_view db1 = stock_view db
  /\ forall env',
       post_order_cancel env' id db1
       = (status_json 400
            (formatErrorResponse (Some "Order cannot be cancelled")), db1).
Proof.
  intros Hfind Hin db1.
  assert (Hvalid : isValidStatusTransition (Order.status order) cancelled
                   = true).
  { unfold cancellable in Hin; simpl in Hin.
    destruct Hin as [<-|[<-|[<-|[]]]]; reflexivity. }
  destruct (patch_order_status_accepted env id cancelled db order Hfind Hvalid)
    as (i & _ & Hpatch & Hget).
  unfold db1; rewrite Hpatch; simpl snd; simpl fst.
  split; [reflexivity|]; split; [rewrite Hget; reflexivity|].
  split; [reflexivity|].
  intro env'; unfold post_order_cancel; rewrite Hget; reflexivity.
Qed.

Lemma X5_cancel_by_status_update_keeps_stock_witness :
  let db1 := snd (patch_order_status sample_env "o1" cancelled
                    (sample_db confirmed)) in
  In confirmed cancellable
  /\ post_order_cancel sample_env "o1" db1
     = (status_json 400
          (formatErrorResponse (Some "Order cannot be cancelled")), db1).
Proof.
  intro db1.
  assert (H : In confirmed cancellable) by (right; left; reflexivity).
  split; [exact H|].
  apply (X5_cancel_by_status_update_keeps_stock sample_env "o1"
           (sample_db confirmed) (sample_order confirmed) eq_refl H).
Defined.

Lemma steps_left_decreases (s s' : OrderStatus) :
  isValidStatusTransition s s' = true -> (steps_left s' < steps_left s)%nat.
Proof. destruct s, s'; simpl; intro H; try discriminate H; lia. Qed.

Lemma patch_run_bound id requests :
  forall db,
    (accepted (patch_run id requests db)
     <= match getOrderById db id with
        | Some o => steps_left (Order.status o)
        | None => 0
        end)%nat.
Proof.
  induction requests as [|[env s] rest IH]; intro db; simpl;
    [unfold accepted; simpl; lia|].
  destruct (getOrderById db id) as [o|] eqn:Hfind.
  - destruct (isValidStatusTransition (Order.status o) s) eqn:Hvalid.
    + destruct (patch_order_status_accepted env id s db o Hfind Hvalid)
        as (i & _ & Hpatch & Hget).
      rewrite Hpatch; unfold accepted; simpl.
      match goal with
      | |- (S (List.length (filter _ (patch_run id rest ?d))) <= _)%nat =>
          specialize (IH d); rewrite Hget in IH; simpl in IH
      end.
      unfold accepted in IH.
      pose proof (steps_left_decreases _ _ Hvalid); lia.
    + unfold patch_order_status; rewrite Hfind, Hvalid; simpl.
      specialize (IH db); rewrite Hfind in IH; exact IH.
  - unfold patch_order_status; rewrite Hfind; simpl.
    specialize (IH db); rewrite Hfind in IH; exact IH.
Qed.

(** X6. The status machine runs out: of any sequence of status updates
    sent for one order, at most four are accepted, whatever the
    requests and the store; none is accepted once the order is
    delivered or cancelled, and none for an id that is not stored. *)
Theorem X6_at_most_four_status_updates
    (id : string) (requests : list (Env * OrderStatus)) (db : Database) :
  (accepted (patch_run id requests db) <= 4)%nat
  /\ (forall o,
        getOrderById db id = Some o ->
        In (Order.status o) [delivered; cancelled] ->
        accepted (patch_run id requests db) = 0%nat)
  /\ (getOrderById db id = None ->
      accepted (patch_run id requests db) = 0%nat).
Proof.
  pose proof (patch_run_bound id requests db) as Hb.
  split; [|split].
  - destruct (getOrderById db id) as [o|]; [|lia].
    destruct (Order.status o); simpl in Hb; lia.
  - intros o Ho Hin; rewrite Ho in Hb.
    destruct Hin as [E|[E|[]]]; rewrite <- E in Hb; simpl in Hb; lia.
  - intro Hnone; rewrite Hnone in Hb; lia.
Qed.

Lemma X6_at_most_four_status_updates_witness :
  In delivered [delivered; cancelled]
  /\ accepted
       (patch_run "o1" [(sample_env, cancelled); (sample_env, pending)]
          (sample_db delivered))
     = 0%nat.
Proof.
  assert (H : In delivered [delivered; cancelled]) by (left; reflexivity).
  split; [exact H|].
  apply (proj1 (proj2 (X6_at_most_four_status_updates "o1"
                         [(sample_env, cancelled); (sample_env, pending)]
                         (sample_db delivered)))
           (sample_order delivered) eq_refl H).
Defined.

Lemma enrichOrderData_fixed (o : Order.t) :
  Order.totals o = Some (Helpers.calculateTotal (Order.items o)) ->
  order (enrichOrderData o) = o.
Proof.
  intro H; unfold enrichOrderData; simpl.
  destruct o; simpl in *; rewrite H; reflexivity.
Qed.

(** X7. A created order reads back as it was answered: when the
    generated id is new, GET /:id right after the creation returns the
    order of the 201 reply, with the same totals (the recomputation
    from the stored lines gives the stored totals) and the status
    information of a pending order. *)
Theorem X7_created_order_reads_back
    (env : Env) (req_body : Order.partial) (db : Database)
    (reply : Reply Order.t) (db1 : Database) (created : Order.t) :
  post_order env req_body db = (reply, db1) ->
  data (body reply) = Some created ->
  getOrderById db (Order.id created) = None ->
  get_order (Order.id created) db1
  = json (formatResponse
            (Some {| order := created;
                     statusInfo := mkStatusInfo "Pending" 10 |})
            "Order retrieved").
Proof.
  intros Hpost Hdata Hfresh.
  destruct (post_order_created env req_body db reply db1 created Hpost Hdata)
    as (_ & _ & _ & Hstatus & Horders & _).
  assert (Htotals : Order.totals created
                    = Some (Helpers.calculateTotal (Order.items created))).
  { revert Hpost Hdata; unfold post_order.
    destruct (Validators.isValid (Validators.validateOrder req_body)); simpl;
      [|intros [= <- <-]; discriminate].
    destruct (available
                (validateStockAvailability db
                   (override (Order.items' req_body) []))); simpl;
      [|intros [= <- <-]; discriminate].
    intros [= <- <-]; simpl; intros [= <-]; reflexivity. }
  assert (Hget : getOrderById db1 (Order.id created) = Some created).
  { unfold getOrderById, Store.findRecordById in *; simpl in *.
    rewrite Horders; apply find_app_fresh; [exact Hfresh|].
    unfold Store.has_id; apply String.eqb_refl. }
  unfold get_order; rewrite Hget.
  unfold enrichOrderData.
  pose proof (enrichOrderData_fixed created Htotals) as Hfix.
  unfold enrichOrderData in Hfix; simpl in Hfix; rewrite Hfix, Hstatus.
  reflexivity.
Qed.

Lemma X7_created_order_reads_back_witness :
  let request := order_request [widget_line 2] in
  let created := fst (createOrder sample_env shop request) in
  getOrderById shop (Order.id created) = None
  /\ get_order (Order.id created) (snd (post_order sample_env request shop))
     = json (formatResponse
               (Some {| order := created;
                        statusInfo := mkStatusInfo "Pending" 10 |})
               "Order retrieved").
Proof.
  intros request created; split; [reflexivity|].
  apply (X7_created_order_reads_back sample_env request shop
           (fst (post_order sample_env request shop))
           (snd (post_order sample_env request shop)) created);
    reflexivity.
Defined.

End StatusUpdates.

(** ** The cart routes *)

Section CartRequests.
Import CartRoutes CartOps.

Lemma find_ref_none {A : Type} (f : A -> bool) (l : list A) :
  find_ref f l = None -> Forall (fun x => f x = false) l.
Proof.
  induction l as [|y l IH]; simpl; [constructor|].
  destruct (f y) eqn:Hy; [discriminate|].
  destruct (find_ref f l) as [[j z]|]; [discriminate|].
  intros _; constructor; auto.
Qed.

Lemma find_ref_app_new {A : Type} (f : A -> bool) (l : list A) (x : A) :
  find_ref f l = None -> f x = true ->
  find_ref f (l ++ [x]) = Some (List.length l, x).
Proof.
  induction l as [|y l IH]; simpl; intros Hnone Hx.
  - rewrite Hx; reflexivity.
  - destruct (f y); [discriminate|].
    destruct (find_ref f l) as [[j z]|]; [discriminate|].
    rewrite (IH eq_refl Hx); reflexivity.
Qed.


Lemma NoDup_map_filter {A B : Type} (g : A -> B) (f : A -> bool)
    (l : list A) :
  NoDup (map g l) -> NoDup (map g (filter f l)).
Proof.
  induction l as [|y l IH]; simpl; intro H; [constructor|].
  inversion H as [|? ? Hnot Hnd]; subst.
  destruct (f y); simpl; auto.
  constructor; auto.
  intro Hin; apply Hnot.
  apply in_map_iff in Hin; destruct Hin as (x & Hx & Hin).
  apply filter_In in Hin; destruct Hin as [Hin _].
  apply in_map_iff; exists x; auto.
Qed.

(** A write to a cart object that keeps its user and its lines
    distinct. *)
Lemma write_ok db i c c' :
  carts_ok db ->
  nth_error (carts db) i = Some c ->
  Cart.userId c' = Cart.userId c ->
  cart_no_dup c' ->
  carts_ok (write db (i, c')).
Proof.
  intros [Hu Hl] Hn Hsame Hc'; split.
  - unfold one_cart_per_user, write; simpl.
    rewrite map_replace_at, replace_at_same; [exact Hu|].
    rewrite nth_error_map, Hn, Hsame; reflexivity.
  - unfold write; simpl; apply Forall_replace_at; assumption.
Qed.

Lemma createEmptyCart_ok env db userId :
  carts_ok db ->
  getCartByUserId db userId = None ->
  carts_ok (snd (createEmptyCart env db userId))
  /\ getCartByUserId (snd (createEmptyCart env db userId)) userId
     = Some (fst (createEmptyCart env db userId))
  /\ nth_error (carts (snd (createEmptyCart env db userId)))
       (fst (fst (createEmptyCart env db userId)))
     = Some (snd (fst (createEmptyCart env db userId))).
Proof.
  intros [Hu Hl] Hnone; unfold createEmptyCart; simpl.
  split; [split|split].
  - unfold one_cart_per_user; simpl.
    rewrite map_app; simpl.
    apply NoDup_app; [exact Hu|repeat constructor; intros []|].
    intros a Ha [<-|[]].
    apply in_map_iff in Ha; destruct Ha as (c & Hc & Hin).
    pose proof (find_ref_none _ _ Hnone) as Hall.
    rewrite Forall_forall in Hall; specialize (Hall c Hin); simpl in Hall.
    rewrite Hc, String.eqb_refl in Hall; discriminate.
  - simpl; apply Forall_app; split; [exact Hl|].
    repeat constructor.
  - unfold getCartByUserId; simpl.
    apply find_ref_app_new; [exact Hnone|simpl; apply String.eqb_refl].
  - rewrite nth_error_app2, Nat.sub_diag; [reflexivity|lia].
Qed.

Lemma found_cart_ok db userId r :
  carts_ok db ->
  getCartByUserId db userId = Some r ->
  nth_error (carts db) (fst r) = Some (snd r) /\ cart_no_dup (snd r).
Proof.
  intros [_ Hl] Hget; destruct r as [i c]; simpl.
  destruct (find_ref_spec _ _ _ _ Hget) as (Hn & _).
  split; [exact Hn|].
  rewrite Forall_forall in Hl; apply Hl; apply (nth_error_In _ _ Hn).
Qed.

Lemma removeCartItem_ok env db userId productId :
  carts_ok db -> carts_ok (snd (removeCartItem env db userId productId)).
Proof.
  intro Hok; unfold removeCartItem.
  destruct (getCartByUserId db userId) as [r|] eqn:Hget.
  - destruct (found_cart_ok db userId r Hok Hget) as (Hn & Hc).
    simpl; apply (write_ok db (fst r) (snd r)); auto.
    unfold cart_no_dup, filterOutItem; simpl.
    apply NoDup_map_filter; exact Hc.
  - apply createEmptyCart_ok; assumption.
Qed.

Lemma clearCart_ok env db userId :
  carts_ok db -> carts_ok (snd (clearCart env db userId)).
Proof.
  intro Hok; unfold clearCart.
  destruct (getCartByUserId db userId) as [r|] eqn:Hget.
  - destruct (found_cart_ok db userId r Hok Hget) as (Hn & Hc).
    simpl; apply (write_ok db (fst r) (snd r)); auto.
    unfold cart_no_dup; simpl; constructor.
  - apply createEmptyCart_ok; assumption.
Qed.

Lemma updateExistingCartItem_ok env db r productId q :
  carts_ok db ->
  nth_error (carts db) (fst r) = Some (snd r) ->
  cart_no_dup (snd r) ->
  carts_ok (final_db (updateExistingCartItem env db r productId q)).
Proof.
  intros Hok Hn Hc.
  destruct (findCartItem (snd r) productId) as [line|] eqn:Hline.
  - destruct (updateExistingCartItem_present env db r productId q line Hline)
      as (j & Hj & _ & ->).
    simpl; apply (write_ok db (fst r) (snd r)); auto.
    unfold cart_no_dup; simpl.
    rewrite (set_quantity_keeps_products _ _ _ _ Hj); exact Hc.
  - unfold updateExistingCartItem.
    rewrite (find_none_findIndex _ _ Hline); exact Hok.
Qed.

Lemma addNewCartItem_ok env db r product q :
  carts_ok db ->
  nth_error (carts db) (fst r) = Some (snd r) ->
  cart_no_dup (snd r) ->
  findCartItem (snd r) (Product.id product) = None ->
  carts_ok (snd (addNewCartItem env db r product q)).
Proof.
  intros Hok Hn Hc Hline; unfold addNewCartItem; simpl.
  apply (write_ok db (fst r) (snd r)); auto.
  unfold cart_no_dup; simpl.
  rewrite map_app; simpl.
  apply NoDup_app; [exact Hc|repeat constructor; intros []|].
  intros a Ha [<-|[]].
  apply (find_none_not_in (snd r) (Product.id product) Hline Ha).
Qed.

Lemma addItemToCart_ok env db userId product q :
  carts_ok db ->
  carts_ok (final_db (addItemToCart env db userId product q)).
Proof.
  intro Hok; unfold addItemToCart.
  assert (H : exists r db1,
             match getCartByUserId db userId with
             | Some r => (r, db)
             | None => createEmptyCart env db userId
             end = (r, db1)
             /\ carts_ok db1
             /\ nth_error (carts db1) (fst r) = Some (snd r)
             /\ cart_no_dup (snd r)).
  { destruct (getCartByUserId db userId) as [r|] eqn:Hget.
    - exists r, db; destruct (found_cart_ok db userId r Hok Hget); auto.
    - destruct (createEmptyCart_ok env db userId Hok Hget) as (H1 & _ & H3).
      exists (fst (createEmptyCart env db userId)),
             (snd (createEmptyCart env db userId)).
      split; [reflexivity|]; split; [exact H1|]; split; [exact H3|].
      unfold cart_no_dup; simpl; constructor. }
  destruct H as (r & db1 & -> & Hok1 & Hn & Hc).
  destruct (findCartItem (snd r) (Product.id product)) as [line|] eqn:Hline.
  - apply updateExistingCartItem_ok; assumption.
  - pose proof (addNewCartItem_ok env db1 r product q Hok1 Hn Hc Hline) as H.
    destruct (addNewCartItem env db1 r product q); exact H.
Qed.

Lemma updateCartItemQuantity_ok env db userId productId q :
  carts_ok db ->
  carts_ok (final_db (updateCartItemQuantity env db userId productId q)).
Proof.
  intro Hok; unfold updateCartItemQuantity.
  destruct (getCartByUserId db userId) as [r|] eqn:Hget.
  - destruct (q <=? 0).
    + pose proof (removeCartItem_ok env db userId productId Hok) as H.
      destruct (removeCartItem env db userId productId); exact H.
    + destruct (found_cart_ok db userId r Hok Hget).
      apply updateExistingCartItem_ok; assumption.
  - destruct (createEmptyCart_ok env db userId Hok Hget) as (H & _).
    exact H.
Qed.

Lemma cart_step_ok env req db : carts_ok db -> carts_ok (cart_step env req db).
Proof.
  intro Hok; destruct req as [u|u p q|u p q|u p|u|u m]; simpl.
  - unfold get_cart.
    destruct (getCartByUserId db u) as [r|] eqn:Hget; [exact Hok|].
    destruct (createEmptyCart_ok env db u Hok Hget) as (H & _); exact H.
  - unfold post_cart_item.
    destruct (Store.findRecordById c_products db p) as [product|];
      [|exact Hok].
    destruct (checkStockAvailable product q); simpl; [|exact Hok].
    pose proof (addItemToCart_ok env db u product q Hok) as H.
    destruct (addItemToCart env db u product q); exact H.
  - unfold put_cart_item.
    destruct (Store.findRecordById c_products db p) as [product|];
      [|exact Hok].
    destruct (checkStockAvailable product q); simpl; [|exact Hok].
    pose proof (updateCartItemQuantity_ok env db u p q Hok) as H.
    destruct (updateCartItemQuantity env db u p q); exact H.
  - unfold delete_cart_item.
    pose proof (removeCartItem_ok env db u p Hok) as H.
    destruct (removeCartItem env db u p); exact H.
  - unfold delete_cart.
    pose proof (clearCart_ok env db u Hok) as H.
    destruct (clearCart env db u); exact H.
  - exact Hok.
Qed.

(** X8. In a store with one cart per user and one line per product,
    every sequence of cart requests (GET, add, update, remove, clear,
    checkout; also the update that throws) leaves one cart per user and
    one line per product in every cart.  This holds in particular for
    every store reached from one without carts. *)
Theorem X8_cart_requests_keep_carts_in_order
    (requests : list (Env * CartRequest)) (db : Database) :
  (one_cart_per_user db ->
   Forall cart_no_dup (carts db) ->
   one_cart_per_user (cart_run requests db)
   /\ Forall cart_no_dup (carts (cart_run requests db)))
  /\ (carts db = [] ->
      one_cart_per_user (cart_run requests db)
      /\ Forall cart_no_dup (carts (cart_run requests db))).
Proof.
  assert (H : forall d, carts_ok d -> carts_ok (cart_run requests d)).
  { unfold cart_run; induction requests as [|[env req] rest IH]; intros d Hd;
      simpl; [exact Hd|].
    apply IH; apply cart_step_ok; exact Hd. }
  split.
  - intros Hu Hl; apply (H db); split; assumption.
  - intro Hempty; apply (H db); split.
    + unfold one_cart_per_user; rewrite Hempty; constructor.
    + rewrite Hempty; constructor.
Qed.

Lemma X8_cart_requests_keep_carts_in_order_witness :
  let requests :=
    [ (sample_env, PostItem "u1" "P1" 2); (sample_env, GetCart "u2");
      (sample_env, PostItem "u1" "P1" 1); (sample_env, PutItem "u2" "P1" 1);
      (sample_env, DeleteItem "u1" "P9") ] in
  carts shop = []
  /\ one_cart_per_user (cart_run requests shop)
  /\ Forall cart_no_dup (carts (cart_run requests shop)).
Proof.
  intro requests; split; [reflexivity|].
  apply (proj2 (X8_cart_requests_keep_carts_in_order requests shop)).
  reflexivity.
Defined.

(** X9. Adding to a cart never throws and has three answers: 404 with
    the store unchanged when the product does not exist, 400 with the
    store unchanged when the requested quantity exceeds the stock of
    the product, and 200 in every other case, which includes a
    quantity of zero or below. *)
Theorem X9_add_to_cart_answers
    (env : Env) (userId productId : string) (q : Z) (db : Database) :
  (Store.findRecordById c_products db productId = None ->
   post_cart_item env userId productId q db
   = Returned
       (status_json 404 (formatErrorResponse (Some "Product not found"))) db)
  /\ (forall product,
        Store.findRecordById c_products db productId = Some product ->
        Product.stock product < q ->
        post_cart_item env userId productId q db
        = Returned
            (status_json 400
               (formatErrorResponse (Some "Insufficient stock"))) db)
  /\ (forall product,
        Store.findRecordById c_products db productId = Some product ->
        q <= Product.stock product ->
        exists reply db1,
          post_cart_item env userId productId q db = Returned reply db1
          /\ code reply = 200
          /\ success (body reply) = true).
Proof.
  unfold post_cart_item; split; [|split].
  - intros ->; reflexivity.
  - intros product -> Hlt; unfold checkStockAvailable.
    destruct (q <=? Product.stock product) eqn:E; [lia|reflexivity].
  - intros product -> Hle; unfold checkStockAvailable.
    destruct (q <=? Product.stock product) eqn:E; [|lia]; simpl.
    unfold addItemToCart.
    destruct (match getCartByUserId db userId with
              | Some r => (r, db)
              | None => createEmptyCart env db userId
              end) as [r db1].
    destruct (findCartItem (snd r) (Product.id product)) as [line|] eqn:Hline.
    + destruct (updateExistingCartItem_present env db1 r (Product.id product)
                  (CartItem.quantity line + q) line Hline)
        as (j & _ & _ & ->).
      simpl; eexists; eexists; split; [reflexivity|split; reflexivity].
    + simpl; eexists; eexists; split; [reflexivity|split; reflexivity].
Qed.

Lemma X9_add_to_cart_answers_witness :
  Store.findRecordById c_products shop "P1" = Some widget
  /\ -3 <= Product.stock widget
  /\ exists reply db1,
       post_cart_item sample_env "u1" "P1" (-3) shop = Returned reply db1
       /\ code reply = 200
       /\ success (body reply) = true.
Proof.
  split; [reflexivity|]; split; [simpl; lia|].
  apply (proj2 (proj2 (X9_add_to_cart_answers sample_env "u1" "P1" (-3) shop))
           widget); [reflexivity|simpl; lia].
Defined.

Lemma write_frame db r :
  products (write db r) = products db
  /\ orders (write db r) = orders db
  /\ payments (write db r) = payments db.
Proof. repeat split. Qed.

Lemma cart_step_frame env req db :
  products (cart_step env req db) = products db
  /\ orders (cart_step env req db) = orders db
  /\ payments (cart_step env req db) = payments db.
Proof.
  destruct req as [u|u p q|u p q|u p|u|u m]; simpl.
  - unfold get_cart; destruct (getCartByUserId db u); repeat split.
  - unfold post_cart_item.
    destruct (Store.findRecordById c_products db p) as [product|];
      [|repeat split].
    destruct (checkStockAvailable product q); simpl; [|repeat split].
    unfold addItemToCart.
    destruct (getCartByUserId db u) as [r|].
    + destruct (findCartItem (snd r) (Product.id product)).
      * unfold updateExistingCartItem.
        destruct (findIndex _ _); [|repeat split].
        destruct (nth_error _ _); repeat split.
      * repeat split.
    + simpl; repeat split.
  - unfold put_cart_item.
    destruct (Store.findRecordById c_products db p) as [product|];
      [|repeat split].
    destruct (checkStockAvailable product q); simpl; [|repeat split].
    unfold updateCartItemQuantity, removeCartItem.
    destruct (getCartByUserId db u) as [r|]; [|repeat split].
    destruct (q <=? 0); [repeat split|].
    unfold updateExistingCartItem.
    destruct (findIndex _ _); [|repeat split].
    destruct (nth_error _ _); repeat split.
  - unfold delete_cart_item, removeCartItem.
    destruct (getCartByUserId db u); repeat split.
  - unfold delete_cart, clearCart.
    destruct (getCartByUserId db u); repeat split.
  - repeat split.
Qed.

(** X10. No cart request writes outside the cart collection: after any
    sequence of cart requests the products with their stock, the orders
    and the payments are what they were.  Adding to a cart reserves no
    stock, and a checkout neither creates an order nor takes stock. *)
Theorem X10_cart_requests_touch_only_carts
    (requests : list (Env * CartRequest)) (db : Database) :
  products (cart_run requests db) = products db
  /\ orders (cart_run requests db) = orders db
  /\ payments (cart_run requests db) = payments db.
Proof.
  unfold cart_run; revert db.
  induction requests as [|[env req] rest IH]; intro db; simpl;
    [repeat split|].
  destruct (IH (cart_step env req db)) as (H1 & H2 & H3).
  destruct (cart_step_frame env req db) as (F1 & F2 & F3).
  rewrite H1, H2, H3; auto.
Qed.

Lemma find_filterOutItem_self (l : list CartItem.t) (p : string) :
  find (is_line p) (filterOutItem l p) = None.
Proof.
  unfold filterOutItem; induction l as [|x l IH]; simpl; [reflexivity|].
  destruct (is_line p x) eqn:E; simpl; [exact IH|].
  rewrite E; exact IH.
Qed.

Lemma find_filterOutItem_other (l : list CartItem.t) (p p' : string) :
  p' <> p ->
  find (is_line p') (filterOutItem l p) = find (is_line p') l.
Proof.
  intro Hne; unfold filterOutItem; induction l as [|x l IH]; simpl;
    [reflexivity|].
  destruct (is_line p x) eqn:E; simpl.
  - unfold is_line in E; apply String.eqb_eq in E.
    assert (E' : is_line p' x = false).
    { unfold is_line; apply String.eqb_neq; rewrite E.
      intro H; apply Hne; symmetry; exact H. }
    rewrite E'; exact IH.
  - destruct (is_line p' x); [reflexivity|exact IH].
Qed.

(** The cart of the user after a write to it. *)
Lemma getCartByUserId_write db userId r c' :
  getCartByUserId db userId = Some r ->
  Cart.userId c' = Cart.userId (snd r) ->
  getCartByUserId (write db (fst r, c')) userId = Some (fst r, c').
Proof.
  intros Hget Hsame; destruct r as [i c].
  destruct (find_ref_spec _ _ _ _ Hget) as (_ & Hu); simpl in Hu.
  unfold getCartByUserId, write; simpl.
  apply (find_ref_replace_at _ _ _ c); [exact Hget|].
  simpl in Hsame; rewrite Hsame; exact Hu.
Qed.

(** X11. After DELETE /:userId/items/:productId the user has a cart
    and the cart has no line for the product; the lines of the other
    products are the ones the cart had.  The request is answered with
    200 also when the cart had no such line, and when the user had no
    cart (an empty cart is created). *)
Theorem X11_removed_line_is_gone
    (env : Env) (userId productId : string) (db : Database) :
  let db1 := snd (delete_cart_item env userId productId db) in
  code (fst (delete_cart_item env userId productId db)) = 200
  /\ exists r,
       getCartByUserId db1 userId = Some r
       /\ findCartItem (snd r) productId = None
       /\ forall r0,
            getCartByUserId db userId = Some r0 ->
            fst r = fst r0
            /\ forall p',
                 p' <> productId ->
                 findCartItem (snd r) p' = findCartItem (snd r0) p'.
Proof.
  unfold delete_cart_item, removeCartItem.
  destruct (getCartByUserId db userId) as [r0|] eqn:Hget; simpl.
  - split; [reflexivity|].
    eexists; split; [apply getCartByUserId_write; [exact Hget|reflexivity]|].
    split; [apply find_filterOutItem_self|].
    intros r1 [= <-]; split; [reflexivity|].
    intros p' Hne; apply find_filterOutItem_other; exact Hne.
  - split; [reflexivity|].
    exists (fst (createEmptyCart env db userId)).
    split; [|split; [reflexivity|discriminate]].
    unfold getCartByUserId in *; simpl.
    apply find_ref_app_new; [exact Hget|simpl; apply String.eqb_refl].
Qed.

Lemma X11_removed_line_is_gone_witness :
  let db := final_db (post_cart_item sample_env "u1" "P1" 2 shop) in
  let db1 := snd (delete_cart_item sample_env "u1" "P1" db) in
  option_map (fun r => Cart.items (snd r)) (getCartByUserId db "u1")
  = Some [buildCartItem sample_env widget 2]
  /\ exists r,
       getCartByUserId db1 "u1" = Some r
       /\ findCartItem (snd r) "P1" = None.
Proof.
  intros db db1; split; [reflexivity|].
  destruct (X11_removed_line_is_gone sample_env "u1" "P1" db)
    as (_ & r & H1 & H2 & _).
  exists r; split; [exact H1|exact H2].
Defined.

(** X12. An item update with a quantity of zero or below, for a product
    that exists and whose stock is not below that quantity, does what
    the removal of the line does: it leaves the same store and answers
    200 with the same cart. *)
Theorem X12_update_to_nonpositive_removes
    (env : Env) (userId productId : string) (q : Z) (db : Database)
    (product : Product.t) :
  Store.findRecordById c_products db productId = Some product ->
  q <= Product.stock product ->
  q <= 0 ->
  exists reply,
    put_cart_item env userId productId q db
    = Returned reply (snd (delete_cart_item env userId productId db))
    /\ code reply = 200
    /\ data (body reply)
       = data (body (fst (delete_cart_item env userId productId db))).
Proof.
  intros Hfind Hstock Hq.
  unfold put_cart_item, delete_cart_item, checkStockAvailable.
  rewrite Hfind.
  destruct (q <=? Product.stock product) eqn:E; [|lia]; simpl.
  unfold updateCartItemQuantity.
  destruct (getCartByUserId db userId) as [r|] eqn:Hget.
  - destruct (q <=? 0) eqn:E0; [|lia].
    destruct (removeCartItem env db userId productId) as [r' db1]; simpl.
    eexists; split; [reflexivity|split; reflexivity].
  - unfold removeCartItem; rewrite Hget; simpl.
    eexists; split; [reflexivity|split; reflexivity].
Qed.

Lemma X12_update_to_nonpositive_removes_witness :
  let db := final_db (post_cart_item sample_env "u1" "P1" 2 shop) in
  Store.findRecordById c_products db "P1" = Some widget
  /\ 0 <= Product.stock widget
  /\ final_db (put_cart_item sample_env "u1" "P1" 0 db)
     = snd (delete_cart_item sample_env "u1" "P1" db).
Proof.
  intro db; split; [reflexivity|]; split; [simpl; lia|].
  destruct (X12_update_to_nonpositive_removes sample_env "u1" "P1" 0 db widget
              eq_refl) as (reply & H & _); [simpl; lia|lia|].
  rewrite H; reflexivity.
Defined.

End CartRequests.

(** ** Checkout *)

Section Checkout.
Import CartRoutes CartOps.

Lemma validateItemStock_valid db i :
  valid (validateItemStock db i) = true <-> line_in_stock db i.
Proof.
  unfold validateItemStock, line_in_stock.
  destruct (Store.findRecordById c_products db (CartItem.productId i))
    as [p|]; simpl.
  - destruct (Product.stock p <? CartItem.quantity i) eqn:E; simpl; split.
    + discriminate.
    + intros (p' & [= <-] & Hle); lia.
    + intros _; exists p; split; [reflexivity|lia].
    + reflexivity.
  - split; [discriminate|intros (p' & H & _); discriminate].
Qed.

Lemma validateCartForCheckout_valid db items :
  valid (validateCartForCheckout db items) = true
  <-> Forall (line_in_stock db) items.
Proof.
  induction items as [|i items IH]; simpl.
  - split; [constructor|reflexivity].
  - destruct (valid (validateItemStock db i)) eqn:E; simpl.
    + rewrite IH; split.
      * intro H; constructor; [apply validateItemStock_valid; exact E|exact H].
      * intro H; inversion H; assumption.
    + rewrite E; split; [discriminate|].
      intro H; inversion H as [|? ? Hi _]; subst.
      apply validateItemStock_valid in Hi; congruence.
Qed.

(** The answers of the checkout. *)
Lemma post_checkout_ready userId shippingMethod db :
  (code (post_checkout userId shippingMethod db) = 200
   <-> exists r,
         getCartByUserId db userId = Some r
         /\ Cart.items (snd r) <> []
         /\ Forall (line_in_stock db) (Cart.items (snd r)))
  /\ (code (post_checkout userId shippingMethod db) = 200
      \/ code (post_checkout userId shippingMethod db) = 400).
Proof.
  unfold post_checkout.
  destruct (getCartByUserId db userId) as [r|]; simpl.
  - destruct (Cart.items (snd r)) as [|i items] eqn:Hitems.
    + simpl; split; [|right; reflexivity].
      split; [discriminate|].
      intros (r' & [= <-] & Hne & _); rewrite Hitems in Hne; congruence.
    + cbn [List.length Nat.eqb].
      destruct (valid (validateCartForCheckout db (i :: items))) eqn:E;
        cbn [negb].
      * split; [|left; reflexivity].
        split; [|reflexivity].
        intros _; exists r; split; [reflexivity|].
        rewrite Hitems; split; [discriminate|].
        apply validateCartForCheckout_valid; exact E.
      * split; [|right; reflexivity].
        split; [discriminate|].
        intros (r' & [= <-] & _ & Hall); rewrite Hitems in Hall.
        apply validateCartForCheckout_valid in Hall; congruence.
  - split; [|right; reflexivity].
    split; [discriminate|intros (r & H & _); discriminate].
Qed.

(** X13. The checkout answers 200 exactly when the user has a cart, the
    cart has a line, and every line names a product that exists and
    whose current stock covers the quantity of the line; the reply then
    carries the id of the cart and the requested shipping method, or
    standard when none is given.  Every other checkout is answered with
    400 and carries no data. *)
Theorem X13_checkout_ready_iff
    (userId : string) (shippingMethod : option string) (db : Database) :
  (code (post_checkout userId shippingMethod db) = 200
   <-> exists r,
         getCartByUserId db userId = Some r
         /\ Cart.items (snd r) <> []
         /\ Forall (line_in_stock db) (Cart.items (snd r)))
  /\ (forall r,
        getCartByUserId db userId = Some r ->
        code (post_checkout userId shippingMethod db) = 200 ->
        exists d,
          data (body (post_checkout userId shippingMethod db)) = Some d
          /\ cartId d = Cart.id (snd r)
          /\ map item (checkout_items d) = Cart.items (snd r)
          /\ selectedShipping d = str_or_else shippingMethod "standard")
  /\ (code (post_checkout userId shippingMethod db) <> 200 ->
      code (post_checkout userId shippingMethod db) = 400
      /\ success (body (post_checkout userId shippingMethod db)) = false
      /\ data (body (post_checkout userId shippingMethod db)) = None).
Proof.
  split; [apply post_checkout_ready|]; split.
  - intros r Hget; unfold post_checkout; rewrite Hget.
    destruct (Nat.eqb (List.length (Cart.items (snd r))) 0);
      [discriminate|].
    destruct (valid (validateCartForCheckout db (Cart.items (snd r))));
      simpl; [|discriminate].
    intros _; eexists; split; [reflexivity|]; simpl.
    split; [reflexivity|]; split; [|reflexivity].
    unfold enrichCartItems; rewrite map_map; simpl; apply map_id.
  - unfold post_checkout.
    destruct (getCartByUserId db userId) as [r|]; [|simpl; auto].
    destruct (Nat.eqb (List.length (Cart.items (snd r))) 0); [simpl; auto|].
    destruct (valid (validateCartForCheckout db (Cart.items (snd r))));
      simpl; [congruence|auto].
Qed.

Lemma X13_checkout_ready_iff_witness :
  let db := final_db (post_cart_item sample_env "u1" "P1" 2 shop) in
  (exists r,
      getCartByUserId db "u1" = Some r
      /\ Cart.items (snd r) <> []
      /\ Forall (line_in_stock db) (Cart.items (snd r)))
  /\ code (post_checkout "u1" None db) = 200.
Proof.
  intro db.
  assert (H : exists r,
             getCartByUserId db "u1" = Some r
             /\ Cart.items (snd r) <> []
             /\ Forall (line_in_stock db) (Cart.items (snd r))).
  { eexists; split; [reflexivity|]; split; [discriminate|].
    repeat constructor.
    exists widget; split; [reflexivity|simpl; lia]. }
  split; [exact H|].
  apply (proj2 (proj1 (X13_checkout_ready_iff "u1" None db)) H).
Defined.




Lemma delete_product_gone db id p :
  ProductRoutes.getProductById db id = Some p ->
  NoDup (map Product.id (products db)) ->
  ProductRoutes.getProductById (snd (ProductRoutes.delete_product id db)) id
  = None
  /\ carts (snd (ProductRoutes.delete_product id db)) = carts db.
Proof.
  intros Hfind Hnd.
  destruct (find_findIndex _ _ _ Hfind) as (i & Hi & Hn & Hp).
  destruct (findIndex_split _ _ _ Hi) as (l1 & x & l2 & Hl & Hn' & _ & _ & Hr).
  simpl in Hn, Hn', Hl, Hr, Hi.
  rewrite Hn in Hn'; injection Hn' as <-.
  assert (Hid : Product.id p = id) by (apply String.eqb_eq; exact Hp).
  unfold ProductRoutes.delete_product, ProductRoutes.removeProduct,
    Store.deleteRecord.
  rewrite Hfind; simpl select; rewrite Hi, Hr; simpl.
  split; [|reflexivity].
  apply (proj2 (find_none_iff_no_id c_products _ id)); simpl.
  rewrite Hl, map_app in Hnd; simpl in Hnd.
  apply NoDup_remove_2 in Hnd; rewrite Hid in Hnd.
  rewrite map_app; exact Hnd.
Qed.

(** X15. Deleting a product leaves the cart lines that name it: with
    distinct product ids, a cart that has a line for the deleted
    product keeps the line, shows it with the name Unknown and a
    current stock of 0, and cannot be checked out any more (400). *)
Theorem X15_deleted_product_blocks_checkout
    (userId : string) (shippingMethod : option string) (productId : string)
    (db : Database) (r : CartRef) (line : CartItem.t) (product : Product.t) :
  getCartByUserId db userId = Some r ->
  In line (Cart.items (snd r)) ->
  CartItem.productId line = productId ->
  ProductRoutes.getProductById db productId = Some product ->
  NoDup (map Product.id (products db)) ->
  let db1 := snd (ProductRoutes.delete_product productId db) in
  getCartByUserId db1 userId = Some r
  /\ enriched_name (enrichCartItem db1 line) = "Unknown"
  /\ currentStock (enrichCartItem db1 line) = 0
  /\ code (post_checkout userId shippingMethod db1) = 400.
Proof.
  intros Hget Hin Hline Hfind Hnd db1.
  destruct (delete_product_gone db productId product Hfind Hnd)
    as (Hgone & Hcarts).
  fold db1 in Hgone, Hcarts.
  unfold ProductRoutes.getProductById in Hgone.
  assert (Hget1 : getCartByUserId db1 userId = Some r).
  { unfold getCartByUserId; rewrite Hcarts; exact Hget. }
  split; [exact Hget1|].
  unfold enrichCartItem; rewrite Hline, Hgone; simpl.
  split; [reflexivity|]; split; [reflexivity|].
  destruct (post_checkout_ready userId shippingMethod db1) as (Hiff & [H|H]);
    [|exact H].
  exfalso; apply Hiff in H; destruct H as (r' & Hr' & _ & Hall).
  rewrite Hget1 in Hr'; injection Hr' as <-.
  rewrite Forall_forall in Hall; destruct (Hall line Hin) as (p' & Hp' & _).
  rewrite Hline, Hgone in Hp'; discriminate.
Qed.

Lemma X15_deleted_product_blocks_checkout_witness :
  let db := final_db (post_cart_item sample_env "u1" "P1" 2 shop) in
  let db1 := snd (ProductRoutes.delete_product "P1" db) in
  code (post_checkout "u1" None db) = 200
  /\ code (post_checkout "u1" None db1) = 400.
Proof.
  intros db db1; split; [reflexivity|].
  apply (X15_deleted_product_blocks_checkout "u1" None "P1" db
           (0%nat, Cart.mk (Helpers.generateId sample_env) "u1"
                     [buildCartItem sample_env widget 2]
                     (Some (now sample_env)) (Some (now sample_env)))
           (buildCartItem sample_env widget 2) widget).
  - reflexivity.
  - left; reflexivity.
  - reflexivity.
  - reflexivity.
  - simpl; repeat constructor; intros [].
Defined.

End Checkout.

(** ** Payments *)

Section PaymentFacts.
Import PaymentRoutes PaymentOps.

Lemma length_append (a b : string) :
  String.length (a ++ b) = (String.length a + String.length b)%nat.
Proof. induction a as [|c a IH]; simpl; [reflexivity|rewrite IH; reflexivity]. Qed.

Lemma substring_all (m : nat) (s : string) :
  (String.length s <= m)%nat -> substring 0 m s = s.
Proof.
  revert m; induction s as [|c s IH]; intros m Hm; simpl.
  - destruct m; reflexivity.
  - destruct m; simpl in Hm; [lia|].
    rewrite IH; [reflexivity|lia].
Qed.

Lemma substring_skip (a s : string) (m : nat) :
  substring (String.length a) m (a ++ s) = substring 0 m s.
Proof. induction a as [|c a IH]; simpl; [reflexivity|exact IH]. Qed.

Lemma length_substring_le (n m : nat) (s : string) :
  (String.length (substring n m s) <= m)%nat.
Proof.
  revert n m; induction s as [|c s IH]; intros n m.
  - destruct n, m; simpl; lia.
  - destruct n.
    + destruct m; simpl; [lia|]. specialize (IH 0%nat m); lia.
    + simpl; apply IH.
Qed.

Lemma substring_split (n m : nat) (s : string) :
  (n + m <= String.length s)%nat ->
  exists a b,
    s = a ++ substring n m s ++ b
    /\ String.length a = n
    /\ String.length (substring n m s) = m.
Proof.
  revert n m; induction s as [|c s IH]; intros n m Hle; simpl in Hle.
  - assert (n = 0 /\ m = 0)%nat as [-> ->] by lia.
    exists "", ""; auto.
  - destruct n.
    + destruct m.
      * exists "", (String c s); auto.
      * destruct (IH 0%nat m) as (a & b & Hs & Ha & Hm); [simpl; lia|].
        destruct a; [|discriminate Ha].
        exists "", b; simpl in *; split; [rewrite <- Hs; reflexivity|].
        split; [reflexivity|rewrite Hm; reflexivity].
    + destruct (IH n m) as (a & b & Hs & Ha & Hm); [lia|].
      exists (String c a), b; simpl; split; [rewrite <- Hs; reflexivity|].
      split; [rewrite Ha; reflexivity|exact Hm].
Qed.

(** The last four characters of a string that ends with four given
    characters. *)
Lemma slice_last4_app (a s : string) :
  String.length s = 4%nat -> slice_last4 (a ++ s) = s.
Proof.
  intro Hs; unfold slice_last4.
  rewrite length_append, Hs.
  replace (String.length a + 4 - 4)%nat with (String.length a) by lia.
  rewrite substring_skip; apply substring_all; lia.
Qed.

Lemma slice_last4_length (s : string) :
  (4 <= String.length s)%nat -> String.length (slice_last4 s) = 4%nat.
Proof.
  intro H; unfold slice_last4.
  destruct (substring_split (String.length s - 4) 4 s) as (_ & _ & _ & _ & E);
    [lia|exact E].
Qed.

Lemma slice_last4_short (s : string) :
  (String.length s <= 4)%nat -> slice_last4 s = s.
Proof.
  intro H; unfold slice_last4.
  replace (String.length s - 4)%nat with 0%nat by lia.
  apply substring_all; exact H.
Qed.

Lemma maskCardNumber_masked (c : string) :
  exists last,
    maskCardNumber c = "****-****-****-" ++ last
    /\ (String.length last <= 4)%nat.
Proof.
  exists (slice_last4 c); split; [reflexivity|].
  apply length_substring_le.
Qed.

Lemma updateRecord_orders_frame env db id u :
  products (snd (Store.updateRecord c_orders env db id u)) = products db
  /\ carts (snd (Store.updateRecord c_orders env db id u)) = carts db
  /\ payments (snd (Store.updateRecord c_orders env db id u)) = payments db.
Proof.
  unfold Store.updateRecord; simpl select.
  destruct (findIndex _ _); [|repeat split].
  destruct (nth_error _ _); repeat split.
Qed.

(** The two outcomes of [POST /payments]. *)
Lemma post_payment_cases oracle env d db :
  (exists orderId order,
      Validators.isValid (validatePayment d) = true
      /\ data_orderId d = Some orderId
      /\ Store.findRecordById c_orders db orderId = Some order
      /\ details_valid (validatePaymentDetails oracle env d) = true
      /\ post_payment oracle env d db
         = let p := buildPaymentRecord env d (simulatePaymentCharge env d) in
           (status_json 201
              (formatResponse (Some p) "Payment processed successfully"),
            updateOrderPaymentStatus env
              (set_payments (payments db ++ [p]) db) orderId "paid"))
  \/ ((code (fst (post_payment oracle env d db)) = 400
       \/ code (fst (post_payment oracle env d db)) = 404)
      /\ data (body (fst (post_payment oracle env d db))) = None
      /\ snd (post_payment oracle env d db) = db).
Proof.
  unfold post_payment.
  destruct (Validators.isValid (validatePayment d)) eqn:Hvalid; cbn [negb];
    [|right; auto].
  destruct (data_orderId d) as [orderId|] eqn:Hid; [|right; auto].
  destruct (Store.findRecordById c_orders db orderId) as [order|] eqn:Hfind;
    [|right; auto].
  unfold processPayment.
  destruct (details_valid (validatePaymentDetails oracle env d)) eqn:Hd;
    cbn [negb]; [|right; auto].
  left; exists orderId, order; repeat split; try reflexivity; assumption.
Qed.

Lemma post_payment_payments oracle env d db :
  payments (snd (post_payment oracle env d db)) = payments db
  \/ payments (snd (post_payment oracle env d db))
     = (payments db
        ++ [buildPaymentRecord env d (simulatePaymentCharge env d)])%list.
Proof.
  destruct (post_payment_cases oracle env d db)
    as [(orderId & order & _ & _ & _ & _ & ->)|(_ & _ & ->)];
    [right|left; reflexivity].
  cbn [snd]; unfold updateOrderPaymentStatus.
  destruct (updateRecord_orders_frame env
              (set_payments
                 (payments db
                  ++ [buildPaymentRecord env d (simulatePaymentCharge env d)])
                 db) orderId
              (Order.mkPartial None None None None None None (Some "paid")
                 None None None None None None None None None))
    as (_ & _ & ->); reflexivity.
Qed.

Lemma buildPaymentRecord_masked env d result :
  masked (buildPaymentRecord env d result).
Proof.
  unfold masked, buildPaymentRecord; cbn [Payment.cardNumber].
  destruct (data_cardNumber d) as [c|]; [|exact I].
  destruct (negb (c =? "")%string); [|exact I].
  apply maskCardNumber_masked.
Qed.

Lemma post_refund_masked env id amount db :
  Forall masked (payments db) ->
  Forall masked (payments (snd (post_refund env id amount db))).
Proof.
  intro Hall; unfold post_refund.
  destruct (getPaymentById db id) as [payment|]; [|exact Hall].
  destruct (canRefundPayment env payment); cbn [negb]; [|exact Hall].
  destruct (refund_success (processRefund env payment amount)); cbn [negb];
    [|exact Hall].
  cbn [snd]; unfold updatePaymentStatus.
  destruct (findIndex (has_id id) (payments db)) as [i|]; [|exact Hall].
  destruct (nth_error (payments db) i) as [p|] eqn:Hn; [|exact Hall].
  cbn [payments set_payments].
  apply Forall_replace_at; [exact Hall|].
  rewrite Forall_forall in Hall.
  exact (Hall p (nth_error_In _ _ Hn)).
Qed.

(** X16. The store never holds a card number: whatever sequence of
    payments and refunds is processed, and whatever the expiry check
    answers, every payment that is stored with a card number holds the
    mask ****-****-****- followed by at most four characters.  This
    holds from any store of which it is true, in particular from one
    without payments. *)
Theorem X16_card_numbers_are_stored_masked
    (isValidExpiryDate : Env -> string -> bool)
    (requests : list (Env * PaymentRequest)) (db : Database) :
  (Forall masked (payments db) ->
   Forall masked (payments (payment_run isValidExpiryDate requests db)))
  /\ (payments db = [] ->
      Forall masked (payments (payment_run isValidExpiryDate requests db))).
Proof.
  assert (H : forall d,
             Forall masked (payments d) ->
             Forall masked
               (payments (payment_run isValidExpiryDate requests d))).
  { unfold payment_run; induction requests as [|[env req] rest IH];
      intros d Hd; simpl; [exact Hd|].
    apply IH; destruct req as [body|id amount]; simpl.
    - destruct (post_payment_payments isValidExpiryDate env body d)
        as [->| ->]; [exact Hd|].
      apply Forall_app; split; [exact Hd|].
      constructor; [apply buildPaymentRecord_masked|constructor].
    - apply post_refund_masked; exact Hd. }
  split; [apply H|].
  intro Hempty; apply H; rewrite Hempty; constructor.
Qed.

Lemma X16_card_numbers_are_stored_masked_witness :
  let requests :=
    [ (sample_env, PayRequest card_body);
      (later_env, RefundRequest (Helpers.generateId sample_env) None) ] in
  let db := payment_run any_expiry requests (sample_db pending) in
  payments (sample_db pending) = []
  /\ map (fun p => (Payment.status p, Payment.cardNumber p)) (payments db)
     = [(pay_refunded, Some "****-****-****-1111")]
  /\ Forall masked (payments db).
Proof.
  intros requests db; split; [reflexivity|]; split; [reflexivity|].
  apply (proj2 (X16_card_numbers_are_stored_masked any_expiry requests
                  (sample_db pending))).
  reflexivity.
Defined.

Lemma maskCardNumber_idempotent (c : string) :
  (4 <= String.length c)%nat ->
  maskCardNumber (maskCardNumber c) = maskCardNumber c.
Proof.
  intro H; unfold maskCardNumber at 1 3.
  f_equal; unfold maskCardNumber.
  apply slice_last4_app; apply slice_last4_length; exact H.
Qed.

Lemma maskCardNumber_nonempty (c : string) :
  (maskCardNumber c =? "")%string = false.
Proof. reflexivity. Qed.

(** What an accepted payment request has stored. *)
Lemma post_payment_created oracle env d db reply db1 p :
  post_payment oracle env d db = (reply, db1) ->
  data (body reply) = Some p ->
  p = buildPaymentRecord env d (simulatePaymentCharge env d)
  /\ payments db1 = (payments db ++ [p])%list.
Proof.
  intros Hpost Hdata.
  pose proof (post_payment_payments oracle env d db) as Hpay.
  destruct (post_payment_cases oracle env d db)
    as [(orderId & order & _ & _ & _ & _ & E)|(_ & Hnone & _)].
  - rewrite E in Hpost, Hpay; cbv zeta in Hpost.
    injection Hpost as <- <-.
    simpl in Hdata; injection Hdata as <-.
    split; [reflexivity|].
    cbv zeta in Hpay; cbn [snd] in Hpay.
    destruct Hpay as [Hpay|Hpay]; [|exact Hpay].
    exfalso; clear - Hpay.
    apply (f_equal (@List.length _)) in Hpay.
    unfold updateOrderPaymentStatus in Hpay.
    destruct (updateRecord_orders_frame env
                (set_payments
                   (payments db
                    ++ [buildPaymentRecord env d (simulatePaymentCharge env d)])
                   db) orderId
                (Order.mkPartial None None None None None None (Some "paid")
                   None None None None None None None None None))
      as (_ & _ & E).
    rewrite E in Hpay; cbn [payments set_payments] in Hpay.
    rewrite length_app in Hpay; simpl in Hpay; lia.
  - rewrite Hpost in Hnone; cbn [fst] in Hnone; congruence.
Qed.

(** X17. A payment reads back as it was answered when the submitted
    card number has at least four characters (as every card number
    that passes the card check has) or none is submitted: GET /:id
    right after the 201, for a generated id that is new, returns the
    payment of the reply, the mask being applied a second time without
    effect.  The mask shows the last four characters and nothing of
    what precedes them.  A card number of one to three characters,
    which the other payment methods let through, is shown differently
    on reading than it is stored. *)
Theorem X17_payment_reads_back
    (isValidExpiryDate : Env -> string -> bool) (env : Env)
    (d : PaymentData) (db : Database) (reply : Reply Payment.t)
    (db1 : Database) (p : Payment.t) :
  post_payment isValidExpiryDate env d db = (reply, db1) ->
  data (body reply) = Some p ->
  getPaymentById db (Payment.id p) = None ->
  (forall a last,
      String.length last = 4%nat ->
      maskCardNumber (a ++ last) = "****-****-****-" ++ last)
  /\ ((forall c, data_cardNumber d = Some c ->
                 c = "" \/ (4 <= String.length c)%nat) ->
      get_payment (Payment.id p) db1
      = json (formatResponse (Some p) "Payment retrieved"))
  /\ (forall c,
        data_cardNumber d = Some c ->
        c <> "" ->
        (String.length c < 4)%nat ->
        exists shown,
          get_payment (Payment.id p) db1
          = json (formatResponse (Some shown) "Payment retrieved")
          /\ Payment.cardNumber shown <> Payment.cardNumber p).
Proof.
  intros Hpost Hdata Hfresh.
  pose proof (post_payment_created isValidExpiryDate env d db reply db1 p
                Hpost Hdata) as Hp.
  destruct Hp as [Hp Hpays].
  assert (Hget : getPaymentById db1 (Payment.id p) = Some p).
  { unfold getPaymentById in *; rewrite Hpays.
    apply find_app_fresh; [exact Hfresh|].
    unfold has_id; apply String.eqb_refl. }
  split; [|split].
  - intros a last Hlen; unfold maskCardNumber.
    rewrite slice_last4_app; [reflexivity|exact Hlen].
  - intro Hcard; unfold get_payment; rewrite Hget.
    do 2 f_equal; f_equal.
    unfold sanitizePaymentData.
    rewrite Hp; cbn [Payment.cardNumber buildPaymentRecord].
    destruct (data_cardNumber d) as [c|] eqn:Hc; [|reflexivity].
    destruct (c =? "")%string eqn:Hempty; cbn [negb]; [reflexivity|].
    rewrite maskCardNumber_nonempty; cbn [negb].
    destruct (Hcard c eq_refl) as [->|Hlen]; [discriminate Hempty|].
    rewrite (maskCardNumber_idempotent c Hlen).
    unfold buildPaymentRecord; rewrite Hc, Hempty; reflexivity.
  - intros c Hc Hne Hshort; unfold get_payment; rewrite Hget.
    eexists; split; [reflexivity|].
    unfold sanitizePaymentData.
    rewrite Hp; cbn [Payment.cardNumber buildPaymentRecord].
    rewrite Hc.
    apply String.eqb_neq in Hne; rewrite Hne; cbn [negb].
    rewrite maskCardNumber_nonempty; cbn [negb Payment.cardNumber].
    intros [= E].
    apply (f_equal String.length) in E.
    assert (Hm : String.length (maskCardNumber c)
                 = (15 + String.length c)%nat).
    { unfold maskCardNumber; rewrite length_append.
      rewrite (slice_last4_short c); [reflexivity|lia]. }
    rewrite slice_last4_length in E; [|rewrite Hm; lia].
    rewrite (slice_last4_short c) in E; lia.
Qed.

Lemma X17_payment_reads_back_witness :
  let answer := post_payment any_expiry sample_env card_body (sample_db pending) in
  let p := buildPaymentRecord sample_env card_body
             (simulatePaymentCharge sample_env card_body) in
  data (body (fst answer)) = Some p
  /\ Payment.cardNumber p = Some "****-****-****-1111"
  /\ get_payment (Payment.id p) (snd answer)
     = json (formatResponse (Some p) "Payment retrieved").
Proof.
  intros answer p; split; [reflexivity|]; split; [reflexivity|].
  apply (proj1 (proj2 (X17_payment_reads_back any_expiry sample_env card_body
                         (sample_db pending) (fst answer) (snd answer) p
                         eq_refl eq_refl eq_refl))).
  intros c [= <-]; right; simpl; lia.
Defined.

Lemma strip_non_digits_app (a b : string) :
  strip_non_digits (a ++ b) = strip_non_digits a ++ strip_non_digits b.
Proof.
  induction a as [|c a IH]; simpl; [reflexivity|].
  destruct (is_digit c); simpl; rewrite IH; reflexivity.
Qed.

Lemma strip_non_digits_digits (s : string) :
  all_digits s = true -> strip_non_digits s = s.
Proof.
  induction s as [|c s IH]; simpl; [reflexivity|].
  destruct (is_digit c); simpl; [|discriminate].
  intro H; rewrite (IH H); reflexivity.
Qed.

Lemma all_digits_strip (s : string) : all_digits (strip_non_digits s) = true.
Proof.
  induction s as [|c s IH]; simpl; [reflexivity|].
  destruct (is_digit c) eqn:E; simpl; [rewrite E|]; exact IH.
Qed.

(** X18. The card number check looks at the digits only: a character
    that is not a digit can be inserted or removed anywhere without
    changing the answer, the answer for a string is the answer for its
    digits, and a string of digits passes exactly when it has 13 to 19
    of them. *)
Theorem X18_card_number_check_counts_digits :
  (forall (a b : string) (c : ascii),
      is_digit c = false ->
      isValidCardNumber (a ++ String c b) = isValidCardNumber (a ++ b))
  /\ (forall s, isValidCardNumber s = isValidCardNumber (strip_non_digits s))
  /\ (forall s,
        all_digits s = true ->
        (isValidCardNumber s = true
         <-> (13 <= String.length s <= 19)%nat)).
Proof.
  split; [|split].
  - intros a b c Hc; unfold isValidCardNumber.
    rewrite !strip_non_digits_app; simpl; rewrite Hc; reflexivity.
  - intro s; unfold isValidCardNumber.
    rewrite (strip_non_digits_digits (strip_non_digits s));
      [reflexivity|apply all_digits_strip].
  - intros s Hs; unfold isValidCardNumber.
    rewrite (strip_non_digits_digits s Hs).
    rewrite Bool.andb_true_iff, Nat.leb_le, Nat.leb_le; reflexivity.
Qed.

Lemma X18_card_number_check_counts_digits_witness :
  is_digit " "%char = false
  /\ all_digits "4111111111111111" = true
  /\ isValidCardNumber "4111 1111 1111 1111" = true.
Proof.
  split; [reflexivity|]; split; [reflexivity|].
  change "4111 1111 1111 1111" with ("4111" ++ String " " "1111 1111 1111").
  rewrite (proj1 X18_card_number_check_counts_digits "4111"
             "1111 1111 1111" " "%char eq_refl).
  change ("4111" ++ "1111 1111 1111") with ("41111111" ++ String " " "1111 1111").
  rewrite (proj1 X18_card_number_check_counts_digits "41111111"
             "1111 1111" " "%char eq_refl).
  change ("41111111" ++ "1111 1111") with ("411111111111" ++ String " " "1111").
  rewrite (proj1 X18_card_number_check_counts_digits "411111111111"
             "1111" " "%char eq_refl).
  apply (proj2 (proj2 X18_card_number_check_counts_digits)
           "4111111111111111" eq_refl).
  simpl; lia.
Defined.

Lemma validatePayment_valid (d : PaymentData) :
  Validators.isValid (validatePayment d) = true ->
  Validators.validateRequiredField (data_orderId d) = true
  /\ validatePaymentMethod (data_method d) = true
  /\ validatePaymentAmount (data_amount d) = true.
Proof.
  unfold validatePayment, Validators.buildValidationResult,
    Validators.push_unless.
  destruct (Validators.validateRequiredField (data_orderId d)),
    (validatePaymentMethod (data_method d)),
    (validatePaymentAmount (data_amount d)); simpl; intro H;
    try discriminate H; auto.
Qed.

Lemma validatePrice_positive (a : JS.number) :
  Validators.validatePrice (Some a) = true -> PrimFloat.ltb 0%float a = true.
Proof.
  unfold Validators.validatePrice, JS.parseFloat_String.
  destruct (Prim2SF a); intro H; apply Bool.andb_true_iff in H;
    destruct H as [_ H]; try exact H.
  vm_compute in H; discriminate H.
Qed.

(** X19. A payment request writes nothing unless it is answered with
    201.  A 201 appends exactly one payment, completed, of the
    submitted amount, which is positive, for an order that exists, and
    marks that order paid; products and carts are untouched.  For the
    methods paypal and bank_transfer every body that passes
    [validatePayment] and names an existing order is accepted: neither
    the total of the order, nor its status, nor an earlier payment is
    looked at. *)
Theorem X19_payment_validates_before_writing
    (isValidExpiryDate : Env -> string -> bool) (env : Env)
    (d : PaymentData) (db : Database) :
  let reply := fst (post_payment isValidExpiryDate env d db) in
  let db1 := snd (post_payment isValidExpiryDate env d db) in
  (code reply <> 201 -> (code reply = 400 \/ code reply = 404) /\ db1 = db)
  /\ (code reply = 201 ->
      exists p amount orderId order,
        data (body reply) = Some p
        /\ payments db1 = (payments db ++ [p])%list
        /\ Payment.status p = pay_completed
        /\ data_amount d = Some amount
        /\ Payment.amount p = amount
        /\ PrimFloat.ltb 0%float amount = true
        /\ data_orderId d = Some orderId
        /\ Payment.orderId p = orderId
        /\ Store.findRecordById c_orders db orderId = Some order
        /\ option_map Order.paymentStatus
             (Store.findRecordById c_orders db1 orderId)
           = Some (Some "paid")
        /\ products db1 = products db
        /\ carts db1 = carts db)
  /\ (forall method orderId order,
        data_method d = Some method ->
        method = "paypal" \/ method = "bank_transfer" ->
        Validators.isValid (validatePayment d) = true ->
        data_orderId d = Some orderId ->
        Store.findRecordById c_orders db orderId = Some order ->
        code reply = 201).
Proof.
  intros reply db1; unfold reply, db1; clear reply db1.
  split; [|split].
  - destruct (post_payment_cases isValidExpiryDate env d db)
      as [(orderId & order & _ & _ & _ & _ & ->)|(Hc & _ & Hdb)].
    + cbv zeta; cbn [fst code status_json]; congruence.
    + intros _; split; assumption.
  - destruct (post_payment_cases isValidExpiryDate env d db)
      as [(orderId & order & Hvalid & Hid & Hfind & _ & ->)|(Hc & _ & _)];
      [|intro H; rewrite H in Hc; destruct Hc; discriminate].
    intros _; cbv zeta; cbn [fst snd].
    destruct (validatePayment_valid d Hvalid) as (_ & _ & Hamount).
    unfold validatePaymentAmount in Hamount.
    destruct (data_amount d) as [amount|] eqn:Ha; [|discriminate Hamount].
    set (p := buildPaymentRecord env d (simulatePaymentCharge env d)).
    set (db' := set_payments (payments db ++ [p]) db).
    set (u := Order.mkPartial None None None None None None (Some "paid")
                None None None None None None None None None).
    destruct (updateRecord_orders_frame env db' orderId u) as (F1 & F2 & F3).
    destruct (updateRecord_orders env db' orderId u order Hfind)
      as (i & Hi & Hn & Hhas & Hu).
    exists p, amount, orderId, order.
    split; [reflexivity|].
    split; [unfold updateOrderPaymentStatus; fold u; rewrite F3; reflexivity|].
    split; [reflexivity|].
    split; [reflexivity|].
    split; [unfold p, buildPaymentRecord; cbn [Payment.amount]; rewrite Ha;
            reflexivity|].
    split; [apply validatePrice_positive; exact Hamount|].
    split; [exact Hid|].
    split; [unfold p, buildPaymentRecord; cbn [Payment.orderId]; rewrite Hid;
            reflexivity|].
    split; [exact Hfind|].
    split.
    + unfold updateOrderPaymentStatus; fold u; rewrite Hu; cbn [snd].
      unfold Store.findRecordById; cbn [select c_orders orders set_orders].
      rewrite (find_replace_at _ _ i _ Hi); [reflexivity|exact Hhas].
    + unfold updateOrderPaymentStatus; fold u; rewrite F1, F2; auto.
  - intros method orderId order Hm Hmethod Hvalid Hid Hfind.
    unfold post_payment; rewrite Hvalid, Hid, Hfind; cbn [negb].
    unfold processPayment, validatePaymentDetails; rewrite Hm.
    destruct Hmethod as [-> | ->]; reflexivity.
Qed.

Lemma X19_payment_validates_before_writing_witness :
  let answer := post_payment any_expiry sample_env paypal_body
                  (sample_db delivered) in
  data_method paypal_body = Some "paypal"
  /\ Validators.isValid (validatePayment paypal_body) = true
  /\ Store.findRecordById c_orders (sample_db delivered) "o1"
     = Some (sample_order delivered)
  /\ code (fst answer) = 201.
Proof.
  intro answer; split; [reflexivity|]; split; [reflexivity|].
  split; [reflexivity|].
  apply (proj2 (proj2 (X19_payment_validates_before_writing any_expiry
                         sample_env paypal_body (sample_db delivered)))
           "paypal" "o1" (sample_order delivered));
    try reflexivity.
  left; reflexivity.
Defined.

(** X20. A payment is refunded at most once: after an accepted refund,
    of the full amount or of a part, every further refund request for
    the payment is answered with 400, whenever it comes and whatever
    amount it asks for, and changes nothing. *)
Theorem X20_a_payment_is_refunded_once
    (env : Env) (id : string) (amount : option JS.number) (db : Database) :
  refund_accepted env id amount db ->
  let db1 := snd (post_refund env id amount db) in
  forall env' amount',
    post_refund env' id amount' db1
    = (status_json 400
         (formatErrorResponse (Some "Payment cannot be refunded")), db1).
Proof.
  intros Hacc db1 env' amount'; unfold refund_accepted in Hacc.
  assert (Hdb1 : exists payment,
             getPaymentById db id = Some payment
             /\ db1 = updatePaymentStatus env db id pay_refunded).
  { unfold db1; revert Hacc; unfold post_refund.
    destruct (getPaymentById db id) as [payment|]; [|discriminate].
    destruct (canRefundPayment env payment); cbn [negb]; [|discriminate].
    destruct (refund_success (processRefund env payment amount)); cbn [negb];
      [|discriminate].
    intros _; exists payment; split; reflexivity. }
  destruct Hdb1 as (payment & Hfind & ->).
  pose proof (updatePaymentStatus_refunded env db id payment Hfind) as Hst.
  unfold post_refund.
  destruct (getPaymentById (updatePaymentStatus env db id pay_refunded) id)
    as [p'|]; [|discriminate Hst].
  simpl in Hst; injection Hst as Hst.
  unfold canRefundPayment; rewrite Hst; reflexivity.
Qed.

Lemma X20_a_payment_is_refunded_once_witness :
  let db1 := snd (post_refund sample_env "pay1" (Some 20%float) ledger) in
  refund_accepted sample_env "pay1" (Some 20%float) ledger
  /\ post_refund later_env "pay1" (Some 30%float) db1
     = (status_json 400
          (formatErrorResponse (Some "Payment cannot be refunded")), db1).
Proof.
  intro db1.
  assert (H : refund_accepted sample_env "pay1" (Some 20%float) ledger)
    by reflexivity.
  split; [exact H|].
  apply (X20_a_payment_is_refunded_once sample_env "pay1" (Some 20%float)
           ledger H).
Defined.

Lemma ltb_irrefl (x : JS.number) : PrimFloat.ltb x x = false.
Proof.
  rewrite ltb_spec; unfold SFltb, SFcompare.
  destruct (Prim2SF x) as [s|s| |s m e]; try destruct s; try reflexivity;
    rewrite Z.compare_refl, Pos.compare_cont_refl; reflexivity.
Qed.

(** X21. A payment that has just been accepted can be refunded: for
    less than 31 days after the payment, a refund request without an
    amount (the full amount) is accepted, and so is one for any amount
    that is not above the amount of the payment and is not zero. *)
Theorem X21_new_payment_is_refundable
    (isValidExpiryDate : Env -> string -> bool) (env env' : Env)
    (d : PaymentData) (db : Database) (reply : Reply Payment.t)
    (db1 : Database) (p : Payment.t) :
  post_payment isValidExpiryDate env d db = (reply, db1) ->
  data (body reply) = Some p ->
  getPaymentById db (Payment.id p) = None ->
  now env' - now env < 31 * ms_per_day ->
  refund_accepted env' (Payment.id p) None db1
  /\ forall a,
       JS.truthy a = true ->
       PrimFloat.ltb (Payment.amount p) a = false ->
       refund_accepted env' (Payment.id p) (Some a) db1.
Proof.
  intros Hpost Hdata Hfresh Hage.
  destruct (post_payment_created isValidExpiryDate env d db reply db1 p
              Hpost Hdata) as [Hp Hpays].
  assert (Hget : getPaymentById db1 (Payment.id p) = Some p).
  { unfold getPaymentById in *; rewrite Hpays.
    apply find_app_fresh; [exact Hfresh|].
    unfold has_id; apply String.eqb_refl. }
  assert (Hcan : canRefundPayment env' p = true).
  { unfold canRefundPayment, calculateDaysSince.
    rewrite Hp; cbn [Payment.status Payment.createdAt buildPaymentRecord
                     existsb PaymentStatus_eqb orb andb].
    apply Z.leb_le.
    assert ((now env' - now env) / ms_per_day < 31); [|lia].
    apply Z.div_lt_upper_bound; unfold ms_per_day in *; lia. }
  unfold refund_accepted, post_refund; rewrite Hget, Hcan; cbn [negb].
  split.
  - unfold processRefund; cbn [JS.opt_or_else].
    rewrite ltb_irrefl; reflexivity.
  - intros a Ha Hle; unfold processRefund; cbn [JS.opt_or_else].
    unfold JS.or_else; rewrite Ha, Hle; reflexivity.
Qed.

Lemma X21_new_payment_is_refundable_witness :
  let answer := post_payment any_expiry sample_env paypal_body
                  (sample_db pending) in
  let p := buildPaymentRecord sample_env paypal_body
             (simulatePaymentCharge sample_env paypal_body) in
  now later_env - now sample_env < 31 * ms_per_day
  /\ refund_accepted later_env (Payment.id p) None (snd answer).
Proof.
  intros answer p.
  assert (H : now later_env - now sample_env < 31 * ms_per_day)
    by (vm_compute; reflexivity).
  split; [exact H|].
  apply (proj1 (X21_new_payment_is_refundable any_expiry sample_env later_env
                  paypal_body (sample_db pending) (fst answer) (snd answer) p
                  eq_refl eq_refl eq_refl H)).
Defined.

End PaymentFacts.

(** ** The dashboard (analyticsRoutes.ts) *)

Section AnalyticsFacts.
Import OrderRoutes Analytics.

Lemma revenue_by_totals (l1 l2 : list Order.t) :
  map extractOrderTotal l1 = map extractOrderTotal l2 ->
  calculateTotalRevenue l1 = calculateTotalRevenue l2.
Proof.
  intro H; unfold calculateTotalRevenue.
  assert (E : forall l acc,
             fold_left (fun sum order => (sum + extractOrderTotal order)%float)
               l acc
             = fold_left (fun sum t => (sum + t)%float)
                 (map extractOrderTotal l) acc).
  { induction l as [|o l IH]; intro acc; simpl; [reflexivity|apply IH]. }
  rewrite !E, H; reflexivity.
Qed.

Lemma sales_by_items (l1 l2 : list Order.t) :
  map Order.items l1 = map Order.items l2 ->
  aggregateProductSales l1 = aggregateProductSales l2.
Proof.
  intro H; unfold aggregateProductSales.
  assert (E : forall l acc,
             fold_left (fun m order => processOrderItems (Order.items order) m)
               l acc
             = fold_left (fun m items => processOrderItems items m)
                 (map Order.items l) acc).
  { induction l as [|o l IH]; intro acc; simpl; [reflexivity|apply IH]. }
  rewrite !E, H; reflexivity.
Qed.

(** A status update of one order changes neither a total nor a line. *)
Lemma status_update_keeps_totals_and_items env db id s :
  map extractOrderTotal
    (orders (snd (Store.updateRecord c_orders env db id (Order.only_status s))))
  = map extractOrderTotal (orders db)
  /\ map Order.items
       (orders (snd (Store.updateRecord c_orders env db id
                       (Order.only_status s))))
     = map Order.items (orders db).
Proof.
  destruct (Store.findRecordById c_orders db id) as [order|] eqn:Hfind.
  - destruct (updateRecord_orders env db id (Order.only_status s) order Hfind)
      as (i & _ & Hn & _ & ->).
    cbn [snd orders set_orders]; split.
    + rewrite map_replace_at; apply replace_at_same.
      rewrite nth_error_map, Hn; reflexivity.
    + rewrite map_replace_at; apply replace_at_same.
      rewrite nth_error_map, Hn; reflexivity.
  - unfold Store.updateRecord; cbn [select c_orders].
    unfold Store.findRecordById in Hfind; cbn [select c_orders] in Hfind.
    rewrite (find_none_findIndex _ _ Hfind); split; reflexivity.
Qed.

(** X22. The dashboard does not look at the status of an order: after
    a cancellation, accepted or not, and after a status update, the
    total revenue and the sales per product (hence the top products)
    are what they were.  A cancelled order keeps counting as
    revenue. *)
Theorem X22_revenue_counts_cancelled_orders
    (env : Env) (id : string) (s : OrderStatus) (limit : nat)
    (db : Database) :
  let cancelled_db := snd (post_order_cancel env id db) in
  let patched_db := snd (patch_order_status env id s db) in
  calculateTotalRevenue (orders cancelled_db)
  = calculateTotalRevenue (orders db)
  /\ getTopProducts (orders cancelled_db) limit
     = getTopProducts (orders db) limit
  /\ calculateTotalRevenue (orders patched_db)
     = calculateTotalRevenue (orders db)
  /\ getTopProducts (orders patched_db) limit
     = getTopProducts (orders db) limit.
Proof.
  intros cancelled_db patched_db.
  assert (Hc : map extractOrderTotal (orders cancelled_db)
               = map extractOrderTotal (orders db)
               /\ map Order.items (orders cancelled_db)
                  = map Order.items (orders db)).
  { unfold cancelled_db, post_order_cancel.
    destruct (getOrderById db id) as [order|]; [|split; reflexivity].
    destruct (canCancelOrder order); cbn [negb]; [|split; reflexivity].
    unfold cancelOrder, updateOrderStatus.
    pose proof (status_update_keeps_totals_and_items env db id cancelled) as H.
    destruct (Store.updateRecord c_orders env db id _) as [o d1].
    cbn [snd] in *; rewrite restoreProductStock_orders; exact H. }
  assert (Hp : map extractOrderTotal (orders patched_db)
               = map extractOrderTotal (orders db)
               /\ map Order.items (orders patched_db)
                  = map Order.items (orders db)).
  { unfold patched_db, patch_order_status.
    destruct (getOrderById db id) as [order|]; [|split; reflexivity].
    destruct (isValidStatusTransition (Order.status order) s); cbn [negb];
      [|split; reflexivity].
    unfold updateOrderStatus.
    pose proof (status_update_keeps_totals_and_items env db id s) as H.
    destruct (Store.updateRecord c_orders env db id _) as [o d1].
    exact H. }
  destruct Hc as [Hc1 Hc2]; destruct Hp as [Hp1 Hp2].
  unfold getTopProducts.
  rewrite (revenue_by_totals _ _ Hc1), (revenue_by_totals _ _ Hp1),
    (sales_by_items _ _ Hc2), (sales_by_items _ _ Hp2).
  repeat split; reflexivity.
Qed.

Lemma incrementStatusCount_count (g : StatusGroups) (st s : OrderStatus) :
  group_count (incrementStatusCount g st) s
  = group_count g s + (if OrderStatus_eqb st s then 1 else 0).
Proof. destruct st, s; simpl; lia. Qed.

Lemma groupOrdersByStatus_from (orders : list Order.t) :
  forall g s,
    group_count
      (fold_left (fun g order => incrementStatusCount g (Order.status order))
         orders g) s
    = group_count g s + Z.of_nat (List.length (with_status s orders)).
Proof.
  induction orders as [|o orders IH]; intros g s; simpl; [lia|].
  rewrite IH, incrementStatusCount_count.
  destruct (OrderStatus_eqb (Order.status o) s); simpl List.length; lia.
Qed.

Lemma with_status_partition (orders : list Order.t) :
  (List.length (with_status pending orders)
   + List.length (with_status confirmed orders)
   + List.length (with_status processing orders)
   + List.length (with_status shipped orders)
   + List.length (with_status delivered orders)
   + List.length (with_status cancelled orders))%nat
  = List.length orders.
Proof.
  induction orders as [|o orders IH]; simpl; [reflexivity|].
  destruct (Order.status o); simpl; lia.
Qed.

(** X23. The groups of orders by status count every order once: the
    count of a status is the number of orders that have it, and the
    six counts add up to the number of orders. *)
Theorem X23_status_groups_count_every_order (orders : list Order.t) :
  let g := groupOrdersByStatus orders in
  (forall s,
      group_count g s = Z.of_nat (List.length (with_status s orders)))
  /\ n_pending g + n_confirmed g + n_processing g + n_shipped g
     + n_delivered g + n_cancelled g
     = Z.of_nat (calculateTotalOrders orders).
Proof.
  intro g.
  assert (H : forall s,
             group_count g s = Z.of_nat (List.length (with_status s orders))).
  { intro s; unfold g, groupOrdersByStatus.
    rewrite groupOrdersByStatus_from; destruct s; reflexivity. }
  split; [exact H|].
  pose proof (H pending) as H1; pose proof (H confirmed) as H2.
  pose proof (H processing) as H3; pose proof (H shipped) as H4.
  pose proof (H delivered) as H5; pose proof (H cancelled) as H6.
  simpl in H1, H2, H3, H4, H5, H6.
  unfold calculateTotalOrders.
  rewrite H1, H2, H3, H4, H5, H6, <- (with_status_partition orders); lia.
Qed.

Lemma stock_counts (l : list Product.t) :
  ((countInStockProducts l + countOutOfStockProducts l <= List.length l)%nat)
  /\ ((countInStockProducts l + countOutOfStockProducts l)%nat
      = List.length l
      <-> Forall (fun p => 0 <= Product.stock p) l)
  /\ (countLowStockProducts l <= countInStockProducts l)%nat.
Proof.
  unfold countInStockProducts, countOutOfStockProducts, countLowStockProducts.
  induction l as [|p l (IH1 & IH2 & IH3)]; simpl.
  - split; [lia|]; split; [|lia]. split; [constructor|reflexivity].
  - destruct (0 <? Product.stock p) eqn:Hpos;
      destruct (Product.stock p =? 0) eqn:Hzero;
      destruct (Product.stock p <? 10) eqn:Hlow; simpl;
      (split; [lia|]; split; [|lia]); split; intro H;
      try (constructor; [lia|apply IH2; lia]);
      try (inversion H; subst; apply IH2 in H3; lia);
      try (exfalso; lia);
      try (inversion H; subst; lia).
Qed.

(** X24. The inventory counts of the dashboard: the products in stock
    and the products out of stock make up all the products exactly when
    no product has a negative stock (a product with a negative stock,
    which an order for more than the stock leaves behind, is counted in
    neither); the products low in stock are among those in stock. *)
Theorem X24_inventory_counts (db : Database) :
  ((countInStockProducts (products db)
    + countOutOfStockProducts (products db))%nat
   = List.length (products db)
   <-> stock_nonneg db)
  /\ (countInStockProducts (products db)
      + countOutOfStockProducts (products db)
      <= List.length (products db))%nat
  /\ (countLowStockProducts (products db)
      <= countInStockProducts (products db))%nat.
Proof.
  destruct (stock_counts (products db)) as (H1 & H2 & H3).
  split; [|split; assumption].
  rewrite H2; unfold stock_nonneg, stock_view.
  rewrite Forall_map; reflexivity.
Qed.

Lemma X24_inventory_counts_witness :
  stock_nonneg shop
  /\ (countInStockProducts (products shop)
      + countOutOfStockProducts (products shop))%nat
     = List.length (products shop).
Proof.
  assert (H : stock_nonneg shop).
  { unfold stock_nonneg; simpl; repeat constructor; simpl; lia. }
  split; [exact H|].
  apply (proj2 (proj1 (X24_inventory_counts shop)) H).
Defined.












Lemma insert_sale_perm (x : ProductSales) (l : list ProductSales) :
  Permutation (insert_sale x l) (x :: l).
Proof.
  induction l as [|y l IH]; simpl; [apply Permutation_refl|].
  destruct (quantity y <=? quantity x); [apply Permutation_refl|].
  apply perm_trans with (y :: x :: l); [|apply perm_swap].
  apply perm_skip; exact IH.
Qed.

Lemma sortByQuantity_perm (l : list ProductSales) :
  Permutation (sortByQuantity l) l.
Proof.
  unfold sortByQuantity; induction l as [|x l IH]; simpl;
    [apply Permutation_refl|].
  apply perm_trans with (x :: fold_right insert_sale [] l);
    [apply insert_sale_perm|apply perm_skip; exact IH].
Qed.

Lemma insert_sale_sorted (x : ProductSales) (l : list ProductSales) :
  StronglySorted sells_no_less l ->
  StronglySorted sells_no_less (insert_sale x l).
Proof.
  induction 1 as [|y l Hl IH Hy]; simpl; [repeat constructor|].
  destruct (quantity y <=? quantity x) eqn:E.
  - apply Z.leb_le in E.
    constructor; [constructor; assumption|].
    constructor; [exact E|].
    rewrite Forall_forall in *; intros z Hz.
    specialize (Hy z Hz); unfold sells_no_less in *; lia.
  - apply Z.leb_gt in E.
    constructor; [exact IH|].
    apply (Permutation_Forall (Permutation_sym (insert_sale_perm x l))).
    constructor; [unfold sells_no_less; lia|exact Hy].
Qed.

Lemma sortByQuantity_sorted (l : list ProductSales) :
  StronglySorted sells_no_less (sortByQuantity l).
Proof.
  unfold sortByQuantity; induction l as [|x l IH]; simpl; [constructor|].
  apply insert_sale_sorted; exact IH.
Qed.

(** X26. The top products are the head of the sales per product put in
    descending order of quantity: together with the entries that are
    left out they are a rearrangement of the sales per product in which
    every entry sells no less than all the entries after it; they are
    [limit] entries, or all when there are fewer; and no entry that is
    left out sells more than a top product. *)
Theorem X26_top_products_sell_most (orders : list Order.t) (limit : nat) :
  let top := getTopProducts orders limit in
  exists rest,
    Permutation (top ++ rest) (aggregateProductSales orders)
    /\ StronglySorted sells_no_less (top ++ rest)
    /\ List.length top
       = Nat.min limit (List.length (aggregateProductSales orders))
    /\ forall a b, In a top -> In b rest -> quantity b <= quantity a.
Proof.
  intro top; unfold top, getTopProducts.
  set (sales := aggregateProductSales orders).
  exists (skipn limit (sortByQuantity sales)).
  rewrite firstn_skipn.
  split; [apply sortByQuantity_perm|].
  split; [apply sortByQuantity_sorted|].
  split.
  - rewrite length_firstn.
    rewrite (Permutation_length (sortByQuantity_perm sales)); reflexivity.
  - pose proof (sortByQuantity_sorted sales) as Hs.
    rewrite <- (firstn_skipn limit (sortByQuantity sales)) in Hs.
    revert Hs.
    generalize (firstn limit (sortByQuantity sales)) as l1.
    generalize (skipn limit (sortByQuantity sales)) as l2.
    intros l2 l1; induction l1 as [|x l1 IH]; simpl; [intros _ a b []|].
    intros Hs a b [<-|Ha] Hb.
    + inversion Hs as [|? ? _ Hall]; subst.
      rewrite Forall_forall in Hall; apply (Hall b).
      apply in_or_app; right; exact Hb.
    + inversion Hs; subst; apply IH; assumption.
Qed.

Lemma X26_top_products_sell_most_witness :
  map (fun e => (productId e, quantity e)) (getTopProducts sold_orders 1)
  = [("P1", 5)]
  /\ exists rest,
       Permutation (getTopProducts sold_orders 1 ++ rest)
         (aggregateProductSales sold_orders)
       /\ forall a b,
            In a (getTopProducts sold_orders 1) -> In b rest ->
            quantity b <= quantity a.
Proof.
  split; [reflexivity|].
  destruct (X26_top_products_sell_most sold_orders 1)
    as (rest & H1 & _ & _ & H4).
  exists rest; split; [exact H1|exact H4].
Defined.

End AnalyticsFacts.

(** ** Products: creation and availability *)

Section ProductFacts.
Import ProductRoutes ProductViews.

Lemma positive_truthy (y : JS.number) :
  PrimFloat.ltb 0%float y = true -> JS.truthy y = true.
Proof.
  unfold JS.truthy, JS.isNaN.
  rewrite ltb_spec, !FloatAxioms.eqb_spec.
  change (Prim2SF 0%float) with (S754_zero false).
  destruct (Prim2SF y) as [s|s| |s m e]; try destruct s; try discriminate;
    intros _; try reflexivity.
  rewrite SFeqb_finite_refl; reflexivity.
Qed.

(** X27. A product can only be created valid: POST /products either
    answers 400 and leaves the store as it is, or answers 201 and
    appends one product that has a name, a price above zero, a stock
    that is not negative, the generated id and the time of the request
    as its creation time; orders, carts and payments are untouched. *)
Theorem X27_created_products_are_valid
    (env : Env) (req_body : Product.partial) (db : Database) :
  let reply := fst (post_product env req_body db) in
  let db1 := snd (post_product env req_body db) in
  (code reply = 400
   /\ Validators.isValid (Validators.validateProduct req_body) = false
   /\ db1 = db)
  \/ (code reply = 201
      /\ exists p,
           data (body reply) = Some p
           /\ db1 = set_products (products db ++ [p]) db
           /\ Product.name p <> ""
           /\ PrimFloat.ltb 0%float (Product.price p) = true
           /\ 0 <= Product.stock p
           /\ Product.id p = Helpers.generateId env
           /\ Product.createdAt p = Some (now env)).
Proof.
  intros reply db1; unfold reply, db1, post_product; clear reply db1.
  destruct (Validators.isValid (Validators.validateProduct req_body))
    eqn:Hvalid; cbn [negb]; [right|left; auto].
  split; [reflexivity|].
  eexists; split; [reflexivity|]; split; [reflexivity|].
  unfold Validators.validateProduct, Validators.buildValidationResult,
    Validators.push_unless in Hvalid.
  destruct (Validators.validateRequiredField (Product.name' req_body))
    eqn:Hname;
    destruct (Validators.validatePrice (Product.price' req_body)) eqn:Hprice;
    destruct (Validators.validateStock (Product.stock' req_body)) eqn:Hstock;
    try discriminate Hvalid.
  cbn [createProduct Store.insertRecord fst buildProductObject
       put_createdAt put_id Stored_Product Product.with_createdAt
       Product.with_id Product.name Product.price Product.stock Product.id
       Product.createdAt].
  split; [|split; [|split; [|split; [|reflexivity]]]].
  4: { cbn [get_id Stored_Product buildProductObject Product.id].
       destruct (Helpers.generateId env =? "")%string; reflexivity. }
  - unfold Validators.validateRequiredField in Hname.
    destruct (Product.name' req_body) as [v|]; [|discriminate Hname].
    unfold str_or_else; destruct (v =? "")%string eqn:E;
      [discriminate Hname|].
    apply String.eqb_neq; exact E.
  - unfold Validators.validatePrice in Hprice.
    destruct (Product.price' req_body) as [x|]; [|discriminate Hprice].
    apply Bool.andb_true_iff in Hprice; destruct Hprice as [_ Hpos].
    unfold JS.or_else; rewrite (positive_truthy _ Hpos); exact Hpos.
  - unfold Validators.validateStock in Hstock.
    destruct (Product.stock' req_body) as [n|]; [|discriminate Hstock].
    apply Z.leb_le; exact Hstock.
Qed.

(** X28. The availability shown for a product is consistent exactly
    when its stock is not negative: then it is reported out of stock
    precisely when it is not in stock.  A product with a negative
    stock, which an order for more than the stock leaves behind, is
    shown as not in stock and yet with the status low_stock. *)
Theorem X28_availability_of_negative_stock (p : Product.t) :
  let a := checkProductAvailability p in
  ((inStock a = false <-> availability_status a = "out_of_stock")
   <-> 0 <= Product.stock p)
  /\ (Product.stock p < 0 ->
      inStock a = false /\ availability_status a = "low_stock")
  /\ available_quantity a = Product.stock p.
Proof.
  intro a; unfold a, checkProductAvailability, getAvailabilityStatus;
    cbn [inStock availability_status available_quantity].
  destruct (Z.ltb_spec 0 (Product.stock p));
    destruct (Z.eqb_spec (Product.stock p) 0);
    destruct (Z.ltb_spec (Product.stock p) 10);
    try lia;
    (split;
     [split;
      [intros [H1 H2]; first [lia | discriminate (H1 eq_refl)]
      |intros Hge; split; intro E;
       first [reflexivity | discriminate E | lia]]
     |split; [intro Hneg; first [lia | split; reflexivity]|reflexivity]]).
Qed.

Lemma X28_availability_of_negative_stock_witness :
  let p := Product.spread widget (Product.only_stock (-1)) in
  Product.stock p < 0
  /\ inStock (checkProductAvailability p) = false
  /\ availability_status (checkProductAvailability p) = "low_stock".
Proof.
  intro p.
  assert (H : Product.stock p < 0) by (simpl; lia).
  split; [exact H|].
  apply (proj1 (proj2 (X28_availability_of_negative_stock p)) H).
Defined.

End ProductFacts.

(** ** The request log *)

Section LoggerFacts.
Import Logger.

Lemma substring_prefix_length (m : nat) (s : string) :
  (m <= String.length s)%nat -> String.length (substring 0 m s) = m.
Proof.
  intro H; destruct (substring_split 0 m s) as (_ & _ & _ & _ & E);
    [simpl; lia|exact E].
Qed.

(** X29. The URL written to the log has at most 100 characters: a URL
    of at most 100 characters is written as it is, a longer one is cut
    to its first 97 characters followed by three dots, which makes
    exactly 100; formatting a formatted URL changes nothing. *)
Theorem X29_logged_url_is_bounded (url : string) :
  (String.length (formatUrl url) <= 100)%nat
  /\ ((String.length url <= 100)%nat -> formatUrl url = url)
  /\ ((100 < String.length url)%nat ->
      String.length (formatUrl url) = 100%nat
      /\ exists rest,
           url = substring 0 97 url ++ rest
           /\ formatUrl url = substring 0 97 url ++ "...")
  /\ formatUrl (formatUrl url) = formatUrl url.
Proof.
  assert (Hshort : forall u, (String.length u <= 100)%nat -> formatUrl u = u).
  { intros u Hu; unfold formatUrl.
    destruct (100 <? String.length u)%nat eqn:E; [|reflexivity].
    apply Nat.ltb_lt in E; lia. }
  assert (Hlong : (100 < String.length url)%nat ->
                  String.length (formatUrl url) = 100%nat
                  /\ exists rest,
                       url = substring 0 97 url ++ rest
                       /\ formatUrl url = substring 0 97 url ++ "...").
  { intro Hu; unfold formatUrl, truncateUrl.
    destruct (100 <? String.length url)%nat eqn:E;
      [|apply Nat.ltb_ge in E; lia].
    split.
    - rewrite length_append, substring_prefix_length; [reflexivity|lia].
    - destruct (substring_split 0 97 url) as (a & b & Hs & Ha & _);
        [simpl; lia|].
      destruct a; [|discriminate Ha].
      exists b; split; [exact Hs|reflexivity]. }
  assert (Hbound : (String.length (formatUrl url) <= 100)%nat).
  { destruct (Nat.le_gt_cases (String.length url) 100) as [H|H].
    - rewrite (Hshort url H); exact H.
    - destruct (Hlong H) as [-> _]; lia. }
  split; [exact Hbound|]; split; [apply Hshort|]; split; [exact Hlong|].
  apply Hshort; exact Hbound.
Qed.

Lemma X29_logged_url_is_bounded_witness :
  (String.length "/api/products?query=widget" <= 100)%nat
  /\ formatUrl "/api/products?query=widget" = "/api/products?query=widget".
Proof.
  assert (H : (String.length "/api/products?query=widget" <= 100)%nat)
    by (simpl; lia).
  split; [exact H|].
  apply (proj1 (proj2 (X29_logged_url_is_bounded
                         "/api/products?query=widget")) H).
Defined.

Lemma skipn_snoc {A : Type} (k : nat) (l : list A) (x : A) :
  (k <= List.length l)%nat -> skipn k (l ++ [x]) = (skipn k l ++ [x])%list.
Proof.
  intro H; rewrite skipn_app.
  replace (k - List.length l)%nat with 0%nat by lia; reflexivity.
Qed.

(** The buffer after the entries: what is left since the last flush. *)
Lemma log_buffer_after (entries : list string) :
  exists q r,
    List.length entries = (1001 * q + r)%nat
    /\ (r <= 1000)%nat
    /\ fold_left writeLog entries [] = skipn (1001 * q) entries.
Proof.
  induction entries as [|e entries IH] using rev_ind.
  - exists 0%nat, 0%nat; split; [reflexivity|split; [lia|reflexivity]].
  - destruct IH as (q & r & Hlen & Hr & Hbuf).
    rewrite fold_left_app; cbn [fold_left]; rewrite Hbuf.
    unfold writeLog, appendToLogBuffer, flushLogBuffer.
    assert (Hb : List.length (skipn (1001 * q) entries ++ [e])
                 = (r + 1)%nat).
    { rewrite length_app, length_skipn; simpl; lia. }
    rewrite Hb.
    destruct (1000 <? r + 1)%nat eqn:E.
    + apply Nat.ltb_lt in E.
      exists (q + 1)%nat, 0%nat; rewrite length_app; simpl List.length.
      split; [lia|]; split; [lia|].
      symmetry; apply skipn_all2; rewrite length_app; simpl; lia.
    + apply Nat.ltb_ge in E.
      exists q, (r + 1)%nat; rewrite length_app; simpl List.length.
      split; [lia|]; split; [lia|].
      symmetry; apply skipn_snoc; lia.
Qed.

(** X30. The log buffer never holds more than 1000 entries: after any
    number [n] of log writes, starting from the empty buffer, it holds
    the last [n mod 1001] entries written, in order; the write that
    would make 1001 empties it, that entry included. *)
Theorem X30_log_buffer_is_bounded (entries : list string) :
  let buffer := fold_left writeLog entries [] in
  (List.length buffer <= 1000)%nat
  /\ List.length buffer = (List.length entries mod 1001)%nat
  /\ buffer
     = skipn (List.length entries - List.length entries mod 1001) entries.
Proof.
  intro buffer; unfold buffer.
  destruct (log_buffer_after entries) as (q & r & Hlen & Hr & ->).
  assert (Hmod : (List.length entries mod 1001 = r)%nat).
  { symmetry; apply (Nat.mod_unique _ 1001 q r); lia. }
  rewrite Hmod, length_skipn.
  split; [lia|]; split; [lia|].
  f_equal; lia.
Qed.

End LoggerFacts.
